(** * pmpts: the prompt-file manager of [src/pmpts/cli.py]

    A shallow embedding of [add_file], [remove_prompt], [rename_prompt] and
    [perform_undo] together with the configuration helpers they call, of
    [copy_prompt], of the plain listing of [list_prompts] and of [main] from
    the parsed arguments on, over an explicit model of the process
    environment (file system, clock, standard input, the in-memory [cfg]
    dict and the persisted configuration file).

    What the model fixes about the environment:
    - paths are normalised POSIX path strings, and a file-system node is a
      regular file with its bytes or a directory (no links);
    - [shutil.move] and [shutil.copy2] are atomic: a call either takes
      effect or raises and leaves the file system as it was;
    - any [mkdir], [shutil.move], [shutil.copy2], [iterdir] or write of the
      configuration file may fail for reasons outside the file system, as a
      fault schedule in the state decides;
    - [CONFIG_PATH] lies outside the paths the operations move, so the
      persisted configuration is a component of its own;
    - text printed to the terminal is not part of the state: [list_prompts]
      and [main] return what they print, and the message [save_config]
      writes to standard error is left out.

    Not modelled: the table [list_prompts] prints with [verbose] and
    [parse_frontmatter], which feeds it (they work on decoded Unicode text
    and on [textwrap]), and the parsing of the command line by [argparse]. *)

From Stdlib Require Import ZArith Ascii String List Lia.
From stdpp Require Import base option gmap strings pretty sorting.

Local Open Scope string_scope.

(** ** String helpers ([str] methods used by the source) *)

Module Str.

(** [s.endswith(suf)] *)
Definition endswith (s suf : string) : bool :=
  (String.length suf <=? String.length s)%nat &&
  String.eqb (substring (String.length s - String.length suf)
                        (String.length suf) s) suf.

(** [base[: -len(SUFFIX)]]: drop the last [n] characters. *)
Definition drop_end (n : nat) (s : string) : string :=
  substring 0 (String.length s - n) s.

(** ASCII white space, as removed by [str.strip()]. *)
Definition is_space (c : ascii) : bool :=
  let n := nat_of_ascii c in
  ((9 <=? n) && (n <=? 13) || (28 <=? n) && (n <=? 32))%nat.

Fixpoint lstrip (s : string) : string :=
  match s with
  | String c r => if is_space c then lstrip r else s
  | EmptyString => EmptyString
  end.

Fixpoint rstrip (s : string) : string :=
  match s with
  | String c r =>
      match rstrip r with
      | EmptyString => if is_space c then EmptyString else String c EmptyString
      | r' => String c r'
      end
  | EmptyString => EmptyString
  end.

Definition strip (s : string) : string := rstrip (lstrip s).

Definition lower_ascii (c : ascii) : ascii :=
  let n := nat_of_ascii c in
  if ((65 <=? n) && (n <=? 90))%nat then ascii_of_nat (n + 32) else c.

Fixpoint lower (s : string) : string :=
  match s with
  | String c r => String (lower_ascii c) (lower r)
  | EmptyString => EmptyString
  end.

(** Truthiness of a [str]: non-empty. *)
Definition truthy (s : string) : bool :=
  match s with EmptyString => false | _ => true end.

End Str.

(** ** Paths ([pathlib.Path] on already normalised POSIX path strings) *)

Module PathLib.

(** Split at the last ["/"]: [Some (before, after)], or [None] when the
    string has no separator. *)
Fixpoint rsplit (s : string) : option (string * string) :=
  match s with
  | EmptyString => None
  | String c r =>
      match rsplit r with
      | Some (a, b) => Some (String c a, b)
      | None => if Ascii.eqb c "/" then Some (EmptyString, r) else None
      end
  end.

(** [p.name] *)
Definition name (p : string) : string :=
  match rsplit p with
  | Some (_, b) => b
  | None => p
  end.

(** [p.parent] *)
Definition parent (p : string) : string :=
  match rsplit p with
  | Some (EmptyString, _) => "/"
  | Some (a, _) => a
  | None => "."
  end.

Definition is_absolute (p : string) : bool :=
  match p with
  | String c _ => Ascii.eqb c "/"
  | EmptyString => false
  end.

(** [a / b] *)
Definition join (a b : string) : string :=
  if is_absolute b then b
  else if String.eqb b EmptyString then a
  else if String.eqb a "." || String.eqb a EmptyString then b
  else if String.eqb a "/" then a ++ b
  else a ++ "/" ++ b.

End PathLib.

Notation "a // b" := (PathLib.join a b) (at level 40, left associativity).

Definition DEFAULT_ROOT : string :=
  "/mnt/c/Users/Rubens/AppData/Roaming/Code/User/prompts".
Definition SUFFIX : string := ".prompt.md".


(** ** The process environment *)

(** A file-system node: a regular file with its bytes, or a directory. *)
Inductive node :=
| File (data : list Byte.byte)
| Dir.

(** JSON values that occur in the configuration: strings and flat objects
    of strings (the shape of every [last_action] record the program writes). *)
Inductive jv :=
| JStr (s : string)
| JObj (o : gmap string string).

(** Python exceptions that the modelled calls can raise. [OSError] stands for
    the whole family ([FileNotFoundError], [FileExistsError],
    [NotADirectoryError], [PermissionError], [shutil.Error]). *)
Inductive exn :=
| OSError (msg : string)
| EOFError
| TypeError
| AttributeError.

Definition str_exn (e : exn) : string :=
  match e with
  | OSError msg => msg
  | EOFError => "EOF when reading a line"
  | TypeError => "expected str, bytes or os.PathLike object, not NoneType"
  | AttributeError => "'str' object has no attribute 'get'"
  end.

(** The state every call runs in.
    - [fs]: the file system, keyed by normalised absolute path;
    - [clock]: the value of [int(time.time())];
    - [stdin]: the lines [input()] will read;
    - [faults]: the environment's verdict on the next fallible system calls
      ([mkdir], [shutil.move], [shutil.copy2], [iterdir], [write_text]),
      [true] meaning the call raises [OSError] whatever the file system
      looks like (permissions, full disk, ...); an exhausted list means no
      further fault;
    - [cwd]: [Path.cwd()];
    - [disk]: the parsed contents of [CONFIG_PATH], [None] when the file is
      absent or unreadable;
    - [cfg]: the dict object the caller passes as [cfg]; the functions
      mutate it in place, so it lives in the state. *)
Record State := mkState {
  fs : gmap string node;
  clock : Z;
  stdin : list string;
  faults : list bool;
  cwd : string;
  disk : option (gmap string jv);
  cfg : gmap string jv
}.

Definition set_fs (m : gmap string node) (s : State) : State :=
  mkState m (clock s) (stdin s) (faults s) (cwd s) (disk s) (cfg s).
Definition set_stdin (l : list string) (s : State) : State :=
  mkState (fs s) (clock s) l (faults s) (cwd s) (disk s) (cfg s).
Definition set_faults (l : list bool) (s : State) : State :=
  mkState (fs s) (clock s) (stdin s) l (cwd s) (disk s) (cfg s).
Definition set_disk (d : option (gmap string jv)) (s : State) : State :=
  mkState (fs s) (clock s) (stdin s) (faults s) (cwd s) d (cfg s).
Definition set_cfg (c : gmap string jv) (s : State) : State :=
  mkState (fs s) (clock s) (stdin s) (faults s) (cwd s) (disk s) c.

(** ** A state-and-exception monad *)

Inductive Res (A : Type) :=
| Val (a : A)
| Raise (e : exn).
Arguments Val {A} a.
Arguments Raise {A} e.

Definition M (A : Type) : Type := State -> Res A * State.

Definition ret {A} (a : A) : M A := fun s => (Val a, s).
Definition raise {A} (e : exn) : M A := fun s => (Raise e, s).
Definition bind {A B} (m : M A) (f : A -> M B) : M B :=
  fun s => match m s with
           | (Val a, s') => f a s'
           | (Raise e, s') => (Raise e, s')
           end.
(** [try: m  except Exception as e: h e] *)
Definition try_except {A} (m : M A) (h : exn -> M A) : M A :=
  fun s => match m s with
           | (Val a, s') => (Val a, s')
           | (Raise e, s') => h e s'
           end.

Declare Scope py_scope.
Delimit Scope py_scope with py.
Notation "x <- m ;; k" := (bind m (fun x => k))
  (at level 100, m at next level, right associativity) : py_scope.
Notation "m ;; k" := (bind m (fun _ => k))
  (at level 100, right associativity) : py_scope.
Local Open Scope py_scope.

(** ** File-system primitives *)

Module FS.

Definition is_dir (m : gmap string node) (p : string) : bool :=
  match m !! p with Some Dir => true | _ => false end.

Definition exists_ (m : gmap string node) (p : string) : bool :=
  match m !! p with Some _ => true | None => false end.

(** [Path.mkdir(parents=True, exist_ok=True)]: an existing directory is
    accepted, missing ancestors are created, a regular file on the way
    raises. The recursion follows [pathlib]; [fuel] bounds the number of
    ancestors visited, and the [String.length p] that [mkdir_p] hands out is
    enough (lemma [mkdir_go_fuel]). *)
Fixpoint mkdir_go (fuel : nat) (p : string) (m : gmap string node)
  : option (gmap string node) :=
  match m !! p with
  | Some Dir => Some m
  | Some (File _) => None
  | None =>
      let par := PathLib.parent p in
      match m !! par with
      | Some Dir => Some (<[p := Dir]> m)
      | Some (File _) => None
      | None =>
          match fuel with
          | O => None
          | S f =>
              if String.eqb par p then None
              else match mkdir_go f par m with
                   | Some m' => Some (<[p := Dir]> m')
                   | None => None
                   end
          end
      end
  end.

Definition mkdir_p (p : string) (m : gmap string node)
  : option (gmap string node) :=
  mkdir_go (String.length p) p m.

(** Where a key of the subtree rooted at [src] lands when that directory
    is renamed to [dst]. *)
Definition rebase (src dst k : string) : string :=
  if String.eqb k src then dst
  else if String.prefix (src ++ "/") k
       then dst ++ substring (String.length src)
                             (String.length k - String.length src) k
       else k.

Definition rename_tree (src dst : string) (m : gmap string node)
  : gmap string node :=
  list_to_map (prod_map (rebase src dst) id <$> map_to_list m).

(** [shutil.move(src, dst)] on a POSIX file system.
    - an existing directory [dst] receives the source under its own name,
      unless that name is taken;
    - a regular file is renamed onto the target, replacing a regular file
      that is there; the target's parent has to be a directory;
    - a directory is renamed with its whole subtree, onto a free name
      outside itself.
    A failed move leaves the file system as it was. *)
Definition move (m : gmap string node) (src dst : string)
  : exn + gmap string node :=
  let real_dst := if is_dir m dst then dst // PathLib.name src else dst in
  if is_dir m dst && is_dir m src && String.eqb src dst then inr m
  else if is_dir m dst && exists_ m real_dst
  then inl (OSError ("Destination path '" ++ real_dst ++ "' already exists"))
  else
    match m !! src with
    | None => inl (OSError ("No such file or directory: '" ++ src ++ "'"))
    | Some (File d) =>
        if is_dir m (PathLib.parent real_dst)
        then inr (<[real_dst := File d]> (delete src m))
        else inl (OSError ("No such file or directory: '" ++ real_dst ++ "'"))
    | Some Dir =>
        if exists_ m real_dst
        then inl (OSError ("Not a directory: '" ++ real_dst ++ "'"))
        else if String.prefix (src ++ "/") real_dst
        then inl (OSError ("Cannot move a directory '" ++ src ++
                           "' into itself '" ++ real_dst ++ "'."))
        else if is_dir m (PathLib.parent real_dst)
        then inr (rename_tree src real_dst m)
        else inl (OSError ("No such file or directory: '" ++ real_dst ++ "'"))
    end.

End FS.

(** ** System calls in the monad *)

(** Consume the environment's verdict on the next fallible call. *)
Definition take_fault : M bool :=
  fun s => match faults s with
           | b :: l => (Val b, set_faults l s)
           | [] => (Val false, s)
           end.

(** [p.exists()] *)
Definition path_exists (p : string) : M bool :=
  fun s => (Val (FS.exists_ (fs s) p), s).

(** [p.mkdir(parents=True, exist_ok=True)] *)
Definition path_mkdir (p : string) : M unit :=
  f <- take_fault ;;
  if f : bool then raise (OSError ("Permission denied: '" ++ p ++ "'"))
  else fun s => match FS.mkdir_p p (fs s) with
                | Some m => (Val tt, set_fs m s)
                | None => (Raise (OSError ("File exists: '" ++ p ++ "'")), s)
                end.

(** [shutil.move(str(src), str(dst))] *)
Definition shutil_move (src dst : string) : M unit :=
  f <- take_fault ;;
  if f : bool then raise (OSError ("Permission denied: '" ++ src ++ "'"))
  else fun s => match FS.move (fs s) src dst with
                | inr m => (Val tt, set_fs m s)
                | inl e => (Raise e, s)
                end.

(** [int(time.time())] *)
Definition time_time : M Z := fun s => (Val (clock s), s).

(** [input(prompt)]; the prompt text is written to the terminal and is not
    part of the state. *)
Definition input (prompt : string) : M string :=
  fun s => match stdin s with
           | l :: rest => (Val l, set_stdin rest s)
           | [] => (Raise EOFError, s)
           end.

(** [Path.cwd()] *)
Definition Path_cwd : M string := fun s => (Val (cwd s), s).

(** [Path(x)] for [x] obtained by [dict.get]: [Path(None)] raises. *)
Definition Path_of (x : option string) : M string :=
  match x with
  | Some p => ret p
  | None => raise TypeError
  end.

Definition get_cfg : M (gmap string jv) := fun s => (Val (cfg s), s).
(** [cfg[k] = v] *)
Definition cfg_setitem (k : string) (v : jv) : M unit :=
  fun s => (Val tt, set_cfg (<[k := v]> (cfg s)) s).
(** [cfg.pop(k, None)] *)
Definition cfg_pop (k : string) : M unit :=
  fun s => (Val tt, set_cfg (delete k (cfg s)) s).

(** ** The program *)

Definition nl : string := String (ascii_of_nat 10) EmptyString.

(** [load_config()]: a missing or unparsable file gives the empty dict. *)
Definition load_config : M (gmap string jv) :=
  fun s => match disk s with
           | Some c => (Val c, s)
           | None => (Val ∅, s)
           end.

(** [save_config(cfg)]: a failed write is reported on standard error and
    otherwise ignored. *)
Definition save_config (c : gmap string jv) : M unit :=
  try_except
    (f <- take_fault ;;
     if f : bool then raise (OSError "Permission denied")
     else fun s => (Val tt, set_disk (Some c) s))
    (fun _ => ret tt).

(** [get_root(config)]: [Path(config.get("root") or DEFAULT_ROOT)]. A
    missing entry, an empty string and an empty object are falsy and give the
    default; [Path] of a non-empty object raises. *)
Definition get_root (config : gmap string jv) : M string :=
  match config !! "root" with
  | Some (JStr r) => if Str.truthy r then ret r else ret DEFAULT_ROOT
  | Some (JObj o) =>
      if bool_decide (o = ∅) then ret DEFAULT_ROOT else raise TypeError
  | None => ret DEFAULT_ROOT
  end.

(** [ensure_root(path)] *)
Definition ensure_root (path : string) : M unit :=
  e <- path_exists path ;;
  if negb e then path_mkdir path else ret tt.

(** [trash_dir_for(root)] *)
Definition trash_dir_for (root : string) : M string :=
  let d := root // ".trash" in
  path_mkdir d ;;
  ret d.

(** [ans.strip().lower() in ("y", "yes")] *)
Definition said_yes (ans : string) : bool :=
  let a := Str.lower (Str.strip ans) in
  String.eqb a "y" || String.eqb a "yes".

(** [name if name.endswith(SUFFIX) else name + SUFFIX] *)
Definition with_suffix (name : string) : string :=
  if Str.endswith name SUFFIX then name else name ++ SUFFIX.

(** [f"{int(time.time())}_{name}"] *)
Definition trash_name (t : Z) (name : string) : string :=
  pretty t ++ "_" ++ name.

(** The trash sequence that [add_file] (lines 73-79), [remove_prompt]
    (lines 118-124) and [rename_prompt] (lines 158-164) each spell out:
    create the trash directory, build the time-stamped name, move the file.
    A failing [mkdir] propagates (the call sits outside the [try]); a failing
    move is caught and handed back with the path, for the caller to turn
    into its own failure message. *)
Definition move_to_trash (root p : string) : M (string * option exn) :=
  td <- trash_dir_for root ;;
  t <- time_time ;;
  let tname := trash_name t (PathLib.name p) in
  let trashed := td // tname in
  try_except (shutil_move p trashed ;; ret (trashed, None))
             (fun e => ret (trashed, Some e)).

(** The destination name [add_file] computes from the source path
    (lines 59-61). *)
Definition add_base (src : string) : string :=
  let base := PathLib.name src in
  if negb (Str.endswith base SUFFIX) then base ++ SUFFIX else base.

(** [add_file(root, src, cfg, force)] *)
Definition add_file (root src : string) (force : bool) : M (bool * string) :=
  e <- path_exists src ;;
  if negb e then ret (false, "File not found: " ++ src) else
  let base := add_base src in
  let dest := root // base in
  (* lines 81-104, reached with the value of [overwritten_trash] *)
  let finish (overwritten_trash : option string) : M (bool * string) :=
    r <- try_except
           (shutil_move src dest ;; ret None)
           (fun e =>
              match overwritten_trash with
              | Some ot =>
                  oe <- path_exists ot ;;
                  if oe : bool
                  then try_except (shutil_move ot dest) (fun _ => ret tt)
                  else ret tt
              | None => ret tt
              end ;;
              ret (Some (false, "Failed to move: " ++ str_exn e))) ;;
    match r with
    | Some failure => ret failure
    | None =>
        let cfg_last : gmap string string :=
          <["dest" := dest]> (<["src" := src]> {["action" := "add"]}) in
        let cfg_last :=
          match overwritten_trash with
          | Some ot => <["overwritten_trash" := ot]> cfg_last
          | None => cfg_last
          end in
        cfg_setitem "last_action" (JObj cfg_last) ;;
        c <- get_cfg ;;
        save_config c ;;
        let name_no_suffix :=
          if Str.endswith base SUFFIX
          then Str.drop_end (String.length SUFFIX) base else base in
        ret (true, "added prompt " ++ base ++ nl ++
                   "use /" ++ name_no_suffix ++ " to use it")
    end in
  de <- path_exists dest ;;
  if de : bool then
    go <- (if negb force
           then ans <- input (dest ++ " already exists. Overwrite? [y/N]: ") ;;
                ret (said_yes ans)
           else ret true) ;;
    if negb go then ret (false, "aborted") else
    tr <- move_to_trash root dest ;;
    match tr with
    | (_, Some e) =>
        ret (false, "Failed to move existing prompt to trash: " ++ str_exn e)
    | (overwritten_trash, None) => finish (Some overwritten_trash)
    end
  else finish None.

(** [remove_prompt(root, name, cfg, yes)] *)
Definition remove_prompt (root name : string) (yes : bool)
  : M (bool * string) :=
  let candidate := with_suffix name in
  let p := root // candidate in
  e <- path_exists p ;;
  if negb e then ret (false, "Not found: " ++ candidate) else
  go <- (if negb yes
         then ans <- input ("Remove " ++ p ++ "? [y/N]: ") ;;
              ret (said_yes ans)
         else ret true) ;;
  if negb go then ret (false, "aborted") else
  tr <- move_to_trash root p ;;
  match tr with
  | (_, Some e) =>
      ret (false, "Failed to remove (move to trash): " ++ str_exn e)
  | (trashed, None) =>
      cfg_setitem "last_action"
        (JObj (<["trashed" := trashed]>
                 (<["dest" := p]> {["action" := "remove"]}))) ;;
      c <- get_cfg ;;
      save_config c ;;
      ret (true, "removed " ++ candidate ++ " (moved to trash)")
  end.

(** [rename_prompt(root, old, new, cfg, force)] *)
Definition rename_prompt (root old new : string) (force : bool)
  : M (bool * string) :=
  let old_candidate := with_suffix old in
  let new_candidate := with_suffix new in
  let p_old := root // old_candidate in
  let p_new := root // new_candidate in
  (* lines 168-183, reached with the value of [overwritten] *)
  let finish (overwritten : option string) : M (bool * string) :=
    r <- try_except
           (shutil_move p_old p_new ;; ret None)
           (fun e =>
              match overwritten with
              | Some ot =>
                  oe <- path_exists ot ;;
                  if oe : bool
                  then try_except (shutil_move ot p_new) (fun _ => ret tt)
                  else ret tt
              | None => ret tt
              end ;;
              ret (Some (false, "Failed to rename: " ++ str_exn e))) ;;
    match r with
    | Some failure => ret failure
    | None =>
        let last : gmap string string :=
          <["new" := p_new]> (<["old" := p_old]> {["action" := "rename"]}) in
        let last :=
          match overwritten with
          | Some ot => <["overwritten_trash" := ot]> last
          | None => last
          end in
        cfg_setitem "last_action" (JObj last) ;;
        c <- get_cfg ;;
        save_config c ;;
        ret (true, "renamed " ++ old_candidate ++ " -> " ++ new_candidate)
    end in
  e <- path_exists p_old ;;
  if negb e then ret (false, "Not found: " ++ old_candidate) else
  ne <- path_exists p_new ;;
  if ne : bool then
    go <- (if negb force
           then ans <- input (p_new ++ " already exists. Overwrite? [y/N]: ") ;;
                ret (said_yes ans)
           else ret true) ;;
    if negb go then ret (false, "aborted") else
    tr <- move_to_trash root p_new ;;
    match tr with
    | (_, Some e) =>
        ret (false, "Failed to move existing target to trash: " ++ str_exn e)
    | (overwritten, None) => finish (Some overwritten)
    end
  else finish None.

(** Truthiness of [cfg.get("last_action")]. *)
Definition jv_truthy (v : option jv) : bool :=
  match v with
  | None => false
  | Some (JStr s) => Str.truthy s
  | Some (JObj o) => negb (bool_decide (o = ∅))
  end.

(** [cfg.pop("last_action", None); save_config(cfg)] *)
Definition clear_last_action : M unit :=
  cfg_pop "last_action" ;;
  c <- get_cfg ;;
  save_config c.

(** [perform_undo(cfg)] *)
Definition perform_undo : M (bool * string) :=
  c <- get_cfg ;;
  let last := c !! "last_action" in
  if negb (jv_truthy last) then ret (false, "no action to undo") else
  match last with
  | None => ret (false, "no action to undo")
  | Some (JStr _) => raise AttributeError
  | Some (JObj last) =>
      let action := last !! "action" in
      if bool_decide (action = Some "remove") then
        trashed <- Path_of (last !! "trashed") ;;
        dest <- Path_of (last !! "dest") ;;
        te <- path_exists trashed ;;
        if negb te then ret (false, "trashed file not found") else
        r <- try_except
               (let dest_parent := PathLib.parent dest in
                path_mkdir dest_parent ;;
                shutil_move trashed dest ;;
                ret None)
               (fun e => ret (Some e)) ;;
        match r with
        | Some e => ret (false, "failed to restore: " ++ str_exn e)
        | None =>
            clear_last_action ;;
            ret (true, "restored " ++ PathLib.name dest)
        end
      else if bool_decide (action = Some "add") then
        dest <- Path_of (last !! "dest") ;;
        let src := last !! "src" in
        let overwritten := last !! "overwritten_trash" in
        de <- path_exists dest ;;
        if negb de then ret (false, "added file not found") else
        try_except
          ((* lines 241-246 *)
           let fallback_move : M (bool * string) :=
             cw <- Path_cwd ;;
             let fallback := cw // PathLib.name dest in
             shutil_move dest fallback ;;
             clear_last_action ;;
             ret (true, "moved " ++ PathLib.name dest ++ " to " ++ fallback) in
           (* lines 231-246 *)
           let move_back : M (bool * string) :=
             match src with
             | Some src' =>
                 if Str.truthy src' then
                   r <- try_except
                          (let dest_parent := PathLib.parent src' in
                           path_mkdir dest_parent ;;
                           shutil_move dest src' ;;
                           clear_last_action ;;
                           ret (Some (true, "moved " ++ PathLib.name dest ++
                                            " back to " ++ src')))
                          (fun _ => ret None) ;;
                   match r with
                   | Some done => ret done
                   | None => fallback_move
                   end
                 else fallback_move
             | None => fallback_move
             end in
           match overwritten with
           | Some overwritten_p =>
               if Str.truthy overwritten_p then
                 oe <- path_exists overwritten_p ;;
                 if oe : bool then
                   shutil_move overwritten_p dest ;;
                   td <- trash_dir_for (PathLib.parent dest) ;;
                   t <- time_time ;;
                   let tname := trash_name t (PathLib.name dest) ++ ".added" in
                   shutil_move dest (td // tname) ;;
                   clear_last_action ;;
                   ret (true, "restored overwritten prompt and moved new added file to trash")
                 else move_back
               else move_back
           | None => move_back
           end)
          (fun e => ret (false, "failed to undo add: " ++ str_exn e))
      else ret (false, "unknown last action")
  end.

(** ** Copying, listing and the command line *)

(** [shutil.copy2(str(src), str(dst))] on the file system: an existing
    directory [dst] receives the copy under the source's name; copying a
    file onto itself is an error; the source has to be a regular file, the
    target must not be a directory and its parent has to be one. A regular
    file at the target is replaced. The metadata [copy2] carries over is not
    part of the model. *)
Definition copy2 (m : gmap string node) (src dst : string)
  : exn + gmap string node :=
  let real_dst := if FS.is_dir m dst then dst // PathLib.name src else dst in
  match m !! src with
  | None => inl (OSError ("No such file or directory: '" ++ src ++ "'"))
  | Some Dir => inl (OSError ("Is a directory: '" ++ src ++ "'"))
  | Some (File d) =>
      if String.eqb src real_dst
      then inl (OSError ("'" ++ src ++ "' and '" ++ real_dst ++
                         "' are the same file"))
      else if FS.is_dir m real_dst
      then inl (OSError ("Is a directory: '" ++ real_dst ++ "'"))
      else if FS.is_dir m (PathLib.parent real_dst)
      then inr (<[real_dst := File d]> m)
      else inl (OSError ("No such file or directory: '" ++ real_dst ++ "'"))
  end.

(** [shutil.copy2] as a call: like the other writing calls it may fail for
    reasons of the environment, and a failed copy leaves the file system as
    it was. *)
Definition shutil_copy2 (src dst : string) : M unit :=
  f <- take_fault ;;
  if f : bool then raise (OSError ("Permission denied: '" ++ dst ++ "'"))
  else fun s => match copy2 (fs s) src dst with
                | inr m => (Val tt, set_fs m s)
                | inl e => (Raise e, s)
                end.

(** [copy_prompt(root, name, out)] *)
Definition copy_prompt (root name out : string) : M (bool * string) :=
  let candidate := with_suffix name in
  let p := root // candidate in
  e <- path_exists p ;;
  if negb e then ret (false, "Not found: " ++ candidate) else
  r <- try_except (shutil_copy2 p out ;; ret None)
                  (fun e => ret (Some e)) ;;
  match r with
  | Some e => ret (false, "Failed to copy: " ++ str_exn e)
  | None => ret (true, "copied " ++ candidate ++ " -> " ++ out)
  end.

(** The entries of directory [dir]: the paths whose parent it is. *)
Definition children (m : gmap string node) (dir : string) : list string :=
  List.filter
    (fun k => negb (String.eqb k dir) && String.eqb (PathLib.parent k) dir)
    (map_to_list m).*1.

(** [root.iterdir()], consumed at once by the list comprehension: it raises
    when [root] is not a directory, or when the environment refuses. *)
Definition Path_iterdir (root : string) : M (list string) :=
  f <- take_fault ;;
  if f : bool then raise (OSError ("Permission denied: '" ++ root ++ "'"))
  else fun s => if FS.is_dir (fs s) root
                then (Val (children (fs s) root), s)
                else (Raise (OSError ("Not a directory: '" ++ root ++ "'")), s).

(** [p.is_file()] *)
Definition path_is_file (p : string) : M bool :=
  fun s => (Val (match fs s !! p with Some (File _) => true | _ => false end),
            s).

(** [[p for p in l if cond(p)]] *)
Fixpoint filter_m {A} (cond : A -> M bool) (l : list A) : M (list A) :=
  match l with
  | [] => ret []
  | p :: l' =>
      c <- cond p ;;
      r <- filter_m cond l' ;;
      ret (if c : bool then p :: r else r)
  end.

(** The order of [str], by code point. *)
Definition str_le (a b : string) : Prop := Is_true (String.leb a b).

#[global] Instance str_le_dec : RelDecision str_le :=
  fun a b => Is_true_dec (String.leb a b).

(** [sorted] on the paths of one directory: these are ordered by their
    names, and so by the path strings. *)
Definition sorted (l : list string) : list string := merge_sort str_le l.

(** [list_prompts(root, verbose=False, show_files)]: the lines it prints.
    The table printed with [verbose] (lines 302-354) is not modelled. *)
Definition list_prompts (root : string) (show_files : bool)
  : M (list string) :=
  e <- path_exists root ;;
  if negb e then ret ["(no prompts directory)"] else
  entries <- Path_iterdir root ;;
  prompts <- filter_m
               (fun p => f <- path_is_file p ;;
                         ret (f && Str.endswith (PathLib.name p) SUFFIX))
               entries ;;
  let file_list := sorted prompts in
  if negb show_files
  then ret (List.map
              (fun p => Str.drop_end (String.length SUFFIX) (PathLib.name p))
              file_list)
  else ret (List.map
              (fun p =>
                 let name :=
                   Str.drop_end (String.length SUFFIX) (PathLib.name p) in
                 name ++ String (ascii_of_nat 9) (PathLib.name p))
              file_list).

(** The parsed command line, [args]: the subcommand with its arguments.
    Paths are carried as [str(Path(x).expanduser())]; [CmdList] is [list]
    without [-v]; [CmdNone] is a command line without subcommand. *)
Inductive command :=
| CmdNone
| CmdSetroot (path : string)
| CmdAdd (file : string) (force : bool)
| CmdRemove (name : string) (yes : bool)
| CmdUndo
| CmdCopy (name out : string)
| CmdList (show_files : bool)
| CmdRename (old new : string) (force : bool).

(** What [main] writes to standard output: the lines handed to [print], or
    the parser's help text. *)
Inductive output :=
| Lines (lines : list string)
| HelpText.

(** [0 if ok else 1], after [print(msg)] *)
Definition report (r : bool * string) : M (Z * output) :=
  ret (if r.1 then 0%Z else 1%Z, Lines [r.2]).

(** [main(argv)], from the parsed arguments on: the exit status and the
    output. [cfg] is the dict [load_config()] returned. *)
Definition main (args : command) : M (Z * output) :=
  c <- load_config ;;
  (fun s => (Val tt, set_cfg c s)) ;;
  root <- get_root c ;;
  match args with
  | CmdSetroot new_root =>
      cfg_setitem "root" (JStr new_root) ;;
      c <- get_cfg ;;
      save_config c ;;
      ret (0%Z, Lines ["root set to: " ++ new_root])
  | _ =>
      ensure_root root ;;
      match args with
      | CmdAdd file force => r <- add_file root file force ;; report r
      | CmdRemove name yes => r <- remove_prompt root name yes ;; report r
      | CmdUndo => r <- perform_undo ;; report r
      | CmdCopy name out => r <- copy_prompt root name out ;; report r
      | CmdList show_files =>
          l <- list_prompts root show_files ;;
          ret (0%Z, Lines l)
      | CmdRename old new force =>
          r <- rename_prompt root old new force ;; report r
      | CmdSetroot _ | CmdNone => ret (2%Z, HelpText)
      end
  end.

(** ** Vocabulary of the statements *)

(** A string without path separator. *)
Fixpoint no_slash (s : string) : bool :=
  match s with
  | EmptyString => true
  | String c r => negb (Ascii.eqb c "/") && no_slash r
  end.

(** The path a file named like [p] is moved to when it is trashed at
    time [t]. *)
Definition trash_path (root : string) (t : Z) (p : string) : string :=
  root // ".trash" // trash_name t (PathLib.name p).

(** [p] is a prompt of [root]: a regular file directly in it whose name
    ends in the suffix. *)
Definition is_prompt (m : gmap string node) (root p : string) : Prop :=
  PathLib.parent p = root /\ p <> root /\
  (exists d, m !! p = Some (File d)) /\
  Str.endswith (PathLib.name p) SUFFIX = true.

(** The two copies of the configuration agree between [s] and [s']: the
    in-memory dict and the persisted file. *)
Definition same_config (s s' : State) : Prop :=
  cfg s' = cfg s /\ disk s' = disk s.

(** [m'] is [m] with some directories added at free paths. *)
Definition adds_dirs (bound : nat) (m m' : gmap string node) : Prop :=
  forall k, m' !! k = m !! k \/
            (m !! k = None /\ m' !! k = Some Dir /\ String.length k <= bound).

(** The overwrite guard let the call through: the flag was set, or the
    user answered yes; [s0] is the state after the question. *)
Definition confirmed (force : bool) (s s0 : State) : Prop :=
  if force then s0 = s
  else match stdin s with
       | ans :: rest => said_yes ans = true /\ s0 = set_stdin rest s
       | [] => False
       end.

(** ** Sample states *)

Definition bytes_old : list Byte.byte := list_byte_of_string "old text".
Definition bytes_new : list Byte.byte := list_byte_of_string "new text".

(** A root holding [x.prompt.md], and a file [/home/x] outside it; the
    clock shows 100 and nothing will go wrong in the environment. *)
Definition demo : State :=
  mkState
    (list_to_map [("/", Dir); ("/r", Dir); ("/home", Dir);
                  ("/r/x.prompt.md", File bytes_old);
                  ("/home/x", File bytes_new)])
    100 [] [] "/home" None ∅.

(** The same, with a second prompt [y.prompt.md]. *)
Definition demo2 : State :=
  set_fs (<["/r/y.prompt.md" := File bytes_new]> (fs demo)) demo.

(** [demo] with the user about to answer no. *)
Definition demo_no : State := set_stdin ["n"] demo.

(** [demo] after [add_file("/r", "/home/x", force=True)]. *)
Definition demo_added : State := (add_file "/r" "/home/x" true demo).2.

(** [demo] after [remove_prompt("/r", "x", yes=True)]. *)
Definition demo_removed : State := (remove_prompt "/r" "x" true demo).2.

(** [demo_added] after [perform_undo]. *)
Definition demo_undone : State := (perform_undo demo_added).2.

(** [demo2] after [rename_prompt("/r", "y", "x", force=True)]. *)
Definition demo_renamed : State :=
  (rename_prompt "/r" "y" "x" true demo2).2.

(** [demo] in an environment where the third fallible call raises: in
    [add_file] with [force], that is the final move. *)
Definition demo_fault : State := set_faults [false; false; true] demo.

(** [demo_fault] after the destination went to the trash, and after the
    final move raised. *)
Definition demo_fault_trashed : State :=
  (move_to_trash "/r" "/r/x.prompt.md" demo_fault).2.
Definition demo_fault_moved : State :=
  (shutil_move "/home/x" "/r/x.prompt.md" demo_fault_trashed).2.

(** [demo] with nothing in the root. *)
Definition demo_free : State :=
  set_fs (delete "/r/x.prompt.md" (fs demo)) demo.

(** [demo_removed] after a new [x.prompt.md] was written into the root,
    within the same second. *)
Definition demo_recreated : State :=
  set_fs (<["/r/x.prompt.md" := File bytes_new]> (fs demo_removed))
         demo_removed.

(** [demo] as the command line finds it: the configuration file names
    [/r] as the root. *)
Definition demo_cli : State :=
  set_disk (Some {["root" := JStr "/r"]}) demo.

(** [demo_cli] in an environment that lets the two calls of the trash
    sequence through and refuses the write of the configuration file. *)
Definition demo_cli_unsaved : State :=
  set_faults [false; false; true] demo_cli.

(** * Checks on small inputs *)

Example endswith_ex1 : Str.endswith "notes.prompt.md" SUFFIX = true.
Proof. reflexivity. Qed.
Example endswith_ex2 : Str.endswith "md" SUFFIX = false.
Proof. reflexivity. Qed.
Example strip_ex : Str.lower (Str.strip "  Yes ") = "yes".
Proof. reflexivity. Qed.
Example path_ex : PathLib.name ("/r" // "x.prompt.md") = "x.prompt.md"
                  /\ PathLib.parent ("/r" // "x.prompt.md") = "/r"
                  /\ PathLib.parent "/r" = "/" /\ PathLib.parent "x" = ".".
Proof. repeat split. Qed.
Example pretty_ex : pretty (1700000000)%Z ++ "_x" = "1700000000_x".
Proof. vm_compute. reflexivity. Qed.

(** * Properties *)

(** ** Running the monad: inversion of the basic calls *)

Arguments PathLib.join : simpl never.
Arguments FS.move : simpl never.
Arguments FS.mkdir_p : simpl never.
Arguments String.append : simpl never.
Arguments pretty : simpl never.

Lemma take_fault_inv s r s' :
  take_fault s = (r, s') ->
  exists b, r = Val b /\ fs s' = fs s /\ clock s' = clock s /\
            stdin s' = stdin s /\ cwd s' = cwd s /\ same_config s s'.
Proof.
  unfold take_fault. destruct (faults s) as [|b l]; intros [= <- <-].
  - exists false. repeat split.
  - exists b. repeat split.
Qed.

Lemma path_mkdir_inv p s r s' :
  path_mkdir p s = (r, s') ->
  clock s' = clock s /\ stdin s' = stdin s /\ cwd s' = cwd s /\
  same_config s s' /\
  ((exists e, r = Raise e /\ fs s' = fs s) \/
   (r = Val tt /\ FS.mkdir_p p (fs s) = Some (fs s'))).
Proof.
  unfold path_mkdir, bind. destruct (take_fault s) as [rf sf] eqn:Hf.
  apply take_fault_inv in Hf as (b & -> & Hfs & Hc & Hi & Hw & Hcfg & Hd).
  destruct b.
  - intros [= <- <-]. repeat split; eauto.
  - destruct (FS.mkdir_p p (fs sf)) as [m|] eqn:Hm; intros [= <- <-]; simpl.
    + repeat split; try done. right. rewrite <- Hfs. auto.
    + repeat split; eauto.
Qed.

Lemma shutil_move_inv a b s r s' :
  shutil_move a b s = (r, s') ->
  clock s' = clock s /\ stdin s' = stdin s /\ cwd s' = cwd s /\
  same_config s s' /\
  ((exists e, r = Raise e /\ fs s' = fs s) \/
   (r = Val tt /\ FS.move (fs s) a b = inr (fs s'))).
Proof.
  unfold shutil_move, bind. destruct (take_fault s) as [rf sf] eqn:Hf.
  apply take_fault_inv in Hf as (f & -> & Hfs & Hc & Hi & Hw & Hcfg & Hd).
  destruct f.
  - intros [= <- <-]. repeat split; eauto.
  - destruct (FS.move (fs sf) a b) as [e|m] eqn:Hm; intros [= <- <-]; simpl.
    + repeat split; eauto.
    + repeat split; try done. right. rewrite <- Hfs. auto.
Qed.

Lemma save_config_inv c s r s' :
  save_config c s = (r, s') ->
  r = Val tt /\ fs s' = fs s /\ clock s' = clock s /\ stdin s' = stdin s /\
  cwd s' = cwd s /\ cfg s' = cfg s /\ (disk s' = Some c \/ disk s' = disk s).
Proof.
  unfold save_config, try_except, bind.
  destruct (take_fault s) as [rf sf] eqn:Hf.
  apply take_fault_inv in Hf as (f & -> & Hfs & Hc & Hi & Hw & Hcfg & Hd).
  destruct f; intros [= <- <-]; simpl; repeat split; auto.
Qed.

Lemma bind_inv {A B} (m : M A) (f : A -> M B) s r s' :
  bind m f s = (r, s') ->
  (exists a s1, m s = (Val a, s1) /\ f a s1 = (r, s')) \/
  (exists e, m s = (Raise e, s') /\ r = Raise e).
Proof.
  unfold bind. destruct (m s) as [[a|e] s1]; intros H.
  - left. eauto.
  - right. injection H as <- <-. eauto.
Qed.

Lemma try_except_inv {A} (m : M A) (h : exn -> M A) s r s' :
  try_except m h s = (r, s') ->
  (exists a, m s = (Val a, s') /\ r = Val a) \/
  (exists e s1, m s = (Raise e, s1) /\ h e s1 = (r, s')).
Proof.
  unfold try_except. destruct (m s) as [[a|e] s1]; intros H.
  - left. injection H as <- <-. eauto.
  - right. eauto.
Qed.

Lemma input_inv prompt s r s' :
  input prompt s = (r, s') ->
  fs s' = fs s /\ clock s' = clock s /\ cwd s' = cwd s /\ same_config s s' /\
  ((r = Raise EOFError /\ stdin s = []) \/
   (exists ans, r = Val ans /\ stdin s = ans :: stdin s')).
Proof.
  unfold input. destruct (stdin s) as [|l rest] eqn:Hs; intros [= <- <-]; simpl.
  - repeat split; auto.
  - repeat split; eauto.
Qed.

(** One step of symbolic execution on a hypothesis [H : m s = (r, s')]. *)
Ltac run_step :=
  match goal with
  | H : bind _ _ _ = (_, _) |- _ =>
      apply bind_inv in H as [(? & ? & ? & H) | (? & H & ?)]
  | H : try_except _ _ _ = (_, _) |- _ =>
      apply try_except_inv in H as [(? & H & ?) | (? & ? & ? & H)]
  | H : ret _ _ = (_, _) |- _ => injection H as ? ?
  | H : raise _ _ = (_, _) |- _ => injection H as ? ?
  | H : path_exists _ _ = (_, _) |- _ => injection H as ? ?
  | H : time_time _ = (_, _) |- _ => injection H as ? ?
  | H : Path_cwd _ = (_, _) |- _ => injection H as ? ?
  | H : get_cfg _ = (_, _) |- _ => injection H as ? ?
  | H : cfg_setitem _ _ _ = (_, _) |- _ => injection H as ? ?
  | H : cfg_pop _ _ = (_, _) |- _ => injection H as ? ?
  | H : Path_of ?x _ = (_, _) |- _ =>
      let E := fresh "Hget" in destruct x eqn:E; simpl in H
  | H : (if ?b then _ else _) _ = (_, _) |- _ =>
      let E := fresh "Hif" in destruct b eqn:E
  | H : (match ?x with Some _ => _ | None => _ end) _ = (_, _) |- _ =>
      let E := fresh "Hopt" in destruct x eqn:E
  | H : (let (_, _) := ?x in _) _ = (_, _) |- _ =>
      let E := fresh "Hpair" in destruct x eqn:E
  | H : (match ?x with JStr _ => _ | JObj _ => _ end) _ = (_, _) |- _ =>
      let E := fresh "Hjv" in destruct x eqn:E
  end.

Ltac run := repeat (run_step; simplify_eq; simpl in * ).

(** Closing a frame goal from the chain of facts the run produced. *)
Ltac frame :=
  unfold same_config in *; simpl in *; intuition (try congruence; eauto).

(** Inversion of the system calls a run has reached. *)
Ltac inv_prim :=
  match goal with
  | H : shutil_move _ _ _ = (_, _) |- _ =>
      apply shutil_move_inv in H as (? & ? & ? & ? & [(? & ? & ?)|[? ?]])
  | H : path_mkdir _ _ = (_, _) |- _ =>
      apply path_mkdir_inv in H as (? & ? & ? & ? & [(? & ? & ?)|[? ?]])
  | H : input _ _ = (_, _) |- _ =>
      apply input_inv in H as (? & ? & ? & ? & [[? ?]|(? & ? & ?)])
  | H : save_config _ _ = (_, _) |- _ =>
      apply save_config_inv in H as (? & ? & ? & ? & ? & ? & ?)
  end.

Ltac exec := run; repeat (inv_prim; simplify_eq; simpl in * ).

(** ** Facts about strings and paths *)

Section StringFacts.

Local Arguments String.append : simpl nomatch.

Lemma length_app (a b : string) :
  String.length (a ++ b) = String.length a + String.length b.
Proof. induction a as [|c a IH]; simpl; [done | by rewrite IH]. Qed.

Lemma app_assoc_s (a b c : string) : (a ++ b) ++ c = a ++ (b ++ c).
Proof. induction a as [|x a IH]; simpl; [done | by rewrite IH]. Qed.

Lemma substring_app_r (a b : string) :
  substring (String.length a) (String.length b) (a ++ b) = b.
Proof.
  induction a as [|c a IH]; simpl; [|done].
  induction b as [|c b IH]; simpl; [done | by rewrite IH].
Qed.

Lemma endswith_app (a suf : string) : Str.endswith (a ++ suf) suf = true.
Proof.
  unfold Str.endswith. rewrite length_app.
  replace (String.length a + String.length suf - String.length suf)
    with (String.length a) by lia.
  rewrite substring_app_r, String.eqb_refl.
  rewrite andb_true_r. apply Nat.leb_le. lia.
Qed.

Lemma endswith_length (s suf : string) :
  Str.endswith s suf = true -> String.length suf <= String.length s.
Proof.
  unfold Str.endswith. intros [H _]%andb_true_iff. by apply Nat.leb_le.
Qed.

Lemma no_slash_app (a b : string) :
  no_slash (a ++ b) = no_slash a && no_slash b.
Proof.
  induction a as [|c a IH]; simpl; [done|]. rewrite IH. by rewrite andb_assoc.
Qed.

Lemma rsplit_None (s : string) :
  PathLib.rsplit s = None <-> no_slash s = true.
Proof.
  induction s as [|c s IH]; simpl; [done|].
  destruct (PathLib.rsplit s) as [[a b]|].
  - split; [done|]. intros [_ H]%andb_true_iff. apply IH in H. done.
  - destruct (Ascii.eqb c "/"); simpl; [split; done|].
    split; [intros _; by apply IH | done].
Qed.

Lemma rsplit_Some (s a b : string) :
  PathLib.rsplit s = Some (a, b) -> s = a ++ "/" ++ b /\ no_slash b = true.
Proof.
  revert a. induction s as [|c s IH]; intros a; simpl; [done|].
  destruct (PathLib.rsplit s) as [[a' b']|] eqn:E.
  - intros [= <- <-]. destruct (IH a' eq_refl) as [-> ?]. done.
  - destruct (Ascii.eqb_spec c "/") as [->|]; [|done].
    intros [= <- <-]. split; [done|]. by apply rsplit_None.
Qed.

Lemma rsplit_app (x y : string) :
  no_slash y = true ->
  PathLib.rsplit (x ++ y) =
    match PathLib.rsplit x with
    | Some (a, b) => Some (a, b ++ y)
    | None => None
    end.
Proof.
  intros Hy. induction x as [|c x IH]; simpl.
  - by apply rsplit_None.
  - rewrite IH. destruct (PathLib.rsplit x) as [[a b]|]; [done|].
    by destruct (Ascii.eqb c "/").
Qed.

Lemma rsplit_join (a b : string) :
  no_slash b = true -> PathLib.rsplit (a ++ "/" ++ b) = Some (a, b).
Proof.
  intros Hb. induction a as [|c a IH]; simpl in *.
  - apply rsplit_None in Hb. by rewrite Hb.
  - by rewrite IH.
Qed.

Lemma name_no_slash (p : string) : no_slash (PathLib.name p) = true.
Proof.
  unfold PathLib.name. destruct (PathLib.rsplit p) as [[a b]|] eqn:E.
  - by apply rsplit_Some in E as [_ ?].
  - by apply rsplit_None.
Qed.

Lemma name_app (x y : string) :
  no_slash y = true -> PathLib.name (x ++ y) = PathLib.name x ++ y.
Proof.
  intros Hy. unfold PathLib.name. rewrite rsplit_app by done.
  by destruct (PathLib.rsplit x) as [[a b]|].
Qed.

Lemma parent_length (p : string) :
  String.length (PathLib.parent p) <= Nat.max 1 (String.length p - 1).
Proof.
  unfold PathLib.parent. destruct (PathLib.rsplit p) as [[a b]|] eqn:E.
  - apply rsplit_Some in E as [-> _]. rewrite length_app. simpl.
    destruct a; simpl; lia.
  - simpl. lia.
Qed.

Lemma is_absolute_no_slash (b : string) :
  no_slash b = true -> PathLib.is_absolute b = false.
Proof. destruct b as [|c b]; simpl; [done|]. by destruct (Ascii.eqb c "/"). Qed.

(** The shapes of [a / b] for a relative, non-empty [b]. *)
Lemma join_relative (a b : string) :
  PathLib.is_absolute b = false -> b <> EmptyString ->
  a // b = (if String.eqb a "." || String.eqb a EmptyString then EmptyString
            else if String.eqb a "/" then "/" else a ++ "/") ++ b.
Proof.
  intros Hb Hne. unfold PathLib.join. rewrite Hb.
  destruct (String.eqb_spec b EmptyString); [done|].
  destruct (String.eqb a "." || String.eqb a EmptyString); [done|].
  destruct (String.eqb_spec a "/") as [->|]; [done|].
  by rewrite app_assoc_s.
Qed.

Lemma pretty_N_go_no_slash (x : N) (s : string) :
  no_slash s = true -> no_slash (pretty_N_go x s) = true.
Proof.
  revert s. induction (N.lt_wf_0 x) as [x _ IH]; intros s Hs.
  assert (x = 0 \/ 0 < x)%N as [->|Hx] by lia.
  - by rewrite pretty_N_go_0.
  - rewrite pretty_N_go_step by done. apply IH.
    + by apply N.div_lt.
    + simpl. rewrite Hs, andb_true_r.
      unfold pretty_N_char. by repeat case_match.
Qed.

Lemma pretty_Z_no_slash (t : Z) : no_slash (pretty t) = true.
Proof.
  assert (forall x : positive, no_slash (pretty x) = true) as Hpos.
  { intros x. unfold pretty, pretty_positive, pretty, pretty_N.
    case_decide; [done|]. by apply pretty_N_go_no_slash. }
  destruct t as [|x|x]; [done|apply Hpos|].
  unfold pretty, pretty_Z. simpl. apply Hpos.
Qed.

Lemma trash_name_no_slash (t : Z) (n : string) :
  no_slash n = true -> no_slash (trash_name t n) = true.
Proof.
  intros Hn. unfold trash_name.
  rewrite !no_slash_app, pretty_Z_no_slash, Hn. done.
Qed.

Lemma trash_name_nonempty (t : Z) (n : string) :
  trash_name t n <> EmptyString.
Proof.
  unfold trash_name. intros H. apply (f_equal String.length) in H.
  rewrite !length_app in H. simpl in H. lia.
Qed.

Lemma trash_dir_eq (root : string) :
  exists y, root // ".trash" = y ++ ".trash".
Proof. rewrite join_relative by done. eauto. Qed.

Lemma trash_dir_length (root : string) :
  6 <= String.length (root // ".trash").
Proof.
  destruct (trash_dir_eq root) as [y ->]. rewrite length_app. simpl. lia.
Qed.

Lemma trash_path_eq (root : string) (t : Z) (p : string) :
  trash_path root t p =
    (root // ".trash") ++ "/" ++ trash_name t (PathLib.name p).
Proof.
  unfold trash_path.
  rewrite (join_relative (root // ".trash")).
  - pose proof (trash_dir_length root) as Hlen.
    destruct (String.eqb_spec (root // ".trash") ".") as [E|_];
      [rewrite E in Hlen; simpl in Hlen; lia|].
    destruct (String.eqb_spec (root // ".trash") EmptyString) as [E|_];
      [rewrite E in Hlen; simpl in Hlen; lia|].
    destruct (String.eqb_spec (root // ".trash") "/") as [E|_];
      [rewrite E in Hlen; simpl in Hlen; lia|].
    simpl. by rewrite app_assoc_s.
  - apply is_absolute_no_slash, trash_name_no_slash, name_no_slash.
  - apply trash_name_nonempty.
Qed.

Lemma trash_path_length (root : string) (t : Z) (p : string) :
  String.length (root // ".trash") < String.length (trash_path root t p).
Proof. rewrite trash_path_eq, length_app. simpl. lia. Qed.

Lemma trash_path_rsplit (root : string) (t : Z) (p : string) :
  PathLib.rsplit (trash_path root t p) =
    Some (root // ".trash", trash_name t (PathLib.name p)).
Proof.
  rewrite trash_path_eq. apply rsplit_join.
  apply trash_name_no_slash, name_no_slash.
Qed.

Lemma trash_path_name (root : string) (t : Z) (p : string) :
  PathLib.name (trash_path root t p) = trash_name t (PathLib.name p).
Proof. unfold PathLib.name. by rewrite trash_path_rsplit. Qed.

Lemma trash_path_parent (root : string) (t : Z) (p : string) :
  PathLib.parent (trash_path root t p) = root // ".trash".
Proof.
  unfold PathLib.parent. rewrite trash_path_rsplit.
  pose proof (trash_dir_length root) as Hlen.
  destruct (root // ".trash"); [simpl in Hlen; lia | done].
Qed.

(** A trashed file never lands on the path it came from. *)
Lemma trash_path_ne (root : string) (t : Z) (p : string) :
  trash_path root t p <> p.
Proof.
  intros E. apply (f_equal (fun x => String.length (PathLib.name x))) in E.
  rewrite trash_path_name in E. unfold trash_name in E.
  rewrite !length_app in E. simpl in E. lia.
Qed.

End StringFacts.

(** ** Facts about the file-system primitives *)

Lemma adds_dirs_refl bound m : adds_dirs bound m m.
Proof. intros k. by left. Qed.

Lemma adds_dirs_file bound m m' k d :
  adds_dirs bound m m' -> m' !! k = Some (File d) <-> m !! k = Some (File d).
Proof. intros H. destruct (H k) as [->|(? & ? & ?)]; [done|]. split; congruence. Qed.

Lemma adds_dirs_keep bound m m' k v :
  adds_dirs bound m m' -> m !! k = Some v -> m' !! k = Some v.
Proof. intros H Hk. destruct (H k) as [->|(? & ? & ?)]; congruence. Qed.

Lemma adds_dirs_long bound m m' k :
  adds_dirs bound m m' -> bound < String.length k -> m' !! k = m !! k.
Proof. intros H Hk. destruct (H k) as [->|(? & ? & ?)]; [done|lia]. Qed.

Lemma mkdir_go_spec fuel p m m' :
  FS.mkdir_go fuel p m = Some m' ->
  m' !! p = Some Dir /\ adds_dirs (Nat.max 1 (String.length p)) m m'.
Proof.
  revert p m m'. induction fuel as [|f IH]; intros p m m'; simpl;
    destruct (m !! p) as [[d|]|] eqn:Hp; try done.
  1,3: intros [= <-]; split; [done | apply adds_dirs_refl].
  all: destruct (m !! PathLib.parent p) as [[d|]|] eqn:Hpar; try done.
  1,2: intros [= <-]; split; [by rewrite lookup_insert_eq|];
       intros k; destruct (decide (k = p)) as [->|];
       [right; rewrite lookup_insert_eq; repeat split; [done|lia]
       |left; by rewrite lookup_insert_ne].
  destruct (String.eqb (PathLib.parent p) p); [done|].
  destruct (FS.mkdir_go f (PathLib.parent p) m) as [m1|] eqn:Hgo; [|done].
  intros [= <-]. apply IH in Hgo as [_ Hadd].
  split; [by rewrite lookup_insert_eq|].
  intros k. destruct (decide (k = p)) as [->|].
  - right. rewrite lookup_insert_eq. repeat split; [done|lia].
  - rewrite lookup_insert_ne by done.
    destruct (Hadd k) as [?|(? & ? & ?)]; [by left|right].
    repeat split; [done..|].
    pose proof (parent_length p). lia.
Qed.

Lemma mkdir_p_spec p m m' :
  FS.mkdir_p p m = Some m' ->
  m' !! p = Some Dir /\ adds_dirs (Nat.max 1 (String.length p)) m m'.
Proof. apply mkdir_go_spec. Qed.

(** Creating the parent directory of [p] never creates [p] itself. *)
Lemma mkdir_parent_keeps p m m' :
  2 <= String.length p ->
  FS.mkdir_p (PathLib.parent p) m = Some m' -> m' !! p = m !! p.
Proof.
  intros Hlen [_ H]%mkdir_p_spec. eapply adds_dirs_long; [done|].
  pose proof (parent_length p). lia.
Qed.

(** A directory that is there already is all [mkdir] needs. *)
Lemma mkdir_p_existing p m : m !! p = Some Dir -> FS.mkdir_p p m = Some m.
Proof.
  intros H. unfold FS.mkdir_p. destruct (String.length p); simpl; by rewrite H.
Qed.

Lemma is_dir_true m p : FS.is_dir m p = true <-> m !! p = Some Dir.
Proof. unfold FS.is_dir. destruct (m !! p) as [[|]|]; split; done. Qed.

Lemma is_dir_file m p d : m !! p = Some (File d) -> FS.is_dir m p = false.
Proof. unfold FS.is_dir. by intros ->. Qed.

Lemma is_dir_none m p : m !! p = None -> FS.is_dir m p = false.
Proof. unfold FS.is_dir. by intros ->. Qed.

(** Moving a regular file onto a path that is not a directory. *)
Lemma move_file_inv m src dst d m' :
  m !! src = Some (File d) -> FS.is_dir m dst = false ->
  FS.move m src dst = inr m' ->
  m' = <[dst := File d]> (delete src m) /\
  FS.is_dir m (PathLib.parent dst) = true.
Proof.
  intros Hsrc Hdst. unfold FS.move. rewrite Hdst, Hsrc. simpl.
  destruct (FS.is_dir m (PathLib.parent dst)); [|done].
  by intros [= <-].
Qed.

Lemma move_file_ok m src dst d :
  m !! src = Some (File d) -> FS.is_dir m dst = false ->
  FS.is_dir m (PathLib.parent dst) = true ->
  FS.move m src dst = inr (<[dst := File d]> (delete src m)).
Proof.
  intros Hsrc Hdst Hpar. unfold FS.move. by rewrite Hdst, Hsrc, Hpar.
Qed.

(** A missing source makes the move fail. *)
Lemma move_missing m src dst :
  m !! src = None -> exists e, FS.move m src dst = inl e.
Proof.
  intros Hsrc. unfold FS.move.
  assert (FS.is_dir m src = false) as -> by by apply is_dir_none.
  rewrite andb_false_r, Hsrc. simpl.
  destruct (FS.is_dir m dst && _); eauto.
Qed.

(** ** The trash sequence *)

Lemma trash_dir_for_inv root s r s' :
  trash_dir_for root s = (r, s') ->
  clock s' = clock s /\ stdin s' = stdin s /\ cwd s' = cwd s /\
  same_config s s' /\
  ((exists e, r = Raise e /\ fs s' = fs s) \/
   (r = Val (root // ".trash") /\
    FS.mkdir_p (root // ".trash") (fs s) = Some (fs s'))).
Proof.
  unfold trash_dir_for. intros H. exec; repeat split; eauto; frame.
Qed.


Lemma move_to_trash_inv root p s r s' :
  move_to_trash root p s = (r, s') ->
  clock s' = clock s /\ stdin s' = stdin s /\ cwd s' = cwd s /\
  same_config s s' /\
  ((exists e, r = Raise e /\ fs s' = fs s) \/
   (exists m1, FS.mkdir_p (root // ".trash") (fs s) = Some m1 /\
      ((exists e, r = Val (trash_path root (clock s) p, Some e) /\ fs s' = m1) \/
       (r = Val (trash_path root (clock s) p, None) /\
        FS.move m1 p (trash_path root (clock s) p) = inr (fs s'))))).
Proof.
  unfold move_to_trash, bind, try_except, time_time, ret, trash_path.
  destruct (trash_dir_for root s) as [[td|e] s1] eqn:Htd;
    apply trash_dir_for_inv in Htd
      as (Hc & Hi & Hw & Hcfg & [(e' & ? & Hfs)|[? Hmk]]); simplify_eq.
  - rewrite Hc.
    destruct (shutil_move _ _ s1) as [[[]|e] s2] eqn:Hmv;
      apply shutil_move_inv in Hmv
        as (Hc2 & Hi2 & Hw2 & Hcfg2 & [(e' & ? & Hfs2)|[? Hmv]]); simplify_eq;
      intros [= <- <-];
      (do 3 (split; [congruence|])); (split; [frame|]);
      right; exists (fs s1); (split; [done|]).
    + by right.
    + left. eauto.
  - intros [= <- <-].
    (do 3 (split; [congruence|])); (split; [frame|]). left. eauto.
Qed.

(** Trashing a regular file: where it goes and what else changes. *)
Lemma move_to_trash_file root p d s tr s' :
  fs s !! p = Some (File d) ->
  FS.is_dir (fs s) (trash_path root (clock s) p) = false ->
  move_to_trash root p s = (Val (tr, None), s') ->
  tr = trash_path root (clock s) p /\
  clock s' = clock s /\ stdin s' = stdin s /\ cwd s' = cwd s /\
  same_config s s' /\
  exists m1,
    adds_dirs (String.length (root // ".trash")) (fs s) m1 /\
    m1 !! (root // ".trash") = Some Dir /\
    fs s' = <[tr := File d]> (delete p m1).
Proof.
  intros Hp Hdir H.
  apply move_to_trash_inv in H
    as (? & ? & ? & ? & [(e & ? & ?)|(m1 & Hmk & [(e & ? & ?)|[? Hmv]])]);
    simplify_eq.
  apply mkdir_p_spec in Hmk as [Htd Hadd].
  pose proof (trash_dir_length root) as Hlen.
  rewrite Nat.max_r in Hadd by lia.
  apply (move_file_inv _ _ _ d) in Hmv as [Hfs _].
  - do 5 (split; [done|]). by exists m1.
  - by eapply adds_dirs_keep.
  - unfold FS.is_dir in *.
    rewrite (adds_dirs_long _ _ _ _ Hadd); [done|]. apply trash_path_length.
Qed.

(** ** Configuration is only touched on success *)

Lemma remove_keeps root name yes s r s' :
  remove_prompt root name yes s = (r, s') ->
  (forall m, r <> Val (true, m)) -> same_config s s'.
Proof.
  unfold remove_prompt, move_to_trash, trash_dir_for. intros H Hr.
  exec; first [ by (exfalso; eapply Hr; reflexivity) | frame ].
Qed.

Lemma add_keeps root src force s r s' :
  add_file root src force s = (r, s') ->
  (forall m, r <> Val (true, m)) -> same_config s s'.
Proof.
  unfold add_file, move_to_trash, trash_dir_for. intros H Hr.
  exec; first [ by (exfalso; eapply Hr; reflexivity) | frame ].
Qed.

Lemma rename_keeps root old new force s r s' :
  rename_prompt root old new force s = (r, s') ->
  (forall m, r <> Val (true, m)) -> same_config s s'.
Proof.
  unfold rename_prompt, move_to_trash, trash_dir_for. intros H Hr.
  exec; first [ by (exfalso; eapply Hr; reflexivity) | frame ].
Qed.

Lemma undo_keeps s r s' :
  perform_undo s = (r, s') ->
  (forall m, r <> Val (true, m)) -> same_config s s'.
Proof.
  unfold perform_undo, clear_last_action, move_to_trash, trash_dir_for.
  intros H Hr.
  exec; first [ by (exfalso; eapply Hr; reflexivity) | frame ].
Qed.

(** C10: the configuration is written only on success. Whenever [add_file],
    [remove_prompt], [rename_prompt] or [perform_undo] ends in anything but
    a returned [(True, msg)] -- a failure return (not found, aborted, failed
    move to trash, failed final move, missing trashed file, ...) or an
    exception that escapes -- both the in-memory [cfg] dict and the persisted
    configuration file are exactly what they were, the [last_action] record
    included; a failed undo can therefore be tried again. *)
Theorem failure_keeps_config :
  (forall root src force s r s',
      add_file root src force s = (r, s') ->
      (forall m, r <> Val (true, m)) -> cfg s' = cfg s /\ disk s' = disk s) /\
  (forall root name yes s r s',
      remove_prompt root name yes s = (r, s') ->
      (forall m, r <> Val (true, m)) -> cfg s' = cfg s /\ disk s' = disk s) /\
  (forall root old new force s r s',
      rename_prompt root old new force s = (r, s') ->
      (forall m, r <> Val (true, m)) -> cfg s' = cfg s /\ disk s' = disk s) /\
  (forall s r s',
      perform_undo s = (r, s') ->
      (forall m, r <> Val (true, m)) -> cfg s' = cfg s /\ disk s' = disk s).
Proof.
  split; [|split; [|split]]; intros;
    match goal with |- cfg ?b = cfg ?a /\ _ => change (same_config a b) end.
  - eapply add_keeps; eauto.
  - eapply remove_keeps; eauto.
  - eapply rename_keeps; eauto.
  - eapply undo_keeps; eauto.
Qed.

(** C3: when the source exists, the destination exists, [force] is unset
    and the answer read from standard input is not a yes, [add_file] returns
    [(False, "aborted")]; nothing but the consumed input line changes, so the
    destination file is untouched, no trash entry (not even the trash
    directory) is created and the configuration stays as it was. *)
Theorem add_declined root src ans rest s :
  FS.exists_ (fs s) src = true ->
  FS.exists_ (fs s) (root // add_base src) = true ->
  stdin s = ans :: rest ->
  said_yes ans = false ->
  add_file root src false s = (Val (false, "aborted"), set_stdin rest s).
Proof.
  intros Hsrc Hdest Hin Hno.
  unfold add_file, bind, path_exists, input, ret. simpl.
  rewrite Hsrc. simpl. rewrite Hdest, Hin. simpl. by rewrite Hno.
Qed.

(** [perform_undo] on a record whose action is neither [add] nor
    [remove]: a failure return that changes nothing. *)
Lemma undo_unknown_action s (last : gmap string string) (a : string) :
  cfg s !! "last_action" = Some (JObj last) ->
  last !! "action" = Some a ->
  a <> "add" -> a <> "remove" ->
  perform_undo s = (Val (false, "unknown last action"), s).
Proof.
  intros Hlast Hact Hadd Hrem.
  unfold perform_undo, bind, get_cfg, ret. rewrite Hlast. simpl.
  assert (last <> ∅) as Hne by (intros ->; by rewrite lookup_empty in Hact).
  rewrite (bool_decide_eq_false_2 _ Hne). simpl.
  rewrite Hact.
  rewrite !bool_decide_eq_false_2 by congruence. done.
Qed.

(** Every successful path of [perform_undo] pops [last_action] and asks
    for the configuration to be saved. *)
Lemma undo_success_clears s msg s' :
  perform_undo s = (Val (true, msg), s') ->
  cfg s' = delete "last_action" (cfg s) /\
  (disk s' = Some (cfg s') \/ disk s' = disk s).
Proof.
  unfold perform_undo, clear_last_action, move_to_trash, trash_dir_for.
  intros H.
  exec; split; first [ congruence | frame ].
Qed.

Lemma undo_empty s :
  cfg s !! "last_action" = None ->
  perform_undo s = (Val (false, "no action to undo"), s).
Proof. intros H. unfold perform_undo, bind, get_cfg, ret. by rewrite H. Qed.

Lemma remove_ok_inv root name yes s msg s1 :
  remove_prompt root name yes s = (Val (true, msg), s1) ->
  let p := root // with_suffix name in
  exists s0 x tr,
    fs s0 = fs s /\ clock s0 = clock s /\ same_config s s0 /\
    move_to_trash root p s0 = (Val (tr, None), x) /\
    fs s1 = fs x /\
    cfg s1 = <["last_action" :=
                 JObj (<["trashed" := tr]>
                         (<["dest" := p]> {["action" := "remove"]}))]> (cfg s).
Proof.
  intros H p. subst p. unfold remove_prompt in H. run.
  all: match goal with
       | H : move_to_trash _ _ _ = _ |- _ =>
           pose proof (move_to_trash_inv _ _ _ _ _ H) as (? & ? & ? & ? & _)
       end.
  all: repeat (inv_prim; simplify_eq; simpl in * ).
  all: eexists _, _, _; split_and!; [| | |eassumption| |];
       first [ congruence | frame ].
Qed.

(** Running the calls forward when the environment raises no fault. *)
Lemma take_fault_none s : faults s = [] -> take_fault s = (Val false, s).
Proof. unfold take_fault. by intros ->. Qed.

Lemma path_mkdir_ok p m s :
  faults s = [] -> FS.mkdir_p p (fs s) = Some m ->
  path_mkdir p s = (Val tt, set_fs m s).
Proof.
  intros Hf Hm. unfold path_mkdir, bind. rewrite take_fault_none by done.
  by rewrite Hm.
Qed.

Lemma shutil_move_ok a b m s :
  faults s = [] -> FS.move (fs s) a b = inr m ->
  shutil_move a b s = (Val tt, set_fs m s).
Proof.
  intros Hf Hm. unfold shutil_move, bind. rewrite take_fault_none by done.
  by rewrite Hm.
Qed.

Lemma save_config_ok c s :
  faults s = [] -> save_config c s = (Val tt, set_disk (Some c) s).
Proof.
  intros Hf. unfold save_config, try_except, bind.
  by rewrite take_fault_none.
Qed.

Lemma with_suffix_length name : 10 <= String.length (with_suffix name).
Proof.
  unfold with_suffix. destruct (Str.endswith name SUFFIX) eqn:E.
  - by apply endswith_length in E.
  - rewrite length_app. simpl. lia.
Qed.

Lemma join_length_r a b :
  String.length b <= String.length (a // b) \/ b = EmptyString.
Proof.
  unfold PathLib.join.
  destruct (PathLib.is_absolute b); [left; lia|].
  destruct (String.eqb_spec b EmptyString); [by right|left].
  destruct (_ || _); [lia|].
  destruct (String.eqb a "/"); rewrite !length_app; lia.
Qed.

Lemma prompt_path_length root name :
  10 <= String.length (root // with_suffix name).
Proof.
  pose proof (with_suffix_length name) as Hlen.
  destruct (join_length_r root (with_suffix name)) as [?|E]; [lia|].
  rewrite E in Hlen. simpl in Hlen. lia.
Qed.

(** [perform_undo] on a [remove] record. *)
Lemma undo_remove_unfold s (last : gmap string string) trashed dest :
  cfg s !! "last_action" = Some (JObj last) ->
  last !! "action" = Some "remove" ->
  last !! "trashed" = Some trashed ->
  last !! "dest" = Some dest ->
  perform_undo s =
    (te <- path_exists trashed ;;
     if negb te then ret (false, "trashed file not found") else
     r <- try_except
            (path_mkdir (PathLib.parent dest) ;;
             shutil_move trashed dest ;;
             ret None)
            (fun e => ret (Some e)) ;;
     match r with
     | Some e => ret (false, "failed to restore: " ++ str_exn e)
     | None =>
         clear_last_action ;;
         ret (true, "restored " ++ PathLib.name dest)
     end)%py s.
Proof.
  intros Hlast Hact Htr Hdest.
  unfold perform_undo at 1. unfold bind at 1. unfold get_cfg at 1.
  rewrite Hlast. simpl.
  assert (last <> ∅) as Hne by (intros ->; by rewrite lookup_empty in Hact).
  rewrite (bool_decide_eq_false_2 _ Hne). simpl.
  rewrite Hact, Htr, Hdest. simpl.
  reflexivity.
Qed.

Lemma remove_record_lookups (trashed p : string) :
  let last : gmap string string :=
    <["trashed" := trashed]> (<["dest" := p]> {["action" := "remove"]}) in
  last !! "action" = Some "remove" /\
  last !! "trashed" = Some trashed /\
  last !! "dest" = Some p.
Proof. by vm_compute. Qed.

(** Putting a trashed file back where nothing is in the way. *)
Lemma restore_from_trash (m m2 m3 : gmap string node) p trashed data :
  m !! trashed = Some (File data) -> m !! p = None ->
  2 <= String.length p ->
  FS.mkdir_p (PathLib.parent p) m = Some m2 ->
  FS.move m2 trashed p = inr m3 ->
  m3 = <[p := File data]> (delete trashed m2).
Proof.
  intros Ht Hp Hlen Hmk Hmv.
  pose proof (mkdir_parent_keeps _ _ _ Hlen Hmk) as Hp2.
  apply mkdir_p_spec in Hmk as [_ Hadd].
  apply (move_file_inv _ _ _ data) in Hmv as [-> _]; [done|..].
  - by eapply adds_dirs_keep.
  - apply is_dir_none. congruence.
Qed.

(** C2: remove, then undo. Let [remove_prompt] succeed on a prompt that is
    a regular file with bytes [data] (the path it is trashed to not being a
    directory). Then
    - any [perform_undo] that follows and succeeds leaves exactly [data] at
      the original path;
    - that undo does succeed when the environment raises no fault and the
      prompt's parent directory exists;
    - in any state holding the same record where the trashed file is gone,
      [perform_undo] returns [(False, "trashed file not found")] and changes
      nothing. *)
Theorem remove_then_undo root name yes data s msg s1 :
  let p := root // with_suffix name in
  let trashed := trash_path root (clock s) p in
  fs s !! p = Some (File data) ->
  FS.is_dir (fs s) trashed = false ->
  remove_prompt root name yes s = (Val (true, msg), s1) ->
  (forall msg' s2,
      perform_undo s1 = (Val (true, msg'), s2) ->
      fs s2 !! p = Some (File data)) /\
  (faults s1 = [] -> FS.is_dir (fs s) (PathLib.parent p) = true ->
   exists s2,
     perform_undo s1 = (Val (true, "restored " ++ PathLib.name p), s2) /\
     fs s2 !! p = Some (File data)) /\
  (forall s1',
      cfg s1' = cfg s1 -> FS.exists_ (fs s1') trashed = false ->
      perform_undo s1' = (Val (false, "trashed file not found"), s1')).
Proof.
  intros p trashed Hp Hdir Hrm.
  apply remove_ok_inv in Hrm as (s0 & x & tr & Hfs0 & Hc0 & _ & Htr & Hfs1 & Hcfg).
  fold p in Htr, Hcfg.
  apply (move_to_trash_file _ _ data) in Htr
    as (-> & _ & _ & _ & _ & m1 & Hadd & Htd & Hx);
    [|by rewrite Hfs0|by rewrite Hfs0, Hc0].
  rewrite Hc0 in *. fold trashed in Hcfg, Hx.
  rewrite Hfs0 in Hadd. rewrite <- Hfs1 in Hx. clear Hfs1 Hfs0 Hc0 x s0.
  assert (trashed <> p) as Hne by apply trash_path_ne.
  assert (2 <= String.length p) as Hlen
    by (pose proof (prompt_path_length root name); unfold p; lia).
  destruct (remove_record_lookups trashed p) as (Ha & Ht & Hd).
  assert (cfg s1 !! "last_action" =
            Some (JObj (<["trashed" := trashed]>
                          (<["dest" := p]> {["action" := "remove"]}))))
    as Hlast by (rewrite Hcfg; apply lookup_insert_eq).
  assert (fs s1 !! trashed = Some (File data)) as Hs1t
    by (rewrite Hx; apply lookup_insert_eq).
  assert (fs s1 !! p = None) as Hs1p
    by (rewrite Hx, lookup_insert_ne by done; apply lookup_delete_eq).
  split; [|split].
  - intros msg' s2 Hun.
    rewrite (undo_remove_unfold _ _ _ _ Hlast Ha Ht Hd) in Hun.
    unfold clear_last_action in Hun. exec.
    match goal with
    | Hmk : FS.mkdir_p _ _ = Some _, Hmv : FS.move _ _ _ = inr _,
      Hfs : fs s2 = _ |- _ =>
        rewrite Hfs;
        rewrite (restore_from_trash _ _ _ p trashed data Hs1t Hs1p Hlen Hmk Hmv)
    end.
    apply lookup_insert_eq.
  - intros Hf Hpar.
    rewrite (undo_remove_unfold _ _ _ _ Hlast Ha Ht Hd).
    assert (fs s1 !! PathLib.parent p = Some Dir) as Hpar1.
    { apply is_dir_true in Hpar.
      rewrite Hx, lookup_insert_ne, lookup_delete_ne.
      - by eapply adds_dirs_keep.
      - intros E. rewrite <- E in Hpar. congruence.
      - intros E. unfold FS.is_dir in Hdir. rewrite E, Hpar in Hdir. done. }
    assert (FS.move (fs s1) trashed p =
              inr (<[p := File data]> (delete trashed (fs s1)))) as Hmv.
    { apply move_file_ok; [done|by apply is_dir_none|by apply is_dir_true]. }
    eexists. split.
    + unfold bind at 1. unfold path_exists at 1.
      unfold FS.exists_ at 1. rewrite Hs1t. simpl.
      unfold bind at 1. unfold try_except at 1. unfold bind at 1.
      rewrite (path_mkdir_ok _ (fs s1)) by auto using mkdir_p_existing.
      unfold bind at 1.
      rewrite (shutil_move_ok _ _ (<[p := File data]> (delete trashed (fs s1))))
        by done.
      unfold ret at 1. unfold bind at 1.
      unfold clear_last_action, cfg_pop, get_cfg. unfold bind at 1. simpl.
      unfold bind at 1. simpl. rewrite save_config_ok by done.
      reflexivity.
    + simpl. apply lookup_insert_eq.
  - intros s1' Hc Hex.
    assert (cfg s1' !! "last_action" =
            Some (JObj (<["trashed" := trashed]>
                          (<["dest" := p]> {["action" := "remove"]}))))
      as Hlast' by (rewrite Hc; done).
    rewrite (undo_remove_unfold _ _ _ _ Hlast' Ha Ht Hd).
    unfold bind, path_exists. by rewrite Hex.
Qed.

(** What the trash sequence leaves behind when it moved a regular file. *)
Lemma move_to_trash_post root p d s tr s' :
  fs s !! p = Some (File d) ->
  FS.is_dir (fs s) (trash_path root (clock s) p) = false ->
  move_to_trash root p s = (Val (tr, None), s') ->
  tr = root // ".trash" // (pretty (clock s) ++ "_" ++ PathLib.name p) /\
  PathLib.parent tr = root // ".trash" /\
  PathLib.name tr = pretty (clock s) ++ "_" ++ PathLib.name p /\
  fs s' !! tr = Some (File d) /\
  FS.is_dir (fs s') (root // ".trash") = true.
Proof.
  intros Hp Hdir H.
  apply (move_to_trash_file _ _ d) in H
    as (-> & _ & _ & _ & _ & m1 & Hadd & Htd & Hfs); [|done..].
  split; [done|]. split; [apply trash_path_parent|].
  split; [apply trash_path_name|].
  rewrite Hfs. split; [apply lookup_insert_eq|].
  apply is_dir_true.
  rewrite lookup_insert_ne, lookup_delete_ne; [done| |].
  - intros E. rewrite <- (adds_dirs_file _ _ _ _ d Hadd) in Hp. congruence.
  - intros E. apply (f_equal String.length) in E.
    pose proof (trash_path_length root (clock s) p). lia.
Qed.

Lemma add_base_no_slash src : no_slash (add_base src) = true.
Proof.
  unfold add_base. pose proof (name_no_slash src) as H.
  destruct (negb _); [|done]. by rewrite no_slash_app, H.
Qed.

Lemma add_base_length src :
  String.length (PathLib.name src) <= String.length (add_base src) /\
  1 <= String.length (add_base src).
Proof.
  unfold add_base. destruct (Str.endswith (PathLib.name src) SUFFIX) eqn:E; simpl.
  - apply endswith_length in E. simpl in E. lia.
  - rewrite length_app. simpl. lia.
Qed.

(** The trash path of the destination differs from the source path. *)
Lemma add_trash_ne_src root t src :
  trash_path root t (root // add_base src) <> src.
Proof.
  intros E. apply (f_equal (fun x => String.length (PathLib.name x))) in E.
  rewrite trash_path_name in E. unfold trash_name in E.
  rewrite !length_app in E. simpl in E.
  pose proof (add_base_length src) as [H1 H2].
  assert (String.length (add_base src) <=
            String.length (PathLib.name (root // add_base src))) as H3.
  { rewrite join_relative.
    - rewrite name_app by apply add_base_no_slash. rewrite length_app. lia.
    - apply is_absolute_no_slash, add_base_no_slash.
    - intros E'. rewrite E' in H2. simpl in H2. lia. }
  lia.
Qed.

Lemma confirmed_run force prompt s s0 :
  confirmed force s s0 ->
  (if negb force then (ans <- input prompt ;; ret (said_yes ans))%py
   else ret true) s = (Val true, s0).
Proof.
  unfold confirmed. destruct force; simpl; [by intros ->|].
  unfold bind, input. destruct (stdin s) as [|ans rest]; [done|].
  intros [-> ->]. done.
Qed.

(** A best-effort move always comes back, whatever the move did. *)
Lemma best_effort_move a b s :
  try_except (shutil_move a b) (fun _ => ret tt) s =
    (Val tt, (try_except (shutil_move a b) (fun _ => ret tt) s).2).
Proof.
  unfold try_except. by destruct (shutil_move a b s) as [[[]|e] s'].
Qed.

Lemma best_effort_move_inv a b s :
  let s' := (try_except (shutil_move a b) (fun _ => ret tt) s).2 in
  same_config s s' /\
  (fs s' = fs s \/ FS.move (fs s) a b = inr (fs s')).
Proof.
  unfold try_except.
  destruct (shutil_move a b s) as [r s'] eqn:H.
  apply shutil_move_inv in H as (_ & _ & _ & Hsc & [(e & -> & Hfs)|[-> Hmv]]);
    simpl; auto.
Qed.

(** C6: rollback in [add_file]. Suppose the destination held [old], the
    overwrite guard let the call through, the destination was moved to the
    trash, and the final move of the source raised [e]. Then [add_file]
    attempts to move the trashed file back -- the state it ends in is the one
    that attempt leaves, whether it worked or raised -- and returns
    [(False, "Failed to move: {e}")], the first error only. [old] is at the
    destination again or still in the trash, a regular source file keeps its
    bytes, and the configuration is untouched. *)
Theorem add_rollback root src force old s s0 s1 tr e s2 :
  let dest := root // add_base src in
  let ot := trash_path root (clock s) dest in
  FS.exists_ (fs s) src = true ->
  fs s !! dest = Some (File old) ->
  FS.is_dir (fs s) ot = false ->
  confirmed force s s0 ->
  move_to_trash root dest s0 = (Val (tr, None), s1) ->
  shutil_move src dest s1 = (Raise e, s2) ->
  let s3 := (try_except (shutil_move ot dest) (fun _ => ret tt) s2).2 in
  add_file root src force s =
    (Val (false, "Failed to move: " ++ str_exn e), s3) /\
  (fs s3 !! dest = Some (File old) \/ fs s3 !! ot = Some (File old)) /\
  (forall new, fs s !! src = Some (File new) -> src <> dest ->
               fs s3 !! src = Some (File new)) /\
  cfg s3 = cfg s /\ disk s3 = disk s.
Proof.
  intros dest ot Hsrc Hdest Hdir Hconf Htr Hmv s3.
  assert (fs s0 = fs s /\ clock s0 = clock s /\ same_config s s0)
    as (Hfs0 & Hc0 & Hsc0).
  { unfold confirmed in Hconf. destruct force; [by subst|].
    destruct (stdin s); [done|]. destruct Hconf as [_ ->]. done. }
  pose proof Htr as Htr'.
  apply (move_to_trash_file _ _ old) in Htr'
    as (-> & _ & _ & _ & Hsc1 & m1 & Hadd & Htd & Hfs1);
    [|by rewrite Hfs0|by rewrite Hfs0, Hc0].
  rewrite Hc0 in Htr, Hfs1. fold dest ot in Htr, Hfs1. rewrite Hfs0 in Hadd.
  assert (ot <> dest) as Hne by apply trash_path_ne.
  pose proof Hmv as Hmv'.
  apply shutil_move_inv in Hmv'
    as (_ & _ & _ & Hsc2 & [(e' & [= <-] & Hfs2)|[? _]]); [|done].
  assert (fs s2 !! ot = Some (File old)) as Hot
    by (rewrite Hfs2, Hfs1; apply lookup_insert_eq).
  assert (fs s2 !! dest = None) as Hd2
    by (rewrite Hfs2, Hfs1, lookup_insert_ne by done; apply lookup_delete_eq).
  split.
  - unfold add_file. fold dest.
    unfold bind at 1. unfold path_exists at 1. rewrite Hsrc. simpl.
    unfold bind at 1. unfold path_exists at 1.
    unfold FS.exists_ at 1. rewrite Hdest. simpl.
    unfold bind at 1. erewrite confirmed_run by done. simpl.
    unfold bind at 1. rewrite Htr.
    unfold bind at 1. unfold try_except at 1. unfold bind at 1. rewrite Hmv.
    unfold bind at 1. unfold bind at 1. unfold path_exists at 1.
    unfold FS.exists_ at 1. rewrite Hot.
    rewrite best_effort_move. reflexivity.
  - destruct (best_effort_move_inv ot dest s2) as [Hsc3 Hfs3].
    fold s3 in Hsc3, Hfs3.
    assert (fs s3 = fs s2 \/
            fs s3 = <[dest := File old]> (delete ot (fs s2))) as Hfs3'.
    { destruct Hfs3 as [?|Hmv3]; [by left|right].
      apply (move_file_inv _ _ _ old) in Hmv3 as [? _]; [done..|].
      by apply is_dir_none. }
    split; [|split; [|frame]].
    + destruct Hfs3' as [->| ->]; [by right|left]. apply lookup_insert_eq.
    + intros new Hnew Hsd.
      assert (ot <> src) as Hos by apply add_trash_ne_src.
      assert (fs s2 !! src = Some (File new)) as Hs2.
      { rewrite Hfs2, Hfs1, lookup_insert_ne, lookup_delete_ne by done.
        by eapply adds_dirs_keep. }
      destruct Hfs3' as [->| ->]; [done|].
      by rewrite lookup_insert_ne, lookup_delete_ne.
Qed.

(** C4: undo is single-shot. With no [last_action] in [cfg],
    [perform_undo] returns [(False, "no action to undo")]. A [perform_undo]
    that succeeds had a record to work on, removes it from [cfg] (and from
    the persisted file unless that write failed), and any [perform_undo] on
    the resulting [cfg] returns [(False, "no action to undo")]. *)
Theorem undo_single_shot s :
  (cfg s !! "last_action" = None ->
   perform_undo s = (Val (false, "no action to undo"), s)) /\
  (forall msg s',
      perform_undo s = (Val (true, msg), s') ->
      is_Some (cfg s !! "last_action") /\
      cfg s' !! "last_action" = None /\
      (disk s' = Some (cfg s') \/ disk s' = disk s) /\
      forall s'', cfg s'' = cfg s' ->
        perform_undo s'' = (Val (false, "no action to undo"), s'')).
Proof.
  split; [apply undo_empty|].
  intros msg s' H.
  pose proof (undo_success_clears _ _ _ H) as [Hcfg Hdisk].
  assert (cfg s' !! "last_action" = None) as Hnone
    by (rewrite Hcfg; apply lookup_delete_eq).
  split_and!; [|done|done|].
  - destruct (cfg s !! "last_action") eqn:E; [eauto|].
    rewrite undo_empty in H by done. done.
  - intros s'' E. apply undo_empty. by rewrite E.
Qed.

Lemma add_ok_record root src force s msg s' :
  add_file root src force s = (Val (true, msg), s') ->
  exists last : gmap string string,
    cfg s' !! "last_action" = Some (JObj last) /\
    last !! "action" = Some "add" /\
    last !! "src" = Some src /\
    last !! "dest" = Some (root // add_base src).
Proof.
  unfold add_file, move_to_trash, trash_dir_for. intros H.
  exec.
  all: match goal with
       | Hc : cfg ?st = _ |- context [cfg ?st] => rewrite Hc
       end.
  all: eexists; split; [apply lookup_insert_eq|].
  all: split_and!; vm_compute; reflexivity.
Qed.

(** Moving the source in once the old destination sits in the trash. *)
Lemma move_in_after_trash (m1 m2 : gmap string node) src dest ot old d :
  m1 !! src = Some (File d) -> ot <> src -> ot <> dest ->
  FS.move (<[ot := File old]> (delete dest m1)) src dest = inr m2 ->
  m2 !! dest = Some (File d) /\ m2 !! src = None /\
  m2 !! ot = Some (File old) /\
  (forall k, k <> src -> k <> dest -> k <> ot -> m2 !! k = m1 !! k).
Proof.
  intros Hsrc Hos Hod Hmv.
  destruct (decide (src = dest)) as [->|Hsd].
  { destruct (move_missing (<[ot := File old]> (delete dest m1)) dest dest)
      as [e He]; [|congruence].
    rewrite lookup_insert_ne by done. apply lookup_delete_eq. }
  apply (move_file_inv _ _ _ d) in Hmv as [-> _].
  - split_and!.
    + apply lookup_insert_eq.
    + rewrite lookup_insert_ne by done. apply lookup_delete_eq.
    + rewrite lookup_insert_ne, lookup_delete_ne by done.
      apply lookup_insert_eq.
    + intros k ? ? ?.
      by rewrite lookup_insert_ne, lookup_delete_ne, lookup_insert_ne,
        lookup_delete_ne.
  - by rewrite lookup_insert_ne, lookup_delete_ne.
  - apply is_dir_none. rewrite lookup_insert_ne by done.
    apply lookup_delete_eq.
Qed.

(** The trash directory is still there after the source moved in. *)
Lemma trash_dir_survives (m1 m2 : gmap string node) root t p src dest d old :
  m1 !! (root // ".trash") = Some Dir ->
  m1 !! src = Some (File d) -> m1 !! dest = Some (File old) ->
  (forall k, k <> src -> k <> dest -> k <> trash_path root t p ->
             m2 !! k = m1 !! k) ->
  FS.is_dir m2 (root // ".trash") = true.
Proof.
  intros Htd Hsrc Hdest Hsame. apply is_dir_true.
  rewrite Hsame; [done|congruence|congruence|].
  intros E. apply (f_equal String.length) in E.
  pose proof (trash_path_length root t p). lia.
Qed.

Lemma exists_not_dir m p :
  FS.exists_ m p = true -> FS.is_dir m p = false ->
  exists d, m !! p = Some (File d).
Proof.
  unfold FS.exists_, FS.is_dir. destruct (m !! p) as [[d|]|]; try done. eauto.
Qed.

(** A successful add of a regular file leaves its bytes at the destination
    and nothing at the source. *)
Lemma add_ok_file root src force d s msg s' :
  let dest := root // add_base src in
  fs s !! src = Some (File d) ->
  FS.is_dir (fs s) dest = false ->
  FS.is_dir (fs s) (trash_path root (clock s) dest) = false ->
  add_file root src force s = (Val (true, msg), s') ->
  fs s' !! dest = Some (File d) /\ fs s' !! src = None.
Proof.
  intros dest Hsrc Hnd Hdir H.
  unfold add_file in H. fold dest in H. run.
  all: repeat match goal with
         | H : input _ _ = _ |- _ =>
             apply input_inv in H as (? & ? & _ & _ & _)
         | H : save_config _ _ = _ |- _ =>
             apply save_config_inv in H as (_ & ? & _)
         | H : shutil_move _ _ _ = (Val _, _) |- _ =>
             apply shutil_move_inv in H
               as (_ & _ & _ & _ & [(? & ? & _)|[_ ?]]); [done|]
         end; simpl in *.
  3: { match goal with
       | Hmv : FS.move _ src dest = inr _, Hs : fs s' = _ |- _ =>
           apply (move_file_inv _ _ _ d) in Hmv as [Hmv _]; [|done..];
           rewrite Hs, Hmv
       end.
       split; [apply lookup_insert_eq|].
       rewrite lookup_insert_ne; [apply lookup_delete_eq|].
       intros E.
       match goal with
       | Hex : FS.exists_ _ dest = false |- _ =>
           unfold FS.exists_ in Hex; rewrite E, Hsrc in Hex; done
       end. }
  all: match goal with
       | Hex : FS.exists_ _ _ = true |- _ =>
           destruct (exists_not_dir _ _ Hex Hnd) as [old Hold]
       end.
  all: match goal with
       | Htr : move_to_trash _ _ _ = _ |- _ =>
           apply (move_to_trash_file _ _ old) in Htr
             as (-> & _ & _ & _ & _ & m1 & Hadd & _ & Hfs1);
             [|congruence..]
       end.
  all: match goal with
       | Hmv : FS.move _ _ _ = inr _, Hs : fs _ = fs _ |- _ =>
           rewrite Hfs1 in Hmv;
           apply (move_in_after_trash _ _ _ _ _ _ d) in Hmv
             as (? & ? & _); [by rewrite Hs| | |]
       end.
  all: try apply add_trash_ne_src; try apply trash_path_ne.
  all: eapply adds_dirs_keep; [eassumption|congruence].
Qed.

(** C8: suffix normalisation in [add_file]. A source basename that does not
    end with [".prompt.md"] gets the suffix appended; one that ends with it
    is taken as it is. The destination name always ends with the suffix and
    normalising it again changes nothing (no doubled suffix). A successful
    add records [root / name] as [dest], and the bytes of a regular source
    file are found there. *)
Theorem add_suffix_normalised src :
  let base := PathLib.name src in
  (Str.endswith base SUFFIX = false -> add_base src = base ++ SUFFIX) /\
  (Str.endswith base SUFFIX = true -> add_base src = base) /\
  Str.endswith (add_base src) SUFFIX = true /\
  with_suffix (add_base src) = add_base src /\
  (forall root force s msg s',
      add_file root src force s = (Val (true, msg), s') ->
      exists last : gmap string string,
        cfg s' !! "last_action" = Some (JObj last) /\
        last !! "dest" = Some (root // add_base src)) /\
  (forall root force d s msg s',
      fs s !! src = Some (File d) ->
      FS.is_dir (fs s) (root // add_base src) = false ->
      FS.is_dir (fs s) (trash_path root (clock s) (root // add_base src))
        = false ->
      add_file root src force s = (Val (true, msg), s') ->
      fs s' !! (root // add_base src) = Some (File d)).
Proof.
  intros base.
  assert (Str.endswith (add_base src) SUFFIX = true) as Hends.
  { unfold add_base. fold base.
    destruct (Str.endswith base SUFFIX) eqn:E; simpl; [done|].
    apply endswith_app. }
  split_and!.
  - intros E. unfold add_base. fold base. by rewrite E.
  - intros E. unfold add_base. fold base. by rewrite E.
  - done.
  - unfold with_suffix. by rewrite Hends.
  - intros root force s msg s' H.
    apply add_ok_record in H as (last & ? & _ & _ & ?). eauto.
  - intros root force d s msg s' Hsrc Hnd Hdir H.
    by apply (add_ok_file _ _ _ d) in H as [? _].
Qed.

(** [add_suffix_normalised] on the sample states. *)
Lemma add_suffix_normalised_witness :
  add_base "/home/notes" = "notes.prompt.md" /\
  add_base "/home/notes.prompt.md" = "notes.prompt.md" /\
  fs demo_added !! "/r/x.prompt.md" = Some (File bytes_new).
Proof.
  destruct (add_suffix_normalised "/home/notes") as (H1 & _).
  destruct (add_suffix_normalised "/home/notes.prompt.md") as (_ & H2 & _).
  destruct (add_suffix_normalised "/home/x") as (_ & _ & _ & _ & _ & H3).
  split; [exact (H1 eq_refl)|]. split; [exact (H2 eq_refl)|].
  apply (H3 "/r" true bytes_new demo
            ("added prompt x.prompt.md" ++ nl ++ "use /x to use it"));
    vm_compute; reflexivity.
Defined.

(** C1: what undoing an overwriting add does. In [demo], adding [/home/x]
    with [force] trashes the old [x.prompt.md] and records its trash path.
    The undo that follows reports success, but it first moves the trashed
    original onto the destination -- replacing the added file -- and then
    moves the destination to [.trash/..._x.prompt.md.added]: afterwards
    nothing is at the destination, the [.added] file holds the OLD bytes,
    and the added file's bytes are nowhere in the file system. *)
Theorem undo_add_overwrite_loses_added :
  add_file "/r" "/home/x" true demo =
    (Val (true, "added prompt x.prompt.md" ++ nl ++ "use /x to use it"),
     demo_added) /\
  cfg demo_added !! "last_action" =
    Some (JObj (<["overwritten_trash" := "/r/.trash/100_x.prompt.md"]>
                  (<["dest" := "/r/x.prompt.md"]>
                     (<["src" := "/home/x"]> {["action" := "add"]})))) /\
  fs demo_added !! "/r/.trash/100_x.prompt.md" = Some (File bytes_old) /\
  fs demo_added !! "/r/x.prompt.md" = Some (File bytes_new) /\
  perform_undo demo_added =
    (Val (true,
          "restored overwritten prompt and moved new added file to trash"),
     demo_undone) /\
  fs demo_undone !! "/r/x.prompt.md" = None /\
  fs demo_undone !! "/r/.trash/100_x.prompt.md.added" =
    Some (File bytes_old) /\
  (forall p, fs demo_undone !! p <> Some (File bytes_new)).
Proof.
  split_and!; try (vm_compute; reflexivity).
  intros p Hp.
  assert (map_Forall (fun _ n => n <> File bytes_new) (fs demo_undone)) as HF.
  { apply map_Forall_to_list. vm_compute. repeat constructor; discriminate. }
  by apply (HF p _ Hp).
Qed.

Lemma rename_ok_record root old new force s msg s' :
  rename_prompt root old new force s = (Val (true, msg), s') ->
  exists last : gmap string string,
    cfg s' !! "last_action" = Some (JObj last) /\
    last !! "action" = Some "rename" /\
    last !! "old" = Some (root // with_suffix old) /\
    last !! "new" = Some (root // with_suffix new).
Proof.
  unfold rename_prompt, move_to_trash, trash_dir_for. intros H.
  exec.
  all: match goal with
       | Hc : cfg ?st = _ |- context [cfg ?st] => rewrite Hc
       end.
  all: eexists; split; [apply lookup_insert_eq|].
  all: split_and!; vm_compute; reflexivity.
Qed.

(** C9: records that undo cannot reverse. For a [last_action] record whose
    [action] is neither [add] nor [remove], [perform_undo] returns
    [(False, "unknown last action")] and changes nothing; in particular the
    record a successful [rename_prompt] writes is met with that failure, and
    the rename stays in place. *)
Theorem undo_not_reversible :
  (forall s (last : gmap string string) (a : string),
      cfg s !! "last_action" = Some (JObj last) ->
      last !! "action" = Some a ->
      a <> "add" -> a <> "remove" ->
      perform_undo s = (Val (false, "unknown last action"), s)) /\
  (forall root old new force s msg s',
      rename_prompt root old new force s = (Val (true, msg), s') ->
      perform_undo s' = (Val (false, "unknown last action"), s')).
Proof.
  split; [apply undo_unknown_action|].
  intros root old new force s msg s' H.
  apply rename_ok_record in H as (last & Hl & Ha & _).
  by apply (undo_unknown_action _ last "rename").
Qed.

(** [undo_not_reversible] on the sample states. *)
Lemma undo_not_reversible_witness :
  perform_undo demo_renamed = (Val (false, "unknown last action"), demo_renamed).
Proof.
  apply (proj2 undo_not_reversible "/r" "y" "x" true demo2
           "renamed y.prompt.md -> x.prompt.md").
  vm_compute. reflexivity.
Defined.

(** [remove_then_undo] on the sample states. *)
Lemma remove_then_undo_witness :
  exists s2,
    perform_undo demo_removed = (Val (true, "restored x.prompt.md"), s2) /\
    fs s2 !! "/r/x.prompt.md" = Some (File bytes_old).
Proof.
  destruct (remove_then_undo "/r" "x" true bytes_old demo
              "removed x.prompt.md (moved to trash)" demo_removed)
    as (_ & Hb & _); [vm_compute; reflexivity..|].
  apply Hb; vm_compute; reflexivity.
Defined.

(** [add_declined] on the sample states. *)
Lemma add_declined_witness :
  add_file "/r" "/home/x" false demo_no = (Val (false, "aborted"), demo).
Proof.
  apply (add_declined "/r" "/home/x" "n" [] demo_no); vm_compute; reflexivity.
Defined.

(** [undo_single_shot] on the sample states. *)
Lemma undo_single_shot_witness :
  exists s', perform_undo demo_removed =
               (Val (true, "restored x.prompt.md"), s') /\
             perform_undo s' = (Val (false, "no action to undo"), s').
Proof.
  exists (perform_undo demo_removed).2. split; [vm_compute; reflexivity|].
  destruct (proj2 (undo_single_shot demo_removed) "restored x.prompt.md"
              (perform_undo demo_removed).2) as (_ & _ & _ & H);
    [vm_compute; reflexivity|].
  apply H. reflexivity.
Defined.

(** [add_rollback] on the sample states. *)
Lemma add_rollback_witness :
  exists s3,
    add_file "/r" "/home/x" true demo_fault =
      (Val (false, "Failed to move: Permission denied: '/home/x'"), s3) /\
    fs s3 !! "/r/x.prompt.md" = Some (File bytes_old) /\
    fs s3 !! "/home/x" = Some (File bytes_new).
Proof.
  destruct (add_rollback "/r" "/home/x" true bytes_old demo_fault demo_fault
              demo_fault_trashed "/r/.trash/100_x.prompt.md"
              (OSError "Permission denied: '/home/x'") demo_fault_moved)
    as (H1 & _ & H3 & _); [vm_compute; reflexivity..|].
  eexists. split; [exact H1|]. split; [vm_compute; reflexivity|].
  apply H3; [vm_compute; reflexivity|discriminate].
Defined.

(** [failure_keeps_config] on the sample states. *)
Lemma failure_keeps_config_witness :
  cfg (add_file "/r" "/home/x" true demo_fault).2 = cfg demo_fault /\
  disk (add_file "/r" "/home/x" true demo_fault).2 = disk demo_fault.
Proof.
  apply (proj1 failure_keeps_config "/r" "/home/x" true demo_fault
           (Val (false, "Failed to move: Permission denied: '/home/x'"))).
  - vm_compute. reflexivity.
  - discriminate.
Defined.

(** ** Further facts about the model and the operations *)

Lemma parent_fixed_or_shorter (p : string) :
  PathLib.parent p = p \/
  String.length (PathLib.parent p) < String.length p \/
  PathLib.parent (PathLib.parent p) = PathLib.parent p.
Proof.
  destruct (PathLib.rsplit p) as [[a b]|] eqn:E.
  - assert (PathLib.parent p =
              match a with EmptyString => "/" | _ => a end) as ->
      by (unfold PathLib.parent; by rewrite E).
    apply rsplit_Some in E as [-> _]. rewrite length_app. simpl.
    destruct a; simpl.
    + right. right. reflexivity.
    + right. left. lia.
  - assert (PathLib.parent p = ".") as ->
      by (unfold PathLib.parent; by rewrite E).
    right. right. reflexivity.
Qed.

Lemma mkdir_go_stuck fuel q (m : gmap string node) :
  PathLib.parent q = q -> m !! q = None -> FS.mkdir_go fuel q m = None.
Proof.
  intros Hq Hm. destruct fuel; simpl; rewrite Hm, Hq, Hm; [done|].
  by rewrite String.eqb_refl.
Qed.

(** The fuel [FS.mkdir_p] hands out is enough: more fuel gives the same
    result. *)
Lemma mkdir_go_fuel p (m : gmap string node) f1 f2 :
  String.length p <= f1 -> String.length p <= f2 ->
  FS.mkdir_go f1 p m = FS.mkdir_go f2 p m.
Proof.
  remember (String.length p) as n eqn:Hn.
  revert p Hn f1 f2. induction n as [n IH] using lt_wf_ind.
  intros p Hn f1 f2 H1 H2.
  assert (forall f, n <= f ->
            FS.mkdir_go f p m =
              match m !! p with
              | Some Dir => Some m
              | Some (File _) => None
              | None =>
                  match m !! PathLib.parent p with
                  | Some Dir => Some (<[p := Dir]> m)
                  | Some (File _) => None
                  | None =>
                      if String.eqb (PathLib.parent p) p then None
                      else match FS.mkdir_go (String.length (PathLib.parent p))
                                   (PathLib.parent p) m with
                           | Some m' => Some (<[p := Dir]> m')
                           | None => None
                           end
                  end
              end) as Hstep.
  { intros f Hf.
    destruct f as [|f]; simpl;
      destruct (m !! p) as [[d|]|] eqn:Hp; try done;
      destruct (m !! PathLib.parent p) as [[d|]|] eqn:Hpar; try done.
    - destruct (String.eqb_spec (PathLib.parent p) p) as [|Hne]; [done|].
      destruct (parent_fixed_or_shorter p) as [?|[?|Hfix]]; [done|lia|].
      by rewrite (mkdir_go_stuck _ _ _ Hfix Hpar).
    - destruct (String.eqb_spec (PathLib.parent p) p) as [|Hne]; [done|].
      destruct (parent_fixed_or_shorter p) as [?|[Hlt|Hfix]]; [done| |].
      + rewrite (IH (String.length (PathLib.parent p)) ltac:(lia) _ eq_refl
                   f (String.length (PathLib.parent p))) by lia.
        done.
      + by rewrite !(mkdir_go_stuck _ _ _ Hfix Hpar). }
  rewrite (Hstep f1 H1), (Hstep f2 H2). done.
Qed.

Lemma trash_join_eq (root n : string) :
  no_slash n = true -> n <> EmptyString ->
  root // ".trash" // n = (root // ".trash") ++ "/" ++ n.
Proof.
  intros Hn Hne.
  rewrite (join_relative (root // ".trash")).
  - pose proof (trash_dir_length root) as Hlen.
    destruct (String.eqb_spec (root // ".trash") ".") as [E|_];
      [rewrite E in Hlen; simpl in Hlen; lia|].
    destruct (String.eqb_spec (root // ".trash") EmptyString) as [E|_];
      [rewrite E in Hlen; simpl in Hlen; lia|].
    destruct (String.eqb_spec (root // ".trash") "/") as [E|_];
      [rewrite E in Hlen; simpl in Hlen; lia|].
    simpl. by rewrite app_assoc_s.
  - by apply is_absolute_no_slash.
  - done.
Qed.

(** A prompt named without ["/"] never is the file at a trash target. *)
Lemma prompt_not_in_trash root t name q :
  no_slash name = true ->
  root // with_suffix name <> trash_path root t q.
Proof.
  intros Hn E.
  assert (no_slash (with_suffix name) = true) as Hws.
  { unfold with_suffix. destruct (Str.endswith name SUFFIX); [done|].
    by rewrite no_slash_app, Hn. }
  pose proof (with_suffix_length name) as Hlen.
  pose proof (trash_dir_length root) as Htd.
  apply (f_equal PathLib.rsplit) in E.
  rewrite trash_path_rsplit in E.
  rewrite join_relative in E;
    [|by apply is_absolute_no_slash
     |intros E'; rewrite E' in Hlen; simpl in Hlen; lia].
  destruct (String.eqb root "." || String.eqb root EmptyString) eqn:E1.
  { change (EmptyString ++ with_suffix name) with (with_suffix name) in E.
    apply rsplit_None in Hws. congruence. }
  destruct (String.eqb_spec root "/") as [->|Hr].
  { change ("/" ++ with_suffix name)
      with (String "/" (with_suffix name)) in E.
    apply rsplit_None in Hws. simpl in E. rewrite Hws in E. simpl in E.
    injection E as E _. rewrite <- E in Htd. simpl in Htd. lia. }
  rewrite app_assoc_s, rsplit_join in E by done.
  injection E as E _. apply (f_equal String.length) in E.
  rewrite join_relative, E1 in E by done.
  destruct (String.eqb_spec root "/"); [done|].
  rewrite !length_app in E. simpl in E. lia.
Qed.

(** [perform_undo] on an [add] record whose overwritten file is still in
    the trash. *)
Lemma undo_add_overwritten_unfold s (last : gmap string string) dest ot :
  cfg s !! "last_action" = Some (JObj last) ->
  last !! "action" = Some "add" ->
  last !! "dest" = Some dest ->
  last !! "overwritten_trash" = Some ot ->
  ot <> EmptyString ->
  FS.exists_ (fs s) dest = true ->
  FS.exists_ (fs s) ot = true ->
  perform_undo s =
    try_except
      (shutil_move ot dest ;;
       td <- trash_dir_for (PathLib.parent dest) ;;
       t <- time_time ;;
       shutil_move dest (td // (trash_name t (PathLib.name dest) ++ ".added")) ;;
       clear_last_action ;;
       ret (true, "restored overwritten prompt and moved new added file to trash"))
      (fun e => ret (false, "failed to undo add: " ++ str_exn e)) s.
Proof.
  intros Hlast Hact Hdest Hot Hne Hed Heo.
  unfold perform_undo at 1. unfold bind at 1. unfold get_cfg at 1.
  rewrite Hlast. simpl.
  assert (last <> ∅) as Hnempty by (intros ->; by rewrite lookup_empty in Hact).
  rewrite (bool_decide_eq_false_2 _ Hnempty). simpl.
  rewrite Hact, Hdest, Hot. simpl.
  unfold bind at 1. simpl. unfold bind at 1. unfold path_exists at 1.
  rewrite Hed. simpl.
  assert (Str.truthy ot = true) as -> by (by destruct ot).
  unfold try_except at 1 3. unfold bind at 1. unfold path_exists at 1.
  rewrite Heo. reflexivity.
Qed.

(** X3: Undoing an add that overwrote a prompt, in general. The record names
    the trashed original, and both files are regular files. Whenever the
    undo reports success, the added file is gone: its bytes were replaced at
    the destination by the restored original, the destination is empty
    afterwards, and it is the original that ends up in the trash under the
    [.added] name. *)
Lemma undo_add_overwritten s (last : gmap string string) dest ot new old msg s' :
  cfg s !! "last_action" = Some (JObj last) ->
  last !! "action" = Some "add" ->
  last !! "dest" = Some dest ->
  last !! "overwritten_trash" = Some ot ->
  ot <> EmptyString -> ot <> dest ->
  fs s !! dest = Some (File new) ->
  fs s !! ot = Some (File old) ->
  let added := PathLib.parent dest // ".trash" //
                 (trash_name (clock s) (PathLib.name dest) ++ ".added") in
  FS.is_dir (fs s) added = false ->
  perform_undo s = (Val (true, msg), s') ->
  fs s' !! dest = None /\
  fs s' !! added = Some (File old) /\
  (new <> old -> (forall p, p <> dest -> fs s !! p <> Some (File new)) ->
   forall p, fs s' !! p <> Some (File new)).
Proof.
  intros Hlast Hact Hdest Hot Hne Hod Hd Ho added Hdir H. subst added.
  rewrite (undo_add_overwritten_unfold _ _ _ _ Hlast Hact Hdest Hot Hne) in H.
  2,3: unfold FS.exists_; by rewrite ?Hd, ?Ho.
  unfold clear_last_action, trash_dir_for in H. exec.
  repeat match goal with
         | Hc : clock ?a = clock ?b |- _ => rewrite Hc in *; clear Hc
         end.
  match goal with
  | |- context [PathLib.parent dest // ".trash" // ?n] =>
      set (added := PathLib.parent dest // ".trash" // n) in *
  end.
  assert (no_slash (trash_name (clock s) (PathLib.name dest) ++ ".added") = true)
    as Hns by (rewrite no_slash_app, trash_name_no_slash by apply name_no_slash; done).
  assert (added = (PathLib.parent dest // ".trash") ++ "/" ++
                    (trash_name (clock s) (PathLib.name dest) ++ ".added"))
    as Hadded.
  { apply trash_join_eq; [done|]. intros E.
    apply (f_equal String.length) in E. rewrite length_app in E.
    simpl in E. lia. }
  assert (added <> dest) as Had.
  { intros E. apply (f_equal (fun x => String.length (PathLib.name x))) in E.
    rewrite Hadded in E at 1. unfold PathLib.name at 1 in E.
    rewrite rsplit_join in E by done. unfold trash_name in E.
    rewrite !length_app in E. simpl in E. lia. }
  match goal with
  | Hm1 : FS.move (fs s) ot dest = inr _ |- _ =>
      apply (move_file_inv _ _ _ old) in Hm1 as [Hfs1 _];
        [|done|by eapply is_dir_file]
  end.
  match goal with
  | Hmk : FS.mkdir_p _ _ = Some _ |- _ =>
      apply mkdir_p_spec in Hmk as [_ Hadd]
  end.
  pose proof (trash_dir_length (PathLib.parent dest)) as Hlen.
  rewrite Nat.max_r in Hadd by lia.
  match goal with
  | Hm2 : FS.move _ dest added = inr _ |- _ =>
      apply (move_file_inv _ _ _ old) in Hm2 as [Hfs3 _]
  end.
  - match goal with Hs : fs s' = _ |- _ => rewrite Hs, Hfs3 end.
    split_and!.
    + rewrite lookup_insert_ne by done. apply lookup_delete_eq.
    + apply lookup_insert_eq.
    + intros Hno Hfresh p Hp.
      destruct (decide (p = added)) as [->|?];
        [rewrite lookup_insert_eq in Hp; congruence|].
      rewrite lookup_insert_ne in Hp by done.
      destruct (decide (p = dest)) as [->|?];
        [by rewrite lookup_delete_eq in Hp|].
      rewrite lookup_delete_ne in Hp by done.
      apply (adds_dirs_file _ _ _ _ _ Hadd) in Hp.
      rewrite Hfs1, lookup_insert_ne in Hp by done.
      destruct (decide (p = ot)) as [->|?];
        [by rewrite lookup_delete_eq in Hp|].
      rewrite lookup_delete_ne in Hp by done.
      by apply (Hfresh p).
  - eapply adds_dirs_keep; [done|]. rewrite Hfs1. apply lookup_insert_eq.
  - unfold FS.is_dir in *.
    rewrite (adds_dirs_long _ _ _ _ Hadd)
      by (rewrite Hadded, length_app; simpl; lia).
    rewrite Hfs1, lookup_insert_ne by done.
    destruct (decide (added = ot)) as [->|?];
      [by rewrite lookup_delete_eq|by rewrite lookup_delete_ne].
Qed.

(** After a successful [remove_prompt] the bytes sit in the trash. *)
Lemma remove_trashes root name yes d s msg s' :
  let p := root // with_suffix name in
  fs s !! p = Some (File d) ->
  FS.is_dir (fs s) (trash_path root (clock s) p) = false ->
  remove_prompt root name yes s = (Val (true, msg), s') ->
  fs s' !! trash_path root (clock s) p = Some (File d) /\
  fs s' !! p = None /\
  FS.is_dir (fs s') (root // ".trash") = true.
Proof.
  intros p Hp Hdir H.
  apply remove_ok_inv in H as (s0 & x & tr & Hfs0 & Hc0 & _ & Htr & Hfs1 & _).
  fold p in Htr.
  apply (move_to_trash_file _ _ d) in Htr
    as (-> & _ & _ & _ & _ & m1 & Hadd & Htd & Hx);
    [|by rewrite Hfs0|by rewrite Hfs0, Hc0].
  rewrite Hc0, <- Hfs1 in Hx. rewrite Hfs0 in Hadd.
  assert (trash_path root (clock s) p <> p) as Hne by apply trash_path_ne.
  rewrite Hx. split_and!.
  - apply lookup_insert_eq.
  - rewrite lookup_insert_ne by done. apply lookup_delete_eq.
  - apply is_dir_true. rewrite lookup_insert_ne, lookup_delete_ne; [done| |].
    + intros E. rewrite <- (adds_dirs_file _ _ _ _ d Hadd) in Hp. congruence.
    + intros E. apply (f_equal String.length) in E.
      pose proof (trash_path_length root (clock s) p). lia.
Qed.

(** After a successful [add_file] onto an existing prompt, the bytes it
    replaced sit in the trash. *)
Lemma add_trashes root src force d old s msg s' :
  let dest := root // add_base src in
  fs s !! src = Some (File d) ->
  fs s !! dest = Some (File old) ->
  FS.is_dir (fs s) (trash_path root (clock s) dest) = false ->
  add_file root src force s = (Val (true, msg), s') ->
  fs s' !! trash_path root (clock s) dest = Some (File old) /\
  FS.is_dir (fs s') (root // ".trash") = true /\
  exists last : gmap string string,
    cfg s' !! "last_action" = Some (JObj last) /\
    last !! "overwritten_trash" = Some (trash_path root (clock s) dest).
Proof.
  intros dest Hsrc Hdest Hdir H.
  unfold add_file in H. fold dest in H. run.
  3: { match goal with
       | Hex : FS.exists_ _ _ = false |- _ =>
           unfold FS.exists_ in Hex; rewrite Hdest in Hex; done
       end. }
  all: repeat match goal with
         | H : input _ _ = _ |- _ =>
             apply input_inv in H as (? & ? & _ & _ & _)
         | H : save_config _ _ = _ |- _ =>
             apply save_config_inv in H as (_ & ? & _ & _ & _ & ? & _)
         | H : shutil_move _ _ _ = (Val _, _) |- _ =>
             apply shutil_move_inv in H
               as (_ & _ & _ & _ & [(? & ? & _)|[_ ?]]); [done|]
         end; simpl in *.
  all: match goal with
       | Htr : move_to_trash _ _ _ = _ |- _ =>
           apply (move_to_trash_file _ _ old) in Htr
             as (-> & _ & _ & _ & _ & m1 & Hadd & Htd & Hfs1);
             [|congruence..]
       end.
  all: match goal with
       | Hmv : FS.move _ _ _ = inr _, Hs : fs _ = fs _ |- _ =>
           rewrite Hfs1 in Hmv;
           apply (move_in_after_trash _ _ _ _ _ _ d) in Hmv
             as (_ & _ & Hot & Hsame); [| | |]
       end.
  all: try apply add_trash_ne_src; try apply trash_path_ne.
  all: try (eapply adds_dirs_keep; [eassumption|congruence]).
  all: repeat match goal with
         | Hc : clock ?a = clock ?b |- _ => rewrite Hc in *; clear Hc
         end.
  all: split; [congruence|].
  all: split;
    [match goal with
     | Hs : fs ?a = fs _ |- FS.is_dir (fs ?a) _ = true => rewrite Hs
     end;
     eapply (trash_dir_survives m1 _ root _ _ src dest d old);
     [done| | |eassumption];
     (eapply adds_dirs_keep; [eassumption|congruence])|].
  all: match goal with
       | Hc : cfg ?st = _ |- context [cfg ?st] => rewrite Hc
       end.
  all: eexists; split; [apply lookup_insert_eq|vm_compute; reflexivity].
Qed.

(** X6: Rollback in [rename_prompt]. The target held [db], the overwrite
    guard let the call through, the target was moved to the trash, and the
    final move raised [e]. Then [rename_prompt] tries to move the trashed
    file back, ends in the state that attempt leaves, and returns [(False,
    "Failed to rename: {e}")]; [db] is at the target again or still in the
    trash, and the configuration is untouched. *)
Lemma rename_rollback root old new force db s s0 s1 tr e s2 :
  let p_old := root // with_suffix old in
  let p_new := root // with_suffix new in
  let ot := trash_path root (clock s) p_new in
  FS.exists_ (fs s) p_old = true ->
  fs s !! p_new = Some (File db) ->
  FS.is_dir (fs s) ot = false ->
  confirmed force s s0 ->
  move_to_trash root p_new s0 = (Val (tr, None), s1) ->
  shutil_move p_old p_new s1 = (Raise e, s2) ->
  let s3 := (try_except (shutil_move ot p_new) (fun _ => ret tt) s2).2 in
  rename_prompt root old new force s =
    (Val (false, "Failed to rename: " ++ str_exn e), s3) /\
  (fs s3 !! p_new = Some (File db) \/ fs s3 !! ot = Some (File db)) /\
  cfg s3 = cfg s /\ disk s3 = disk s.
Proof.
  intros p_old p_new ot Hold Hnew Hdir Hconf Htr Hmv s3.
  assert (fs s0 = fs s /\ clock s0 = clock s /\ same_config s s0)
    as (Hfs0 & Hc0 & Hsc0).
  { unfold confirmed in Hconf. destruct force; [by subst|].
    destruct (stdin s); [done|]. destruct Hconf as [_ ->]. done. }
  pose proof Htr as Htr'.
  apply (move_to_trash_file _ _ db) in Htr'
    as (-> & _ & _ & _ & Hsc1 & m1 & Hadd & Htd & Hfs1);
    [|by rewrite Hfs0|by rewrite Hfs0, Hc0].
  rewrite Hc0 in Htr, Hfs1. fold p_new ot in Htr, Hfs1.
  assert (ot <> p_new) as Hne by apply trash_path_ne.
  pose proof Hmv as Hmv'.
  apply shutil_move_inv in Hmv'
    as (_ & _ & _ & Hsc2 & [(e' & [= <-] & Hfs2)|[? _]]); [|done].
  assert (fs s2 !! ot = Some (File db)) as Hot
    by (rewrite Hfs2, Hfs1; apply lookup_insert_eq).
  assert (fs s2 !! p_new = None) as Hd2
    by (rewrite Hfs2, Hfs1, lookup_insert_ne by done; apply lookup_delete_eq).
  split.
  - unfold rename_prompt. fold p_old p_new.
    unfold bind at 1. unfold path_exists at 1. rewrite Hold. simpl.
    unfold bind at 1. unfold path_exists at 1.
    unfold FS.exists_ at 1. rewrite Hnew. simpl.
    unfold bind at 1. erewrite confirmed_run by done. simpl.
    unfold bind at 1. rewrite Htr.
    unfold bind at 1. unfold try_except at 1. unfold bind at 1. rewrite Hmv.
    unfold bind at 1. unfold bind at 1. unfold path_exists at 1.
    unfold FS.exists_ at 1. rewrite Hot.
    rewrite best_effort_move. reflexivity.
  - destruct (best_effort_move_inv ot p_new s2) as [Hsc3 Hfs3].
    fold s3 in Hsc3, Hfs3.
    split; [|frame].
    destruct Hfs3 as [->|Hmv3]; [by right|left].
    apply (move_file_inv _ _ _ db) in Hmv3 as [-> _]; [|done|].
    + apply lookup_insert_eq.
    + by apply is_dir_none.
Qed.

(** A successful [rename_prompt] onto an existing prompt, whatever let it
    through the overwrite guard. *)
Lemma rename_ok_files root old new force da db s msg s' :
  let p_old := root // with_suffix old in
  let p_new := root // with_suffix new in
  let ot := trash_path root (clock s) p_new in
  fs s !! p_old = Some (File da) ->
  fs s !! p_new = Some (File db) ->
  FS.is_dir (fs s) ot = false ->
  p_old <> ot ->
  rename_prompt root old new force s = (Val (true, msg), s') ->
  fs s' !! ot = Some (File db) /\
  fs s' !! p_old = None /\
  fs s' !! p_new = Some (File da) /\
  FS.is_dir (fs s') (root // ".trash") = true /\
  cfg s' !! "last_action" =
    Some (JObj (<["overwritten_trash" := ot]>
                  (<["new" := p_new]>
                     (<["old" := p_old]> {["action" := "rename"]})))).
Proof.
  intros p_old p_new ot Hold Hnew Hdir Hne H. subst ot.
  unfold rename_prompt in H. fold p_old p_new in H. run.
  3: { match goal with
       | Hex : FS.exists_ _ _ = false |- _ =>
           unfold FS.exists_ in Hex; rewrite Hnew in Hex; done
       end. }
  all: repeat match goal with
         | H : input _ _ = _ |- _ =>
             apply input_inv in H as (? & ? & _ & _ & _)
         | H : save_config _ _ = _ |- _ =>
             apply save_config_inv in H as (_ & ? & _ & _ & _ & ? & _)
         | H : shutil_move _ _ _ = (Val _, _) |- _ =>
             apply shutil_move_inv in H
               as (_ & _ & _ & _ & [(? & ? & _)|[_ ?]]); [done|]
         end; simpl in *.
  all: match goal with
       | Htr : move_to_trash _ _ _ = _ |- _ =>
           apply (move_to_trash_file _ _ db) in Htr
             as (-> & _ & _ & _ & _ & m1 & Hadd & Htd & Hfs1);
             [|congruence..]
       end.
  all: repeat match goal with
         | Hc : clock ?a = clock ?b |- _ => rewrite Hc in *; clear Hc
         end.
  all: set (ot := trash_path root _ p_new) in *.
  all: match goal with
       | Hmv : FS.move _ _ _ = inr _, Hs : fs _ = fs _ |- _ =>
           rewrite Hfs1 in Hmv;
           apply (move_in_after_trash _ _ _ _ _ _ da) in Hmv
             as (Hn & Ho & Hot & Hsame); [| | |]
       end.
  all: try (apply trash_path_ne).
  all: try (intros E; by apply Hne).
  all: try (eapply adds_dirs_keep; [eassumption|congruence]).
  all: split_and!; try congruence.
  all: try (match goal with
            | Hs : fs ?a = fs _ |- FS.is_dir (fs ?a) _ = true => rewrite Hs
            end;
            eapply (trash_dir_survives m1 _ root _ _ p_old p_new da db);
            [done| | |eassumption];
            (eapply adds_dirs_keep; [eassumption|congruence])).
  all: match goal with
       | Hc : cfg ?st = _ |- context [cfg ?st] => rewrite Hc
       end.
  all: apply lookup_insert_eq.
Qed.

(** C5: trashing keeps the bytes. [add_file], [remove_prompt] and
    [rename_prompt] trash a file through the sequence [move_to_trash] and
    nothing else. Whenever that sequence moves a regular file [p] with bytes
    [d] (its target not being a directory), the file is afterwards found
    inside [root/.trash] under the name [{int(time.time())}_{p.name}] with
    the bytes [d], and [root/.trash] is a directory, created if it was
    absent. Accordingly, at the end of a successful [remove_prompt], of a
    successful [add_file] onto an existing prompt and of a successful
    [rename_prompt] onto an existing prompt, the trashed bytes are in the
    trash directory under that name. *)
Theorem trash_keeps_bytes :
  (forall root p d s tr s',
      fs s !! p = Some (File d) ->
      FS.is_dir (fs s) (trash_path root (clock s) p) = false ->
      move_to_trash root p s = (Val (tr, None), s') ->
      tr = root // ".trash" // (pretty (clock s) ++ "_" ++ PathLib.name p) /\
      PathLib.parent tr = root // ".trash" /\
      PathLib.name tr = pretty (clock s) ++ "_" ++ PathLib.name p /\
      fs s' !! tr = Some (File d) /\
      FS.is_dir (fs s') (root // ".trash") = true) /\
  (forall root name yes d s msg s',
      fs s !! (root // with_suffix name) = Some (File d) ->
      FS.is_dir (fs s)
        (trash_path root (clock s) (root // with_suffix name)) = false ->
      remove_prompt root name yes s = (Val (true, msg), s') ->
      fs s' !! trash_path root (clock s) (root // with_suffix name)
        = Some (File d) /\
      FS.is_dir (fs s') (root // ".trash") = true) /\
  (forall root src force d old s msg s',
      fs s !! src = Some (File d) ->
      fs s !! (root // add_base src) = Some (File old) ->
      FS.is_dir (fs s)
        (trash_path root (clock s) (root // add_base src)) = false ->
      add_file root src force s = (Val (true, msg), s') ->
      fs s' !! trash_path root (clock s) (root // add_base src)
        = Some (File old) /\
      FS.is_dir (fs s') (root // ".trash") = true) /\
  (forall root old new force da db s msg s',
      fs s !! (root // with_suffix old) = Some (File da) ->
      fs s !! (root // with_suffix new) = Some (File db) ->
      FS.is_dir (fs s)
        (trash_path root (clock s) (root // with_suffix new)) = false ->
      root // with_suffix old
        <> trash_path root (clock s) (root // with_suffix new) ->
      rename_prompt root old new force s = (Val (true, msg), s') ->
      fs s' !! trash_path root (clock s) (root // with_suffix new)
        = Some (File db) /\
      FS.is_dir (fs s') (root // ".trash") = true).
Proof.
  split_and!.
  - apply move_to_trash_post.
  - intros root name yes d s msg s' Hp Hdir H.
    by apply (remove_trashes _ _ _ d) in H as (? & _ & ?).
  - intros root src force d old s msg s' Hsrc Hdest Hdir H.
    by apply (add_trashes _ _ _ d old) in H as (? & ? & _).
  - intros root old new force da db s msg s' Hold Hnew Hdir Hne H.
    by apply (rename_ok_files _ _ _ _ da db) in H as (? & _ & _ & ? & _).
Qed.

(** [trash_keeps_bytes] on the sample states. *)
Lemma trash_keeps_bytes_witness :
  fs (move_to_trash "/r" "/r/x.prompt.md" demo).2
     !! "/r/.trash/100_x.prompt.md" = Some (File bytes_old) /\
  FS.is_dir (fs (move_to_trash "/r" "/r/x.prompt.md" demo).2) "/r/.trash"
    = true /\
  fs demo_removed !! "/r/.trash/100_x.prompt.md" = Some (File bytes_old).
Proof.
  destruct trash_keeps_bytes as (Hseq & Hrm & _).
  destruct (Hseq "/r" "/r/x.prompt.md" bytes_old demo
              "/r/.trash/100_x.prompt.md"
              (move_to_trash "/r" "/r/x.prompt.md" demo).2)
    as (_ & _ & _ & H1 & H2); [vm_compute; reflexivity..|].
  destruct (Hrm "/r" "x" true bytes_old demo
              "removed x.prompt.md (moved to trash)" demo_removed)
    as (H3 & _); [vm_compute; reflexivity..|].
  split; [exact H1|]. split; [exact H2 | exact H3].
Defined.

(** C7: rename onto an existing prompt with [force] set. When both
    prompts are regular files (the old one not being the very file that sits
    at the trash target, and that target not being a directory), a
    successful [rename_prompt] leaves the former content of the new name in
    the trash, nothing at the old path, the former content of the old name at
    the new path, and the record
    [{action: rename, old, new, overwritten_trash}] in [cfg]. *)
Theorem rename_overwrite root old new da db s msg s' :
  let p_old := root // with_suffix old in
  let p_new := root // with_suffix new in
  let ot := trash_path root (clock s) p_new in
  fs s !! p_old = Some (File da) ->
  fs s !! p_new = Some (File db) ->
  FS.is_dir (fs s) ot = false ->
  p_old <> ot ->
  rename_prompt root old new true s = (Val (true, msg), s') ->
  fs s' !! ot = Some (File db) /\
  PathLib.parent ot = root // ".trash" /\
  fs s' !! p_old = None /\
  fs s' !! p_new = Some (File da) /\
  cfg s' !! "last_action" =
    Some (JObj (<["overwritten_trash" := ot]>
                  (<["new" := p_new]>
                     (<["old" := p_old]> {["action" := "rename"]})))).
Proof.
  intros p_old p_new ot Hold Hnew Hdir Hne H.
  apply (rename_ok_files _ _ _ _ da db) in H as (? & ? & ? & _ & ?);
    [|done..].
  split_and!; try done. apply trash_path_parent.
Qed.

(** [rename_overwrite] on the sample states. *)
Lemma rename_overwrite_witness :
  fs demo_renamed !! "/r/.trash/100_x.prompt.md" = Some (File bytes_old) /\
  fs demo_renamed !! "/r/y.prompt.md" = None /\
  fs demo_renamed !! "/r/x.prompt.md" = Some (File bytes_new).
Proof.
  destruct (rename_overwrite "/r" "y" "x" bytes_new bytes_old demo2
              "renamed y.prompt.md -> x.prompt.md" demo_renamed)
    as (H1 & _ & H2 & H3 & _); [vm_compute; reflexivity..|discriminate|
                                 vm_compute; reflexivity|].
  split; [exact H1|]. split; [exact H2 | exact H3].
Defined.

(** * Further properties of the operations and of the command line *)

(** ** Early exits of the three mutations *)

(** X13: a missing source or prompt is reported before anything else: the
    failure is returned and the state is untouched -- no question is asked,
    no trash directory is created -- whatever the flags and whether or not
    the target exists. *)
Theorem not_found_unchanged :
  (forall root src force s,
      FS.exists_ (fs s) src = false ->
      add_file root src force s = (Val (false, "File not found: " ++ src), s)) /\
  (forall root name yes s,
      FS.exists_ (fs s) (root // with_suffix name) = false ->
      remove_prompt root name yes s =
        (Val (false, "Not found: " ++ with_suffix name), s)) /\
  (forall root old new force s,
      FS.exists_ (fs s) (root // with_suffix old) = false ->
      rename_prompt root old new force s =
        (Val (false, "Not found: " ++ with_suffix old), s)).
Proof.
  split_and!.
  - intros root src force s H.
    unfold add_file, bind, path_exists. by rewrite H.
  - intros root name yes s H.
    unfold remove_prompt, bind, path_exists. by rewrite H.
  - intros root old new force s H.
    unfold rename_prompt, bind, path_exists. by rewrite H.
Qed.

(** X14: declining the question asked by [remove_prompt] (flag [yes] unset)
    or by [rename_prompt] (target exists, [force] unset) gives [(False,
    "aborted")]; only the line read from standard input is gone. *)
Theorem declined_unchanged :
  (forall root name ans rest s,
      FS.exists_ (fs s) (root // with_suffix name) = true ->
      stdin s = ans :: rest -> said_yes ans = false ->
      remove_prompt root name false s =
        (Val (false, "aborted"), set_stdin rest s)) /\
  (forall root old new ans rest s,
      FS.exists_ (fs s) (root // with_suffix old) = true ->
      FS.exists_ (fs s) (root // with_suffix new) = true ->
      stdin s = ans :: rest -> said_yes ans = false ->
      rename_prompt root old new false s =
        (Val (false, "aborted"), set_stdin rest s)).
Proof.
  split.
  - intros root name ans rest s Hp Hin Hno.
    unfold remove_prompt, bind, path_exists, input, ret. simpl.
    rewrite Hp. simpl. rewrite Hin. simpl. by rewrite Hno.
  - intros root old new ans rest s Ho Hn Hin Hno.
    unfold rename_prompt, bind, path_exists, input, ret. simpl.
    rewrite Ho. simpl. rewrite Hn, Hin. simpl. by rewrite Hno.
Qed.

(** X12: with the flag unset and nothing left to read on standard input, the
    question raises [EOFError]; none of the three functions catches it, so
    the call ends with the exception (no [(False, msg)] is returned) and the
    state is untouched. *)
Theorem eof_escapes :
  (forall root src s,
      FS.exists_ (fs s) src = true ->
      FS.exists_ (fs s) (root // add_base src) = true ->
      stdin s = [] ->
      add_file root src false s = (Raise EOFError, s)) /\
  (forall root name s,
      FS.exists_ (fs s) (root // with_suffix name) = true ->
      stdin s = [] ->
      remove_prompt root name false s = (Raise EOFError, s)) /\
  (forall root old new s,
      FS.exists_ (fs s) (root // with_suffix old) = true ->
      FS.exists_ (fs s) (root // with_suffix new) = true ->
      stdin s = [] ->
      rename_prompt root old new false s = (Raise EOFError, s)).
Proof.
  split_and!.
  - intros root src s Hs Hd Hin.
    unfold add_file, bind, path_exists, input, ret. simpl.
    rewrite Hs. simpl. by rewrite Hd, Hin.
  - intros root name s Hp Hin.
    unfold remove_prompt, bind, path_exists, input, ret. simpl.
    rewrite Hp. simpl. by rewrite Hin.
  - intros root old new s Ho Hn Hin.
    unfold rename_prompt, bind, path_exists, input, ret. simpl.
    rewrite Ho. simpl. by rewrite Hn, Hin.
Qed.

(** ** A trash directory that cannot be created *)

Lemma mkdir_p_on_file p (m : gmap string node) d :
  m !! p = Some (File d) -> FS.mkdir_p p m = None.
Proof.
  intros H. unfold FS.mkdir_p. destruct (String.length p); simpl; by rewrite H.
Qed.

Lemma move_to_trash_blocked root p d s r s' :
  fs s !! (root // ".trash") = Some (File d) ->
  move_to_trash root p s = (r, s') ->
  (exists e, r = Raise e) /\ fs s' = fs s /\ stdin s' = stdin s /\
  same_config s s'.
Proof.
  intros Htd H.
  apply move_to_trash_inv in H
    as (_ & Hin & _ & Hsc & [(e & -> & Hfs)|(m1 & Hmk & _)]).
  - eauto.
  - rewrite (mkdir_p_on_file _ _ _ Htd) in Hmk. done.
Qed.

(** X11: when [root/.trash] is a regular file, the trash directory cannot be
    made, and the [mkdir] in [trash_dir_for] sits outside every [try]: a
    [remove_prompt] that got past its question, and an [add_file] or
    [rename_prompt] that has to overwrite, end with the [OSError] itself
    instead of a [(False, msg)], leaving files and configuration as they
    were. *)
Theorem blocked_trash_escapes :
  (forall root name d s r s',
      fs s !! (root // ".trash") = Some (File d) ->
      FS.exists_ (fs s) (root // with_suffix name) = true ->
      remove_prompt root name true s = (r, s') ->
      (exists e, r = Raise e) /\ fs s' = fs s /\ same_config s s') /\
  (forall root src d s r s',
      fs s !! (root // ".trash") = Some (File d) ->
      FS.exists_ (fs s) src = true ->
      FS.exists_ (fs s) (root // add_base src) = true ->
      add_file root src true s = (r, s') ->
      (exists e, r = Raise e) /\ fs s' = fs s /\ same_config s s') /\
  (forall root old new d s r s',
      fs s !! (root // ".trash") = Some (File d) ->
      FS.exists_ (fs s) (root // with_suffix old) = true ->
      FS.exists_ (fs s) (root // with_suffix new) = true ->
      rename_prompt root old new true s = (r, s') ->
      (exists e, r = Raise e) /\ fs s' = fs s /\ same_config s s').
Proof.
  split_and!.
  - intros root name d s r s' Htd Hp H.
    unfold remove_prompt in H. unfold bind at 1 in H.
    unfold path_exists at 1 in H. rewrite Hp in H. simpl in H.
    unfold bind at 1 in H. simpl in H.
    apply bind_inv in H as [(a & s1 & Htr & _)|(e & Htr & ->)];
      apply (move_to_trash_blocked _ _ d) in Htr as ([e' ?] & ? & ? & ?);
      try done; eauto.
  - intros root src d s r s' Htd Hs Hd H.
    unfold add_file in H. unfold bind at 1 in H.
    unfold path_exists at 1 in H. rewrite Hs in H. simpl in H.
    unfold bind at 1 in H. unfold path_exists at 1 in H.
    rewrite Hd in H. simpl in H. unfold bind at 1 in H. simpl in H.
    apply bind_inv in H as [(a & s1 & Htr & _)|(e & Htr & ->)];
      apply (move_to_trash_blocked _ _ d) in Htr as ([e' ?] & ? & ? & ?);
      try done; eauto.
  - intros root old new d s r s' Htd Ho Hn H.
    unfold rename_prompt in H. unfold bind at 1 in H.
    unfold path_exists at 1 in H. rewrite Ho in H. simpl in H.
    unfold bind at 1 in H. unfold path_exists at 1 in H.
    rewrite Hn in H. simpl in H. unfold bind at 1 in H. simpl in H.
    apply bind_inv in H as [(a & s1 & Htr & _)|(e & Htr & ->)];
      apply (move_to_trash_blocked _ _ d) in Htr as ([e' ?] & ? & ? & ?);
      try done; eauto.
Qed.

(** ** A remove that fails moves nothing *)

(** X10: whatever makes [remove_prompt] end without success (not found,
    declined, end of input, a trash directory that cannot be made, a failed
    move), every regular file is where it was with the bytes it had, and no
    regular file appeared; at most directories were created. *)
Theorem remove_failure_keeps_files root name yes s r s' :
  remove_prompt root name yes s = (r, s') ->
  (forall m, r <> Val (true, m)) ->
  forall k d, fs s' !! k = Some (File d) <-> fs s !! k = Some (File d).
Proof.
  intros H Hr k d.
  unfold remove_prompt in H. run.
  all: try (by exfalso; eapply Hr).
  all: repeat match goal with
         | H : input _ _ = _ |- _ =>
             apply input_inv in H as (? & _)
         | H : save_config _ _ = (Raise _, _) |- _ =>
             apply save_config_inv in H as (? & _); discriminate
         | H : move_to_trash _ _ _ = _ |- _ =>
             apply move_to_trash_inv in H
               as (_ & _ & _ & _ &
                   [(? & ? & ?)|(? & ?%mkdir_p_spec &
                                 [(? & ? & ?)|[? _]])])
         end; simplify_eq.
  all: try done.
  all: try match goal with
       | Hm : _ /\ adds_dirs _ _ _ |- _ =>
           destruct Hm as [_ Hadd];
           rewrite (adds_dirs_file _ _ _ _ _ Hadd)
       end.
  all: try done.
  all: repeat match goal with
         | Hf : fs ?a = fs _ |- context [fs ?a] => rewrite Hf
         end; done.
Qed.

(** ** Adding where nothing is overwritten, and undoing it *)

Lemma add_plain_record (src dest : string) :
  let last : gmap string string :=
    <["dest" := dest]> (<["src" := src]> {["action" := "add"]}) in
  last !! "action" = Some "add" /\
  last !! "src" = Some src /\
  last !! "dest" = Some dest /\
  last !! "overwritten_trash" = None.
Proof. by vm_compute. Qed.

(** A successful [add_file] onto a free name: the whole outcome. *)
Lemma add_plain_inv root src force d s msg s' :
  let dest := root // add_base src in
  fs s !! src = Some (File d) ->
  fs s !! dest = None ->
  add_file root src force s = (Val (true, msg), s') ->
  fs s' = <[dest := File d]> (delete src (fs s)) /\
  stdin s' = stdin s /\ clock s' = clock s /\ cwd s' = cwd s /\
  cfg s' = <["last_action" :=
               JObj (<["dest" := dest]>
                       (<["src" := src]> {["action" := "add"]}))]> (cfg s) /\
  (disk s' = Some (cfg s') \/ disk s' = disk s).
Proof.
  intros dest Hsrc Hdest H.
  unfold add_file in H. fold dest in H. run.
  1,2: match goal with
       | Hex : FS.exists_ _ _ = true |- _ =>
           unfold FS.exists_ in Hex; rewrite Hdest in Hex; done
       end.
  repeat (inv_prim; simplify_eq; simpl in * ).
  match goal with
  | Hmv : FS.move _ _ _ = inr _ |- _ =>
      apply (move_file_inv _ _ _ d) in Hmv as [Hmv _];
        [|done|by apply is_dir_none]
  end.
  match goal with
  | Hc : same_config _ _ |- _ => destruct Hc as [Hc1 Hc2]
  end.
  split_and!; try congruence.
Qed.

Lemma undo_add_plain_unfold s (last : gmap string string) dest src :
  cfg s !! "last_action" = Some (JObj last) ->
  last !! "action" = Some "add" ->
  last !! "dest" = Some dest ->
  last !! "src" = Some src -> src <> EmptyString ->
  last !! "overwritten_trash" = None ->
  FS.exists_ (fs s) dest = true ->
  perform_undo s =
    try_except
      (r <- try_except
              (path_mkdir (PathLib.parent src) ;;
               shutil_move dest src ;;
               clear_last_action ;;
               ret (Some (true, "moved " ++ PathLib.name dest ++
                                " back to " ++ src)))
              (fun _ => ret None) ;;
       match r with
       | Some done => ret done
       | None =>
           cw <- Path_cwd ;;
           shutil_move dest (cw // PathLib.name dest) ;;
           clear_last_action ;;
           ret (true, "moved " ++ PathLib.name dest ++ " to " ++
                      cw // PathLib.name dest)
       end)
      (fun e => ret (false, "failed to undo add: " ++ str_exn e)) s.
Proof.
  intros Hlast Hact Hdest Hsrc Hne Hot Hed.
  unfold perform_undo at 1. unfold bind at 1. unfold get_cfg at 1.
  rewrite Hlast. simpl.
  assert (last <> ∅) as Hnempty by (intros ->; by rewrite lookup_empty in Hact).
  rewrite (bool_decide_eq_false_2 _ Hnempty). simpl.
  rewrite Hact, Hdest, Hot, Hsrc. simpl.
  unfold bind at 1. simpl. unfold bind at 1. unfold path_exists at 1.
  rewrite Hed. simpl.
  assert (Str.truthy src = true) as -> by (by destruct src).
  reflexivity.
Qed.

Lemma parent_nonempty (p : string) : PathLib.parent p <> EmptyString.
Proof.
  unfold PathLib.parent.
  destruct (PathLib.rsplit p) as [[[|c a] b]|]; done.
Qed.

(** Creating the parent directory of [p] does not create [p], unless [p] is
    its own parent. *)
Lemma mkdir_parent_keeps_path p m m' :
  PathLib.parent p <> p ->
  FS.mkdir_p (PathLib.parent p) m = Some m' -> m' !! p = m !! p.
Proof.
  intros Hne Hmk.
  destruct (parent_fixed_or_shorter p) as [?|[Hlt|Hfix]]; [done|..].
  - apply mkdir_p_spec in Hmk as [_ Hadd].
    eapply adds_dirs_long; [done|].
    pose proof (parent_nonempty p) as Hp.
    destruct (PathLib.parent p) eqn:E; [done|]. simpl in *. lia.
  - unfold FS.mkdir_p in Hmk.
    destruct (m !! PathLib.parent p) as [[|]|] eqn:E.
    + destruct (String.length (PathLib.parent p)); simpl in Hmk;
        rewrite E in Hmk; done.
    + fold (FS.mkdir_p (PathLib.parent p) m) in Hmk.
      rewrite mkdir_p_existing in Hmk by done. congruence.
    + by rewrite mkdir_go_stuck in Hmk.
Qed.

Lemma clear_last_action_inv s r s' :
  clear_last_action s = (r, s') ->
  r = Val tt /\ fs s' = fs s /\ clock s' = clock s /\ stdin s' = stdin s /\
  cwd s' = cwd s /\ cfg s' = delete "last_action" (cfg s) /\
  (disk s' = Some (cfg s') \/ disk s' = disk s).
Proof.
  unfold clear_last_action. intros H. exec.
  split_and!; try congruence.
Qed.

(** Where a regular file ends up when [shutil.move] succeeds. *)
Lemma move_file_lands m a b d m' :
  m !! a = Some (File d) -> FS.move m a b = inr m' ->
  (FS.is_dir m b = false /\ m' = <[b := File d]> (delete a m)) \/
  (FS.is_dir m b = true /\
   m' = <[b // PathLib.name a := File d]> (delete a m)).
Proof.
  intros Ha. unfold FS.move. rewrite (is_dir_file _ _ _ Ha), Ha.
  destruct (FS.is_dir m b); simpl.
  - destruct (FS.exists_ m (b // PathLib.name a)); [done|].
    destruct (FS.is_dir m (PathLib.parent (b // PathLib.name a))); [|done].
    intros [= <-]. by right.
  - destruct (FS.is_dir m (PathLib.parent b)); [|done].
    intros [= <-]. by left.
Qed.

Ltac fallback_lands s s2 dest d :=
  match goal with
  | |- context [cwd ?x // _] =>
      replace (cwd x) with (cwd s) in * by congruence
  end;
  split; [done|];
  match goal with
  | Hmv : FS.move _ dest _ = inr _ |- _ =>
      apply (move_file_lands _ _ _ d) in Hmv as [[_ Hmv]|[_ Hmv]];
        [| |congruence]
  end;
  match goal with
  | Hf : fs s2 = _, Hmv : fs _ = <[_ := _]> _ |- _ =>
      first [ left; by rewrite Hf, Hmv, lookup_insert_eq
            | right; by rewrite Hf, Hmv, lookup_insert_eq ]
  end.

(** An [add] record whose destination is gone: "added file not found",
    and since nothing is changed the undo can be tried again later. *)
Lemma undo_add_missing s (last : gmap string string) dest :
  cfg s !! "last_action" = Some (JObj last) ->
  last !! "action" = Some "add" ->
  last !! "dest" = Some dest ->
  FS.exists_ (fs s) dest = false ->
  perform_undo s = (Val (false, "added file not found"), s).
Proof.
  intros H Ha Hd Hex. unfold perform_undo. unfold bind at 1.
  unfold get_cfg at 1. rewrite H. simpl.
  assert (last <> ∅) as Hne by (intros ->; by rewrite lookup_empty in Ha).
  rewrite (bool_decide_eq_false_2 _ Hne). simpl.
  rewrite Ha, Hd. simpl.
  unfold bind at 1. simpl. unfold bind at 1. unfold path_exists at 1.
  by rewrite Hex.
Qed.

(** X1: Add, then undo. [add_file] moved a regular file onto a free name in
    the root. An undo that follows and succeeds has forgotten the record and
    put the bytes back at the source path or, failing that, into the current
    directory; with no fault raised it is the first, and the file system is
    again exactly what it was before the add. If the added file is gone by
    the time of the undo, the answer is "added file not found" and nothing
    changes. *)
Theorem add_then_undo root src force d s msg s1 :
  let dest := root // add_base src in
  let fallback := cwd s // PathLib.name dest in
  fs s !! src = Some (File d) ->
  FS.is_dir (fs s) (PathLib.parent src) = true ->
  fs s !! dest = None ->
  src <> EmptyString ->
  add_file root src force s = (Val (true, msg), s1) ->
  (forall msg' s2,
      perform_undo s1 = (Val (true, msg'), s2) ->
      cfg s2 !! "last_action" = None /\
      ((msg' = "moved " ++ PathLib.name dest ++ " back to " ++ src /\
        fs s2 = fs s) \/
       (msg' = "moved " ++ PathLib.name dest ++ " to " ++ fallback /\
        (fs s2 !! fallback = Some (File d) \/
         fs s2 !! (fallback // PathLib.name dest) = Some (File d))))) /\
  (faults s1 = [] ->
   exists s2,
     perform_undo s1 =
       (Val (true, "moved " ++ PathLib.name dest ++ " back to " ++ src), s2) /\
     fs s2 = fs s /\
     cfg s2 = delete "last_action" (cfg s) /\
     disk s2 = Some (cfg s2)) /\
  (forall s1',
      cfg s1' = cfg s1 -> FS.exists_ (fs s1') dest = false ->
      perform_undo s1' = (Val (false, "added file not found"), s1')).
Proof.
  intros dest fallback Hsrc Hpar Hdest Hne Hadd.
  apply (add_plain_inv _ _ _ d) in Hadd
    as (Hfs1 & _ & _ & Hcwd & Hcfg1 & _); [|done..].
  fold dest in Hfs1, Hcfg1.
  assert (src <> dest) as Hsd by congruence.
  assert (PathLib.parent src <> src) as Hps.
  { intros E. rewrite E in Hpar. by rewrite (is_dir_file _ _ d) in Hpar. }
  assert (fs s1 !! dest = Some (File d)) as Hd1
    by (rewrite Hfs1; apply lookup_insert_eq).
  assert (fs s1 !! src = None) as Hs1
    by (rewrite Hfs1, lookup_insert_ne, lookup_delete_eq; done).
  assert (fs s1 !! PathLib.parent src = Some Dir) as Hp1.
  { apply is_dir_true in Hpar.
    assert (dest <> PathLib.parent src) by congruence.
    rewrite Hfs1, lookup_insert_ne, lookup_delete_ne; done. }
  assert (<[src := File d]> (delete dest (fs s1)) = fs s) as Hback.
  { rewrite Hfs1. apply map_eq. intros k.
    destruct (decide (k = src)) as [->|Hk1].
    - by rewrite lookup_insert_eq.
    - rewrite lookup_insert_ne by done.
      destruct (decide (k = dest)) as [->|Hk2].
      + by rewrite lookup_delete_eq.
      + by rewrite lookup_delete_ne, lookup_insert_ne, lookup_delete_ne. }
  pose proof (add_plain_record src dest) as (Ha & Hb & Hc & Ho).
  assert (FS.exists_ (fs s1) dest = true) as Hex
    by (unfold FS.exists_; by rewrite Hd1).
  assert (cfg s1 !! "last_action" = Some (JObj (<["dest" := dest]>
            (<["src" := src]> {["action" := "add"]})))) as Hlast
    by (rewrite Hcfg1; apply lookup_insert_eq).
  pose proof (undo_add_plain_unfold s1 _ dest src Hlast Ha Hc Hb Hne Ho Hex)
    as Hun.
  split; [|split].
  - intros msg' s2 H. rewrite Hun in H. clear Hun.
    exec.
    all: try done.
    all: repeat match goal with
           | Hc : clear_last_action _ = _ |- _ =>
               apply clear_last_action_inv in Hc as (? & ? & _ & _ & _ & ? & _)
           end; simplify_eq.
    all: split; [match goal with
                 | Hc : cfg _ = delete _ _ |- _ =>
                     rewrite Hc; apply lookup_delete_eq
                 end|].
    all: repeat match goal with
           | Hm : FS.mkdir_p _ _ = Some _ |- _ =>
               rewrite (mkdir_p_existing _ _ Hp1) in Hm; injection Hm as Hm
           end.
    + left. split; [done|].
      match goal with
      | Hmv : FS.move _ dest src = inr _ |- _ =>
          apply (move_file_inv _ _ _ d) in Hmv as [Hmv _];
            [|congruence|apply is_dir_none; congruence]
      end.
      congruence.
    + right. fallback_lands s s2 dest d.
    + right. fallback_lands s s2 dest d.
  - intros Hf. rewrite Hun. clear Hun.
    assert (FS.move (fs s1) dest src =
              inr (<[src := File d]> (delete dest (fs s1)))) as Hmv.
    { apply move_file_ok; [done|by apply is_dir_none|by apply is_dir_true]. }
    eexists. split; [|split; [|split]].
    + unfold try_except at 1. unfold bind at 1. unfold try_except at 1.
      unfold bind at 1.
      rewrite (path_mkdir_ok _ (fs s1)) by auto using mkdir_p_existing.
      unfold bind at 1.
      rewrite (shutil_move_ok _ _ (<[src := File d]> (delete dest (fs s1))))
        by done.
      unfold bind at 1.
      unfold clear_last_action, cfg_pop, get_cfg. unfold bind at 1. simpl.
      unfold bind at 1. simpl. rewrite save_config_ok by done.
      reflexivity.
    + simpl. done.
    + simpl. rewrite Hcfg1. apply delete_insert_eq.
    + simpl. done.
  - intros s1' Hsame Hgone.
    apply (undo_add_missing s1'
             (<["dest" := dest]> (<["src" := src]> {["action" := "add"]}))
             dest); [by rewrite Hsame|done..].
Qed.

(** ** Running forward when the environment raises no fault *)

Lemma shutil_move_err a b e s :
  faults s = [] -> FS.move (fs s) a b = inl e ->
  shutil_move a b s = (Raise e, s).
Proof.
  intros Hf Hm. unfold shutil_move, bind. rewrite take_fault_none by done.
  by rewrite Hm.
Qed.

Lemma path_mkdir_err p s :
  faults s = [] -> FS.mkdir_p p (fs s) = None ->
  path_mkdir p s = (Raise (OSError ("File exists: '" ++ p ++ "'")), s).
Proof.
  intros Hf Hm. unfold path_mkdir, bind. rewrite take_fault_none by done.
  by rewrite Hm.
Qed.

(** The three ways the overwrite question can go. *)
Lemma confirm_cases force prompt s :
  let ask : M bool :=
    if negb force then (ans <- input prompt ;; ret (said_yes ans))%py
    else ret true in
  (stdin s = [] /\ force = false /\ ask s = (Raise EOFError, s)) \/
  (exists ans rest, stdin s = ans :: rest /\ force = false /\
                    said_yes ans = false /\
                    ask s = (Val false, set_stdin rest s)) \/
  (exists s0, confirmed force s s0 /\ ask s = (Val true, s0)).
Proof.
  unfold confirmed. destruct force; simpl.
  - right. right. by exists s.
  - unfold bind, input. destruct (stdin s) as [|ans rest] eqn:E.
    + by left.
    + right. simpl. destruct (said_yes ans) eqn:Hy.
      * right. by eexists.
      * left. by exists ans, rest.
Qed.

Lemma confirmed_frame force s s0 :
  confirmed force s s0 ->
  fs s0 = fs s /\ clock s0 = clock s /\ faults s0 = faults s /\
  cwd s0 = cwd s /\ cfg s0 = cfg s /\ disk s0 = disk s.
Proof.
  unfold confirmed. destruct force; [by intros ->|].
  destruct (stdin s); [done|]. by intros [_ ->].
Qed.

(** The trash sequence on a regular file, nothing going wrong. *)
Lemma move_to_trash_ok root p d m1 s :
  faults s = [] ->
  FS.mkdir_p (root // ".trash") (fs s) = Some m1 ->
  fs s !! p = Some (File d) ->
  FS.is_dir (fs s) (trash_path root (clock s) p) = false ->
  move_to_trash root p s =
    (Val (trash_path root (clock s) p, None),
     set_fs (<[trash_path root (clock s) p := File d]> (delete p m1)) s).
Proof.
  intros Hf Hmk Hp Hdir.
  pose proof Hmk as [Htd Hadd]%mkdir_p_spec.
  pose proof (trash_dir_length root) as Hlen.
  unfold move_to_trash, trash_dir_for.
  unfold bind at 1. unfold bind at 1.
  rewrite (path_mkdir_ok _ m1) by done.
  unfold bind at 1. simpl.
  unfold try_except, bind.
  fold (trash_path root (clock s) p).
  rewrite (shutil_move_ok _ _
             (<[trash_path root (clock s) p := File d]> (delete p m1)));
    [done|done|]. simpl.
  apply move_file_ok.
  - by eapply adds_dirs_keep.
  - unfold FS.is_dir in *. rewrite (adds_dirs_long _ _ _ _ Hadd); [done|].
    pose proof (trash_path_length root (clock s) p). lia.
  - rewrite trash_path_parent. by apply is_dir_true.
Qed.

Lemma move_to_trash_stuck root p s :
  faults s = [] ->
  FS.mkdir_p (root // ".trash") (fs s) = None ->
  exists e, move_to_trash root p s = (Raise e, s).
Proof.
  intros Hf Hmk. unfold move_to_trash, trash_dir_for.
  unfold bind at 1. unfold bind at 1.
  rewrite path_mkdir_err by done. eauto.
Qed.

(** ** Overwriting a prompt with itself *)

(** What the overwriting tail of [add_file] and [rename_prompt] does when the
    file to move in is the one that was just trashed: the move fails and the
    trashed file is put back. *)
Lemma self_overwrite_restores p tr d (m1 : gmap string node) s0 :
  faults s0 = [] ->
  tr <> p ->
  m1 !! PathLib.parent p = Some Dir ->
  PathLib.parent p <> p -> PathLib.parent p <> tr ->
  let s1 := set_fs (<[tr := File d]> (delete p m1)) s0 in
  exists e,
    shutil_move p p s1 = (Raise e, s1) /\
    FS.exists_ (fs s1) tr = true /\
    try_except (shutil_move tr p) (fun _ => ret tt) s1 =
      (Val tt, set_fs (<[p := File d]> (delete tr (fs s1))) s1).
Proof.
  intros Hf Hne Hpar Hpp Hpt s1.
  assert (fs s1 !! p = None) as Hp
    by (simpl; rewrite lookup_insert_ne by done; apply lookup_delete_eq).
  assert (fs s1 !! tr = Some (File d)) as Htr
    by (simpl; apply lookup_insert_eq).
  destruct (move_missing (fs s1) p p Hp) as [e He].
  exists e. split; [by apply shutil_move_err|].
  split; [unfold FS.exists_; by rewrite Htr|].
  unfold try_except.
  rewrite (shutil_move_ok _ _ (<[p := File d]> (delete tr (fs s1))));
    [done|done|].
  apply move_file_ok; [done|by apply is_dir_none|].
  apply is_dir_true. simpl.
  rewrite lookup_insert_ne, lookup_delete_ne by done. done.
Qed.

(** X7: Adding a file that already is the prompt it would become. The call
    never succeeds and never touches the configuration; when no fault is
    raised the file is where it was afterwards. *)
Theorem add_in_place root src force d s r s' :
  root // add_base src = src ->
  fs s !! src = Some (File d) ->
  FS.is_dir (fs s) (PathLib.parent src) = true ->
  FS.is_dir (fs s) (trash_path root (clock s) src) = false ->
  add_file root src force s = (r, s') ->
  (forall msg, r <> Val (true, msg)) /\
  same_config s s' /\
  (faults s = [] -> fs s' !! src = Some (File d)).
Proof.
  intros Hsd Hsrc Hpar Hdir H.
  assert (forall msg, r <> Val (true, msg)) as Hr.
  { intros msg ->.
    apply (add_ok_file _ _ _ d) in H as [H1 H2]; rewrite ?Hsd in *;
      [congruence | done | by apply (is_dir_file _ _ d) | done]. }
  pose proof (add_keeps _ _ _ _ _ _ H Hr) as Hsc.
  split; [done|]. split; [done|]. intros Hf.
  assert (FS.exists_ (fs s) src = true) as Hex
    by (unfold FS.exists_; by rewrite Hsrc).
  apply is_dir_true in Hpar.
  unfold add_file in H. rewrite Hsd in H.
  unfold bind at 1 in H. unfold path_exists at 1 in H.
  rewrite Hex in H. simpl in H.
  unfold bind at 1 in H. unfold path_exists at 1 in H.
  rewrite Hex in H. simpl in H.
  unfold bind at 1 in H.
  destruct (confirm_cases force
              (src ++ " already exists. Overwrite? [y/N]: ") s)
    as [(_ & _ & Hc)|[(ans & rest & _ & _ & _ & Hc)|(s0 & Hconf & Hc)]];
    simpl in Hc; rewrite Hc in H; clear Hc.
  - by injection H as _ <-.
  - by injection H as _ <-.
  - simpl in H.
    apply confirmed_frame in Hconf as (Hfs0 & Hc0 & Hf0 & _).
    rewrite <- Hfs0 in Hsrc, Hpar, Hdir. rewrite <- Hc0 in Hdir.
    rewrite <- Hf0 in Hf. clear Hfs0 Hc0 Hf0 Hsc Hex.
    unfold bind at 1 in H.
    destruct (FS.mkdir_p (root // ".trash") (fs s0)) as [m1|] eqn:Hmk.
    + rewrite (move_to_trash_ok _ _ d m1) in H by done.
      pose proof Hmk as [_ Hadd]%mkdir_p_spec.
      set (tr := trash_path root (clock s0) src) in *.
      assert (tr <> src) as Hne by apply trash_path_ne.
      assert (PathLib.parent src <> src) as Hpp by congruence.
      assert (PathLib.parent src <> tr) as Hpt.
      { intros E. rewrite E in Hpar. unfold FS.is_dir in Hdir.
        by rewrite Hpar in Hdir. }
      destruct (self_overwrite_restores src tr d m1 s0 Hf Hne
                  (adds_dirs_keep _ _ _ _ _ Hadd Hpar) Hpp Hpt)
        as (e & Hmv & Hex & Hback).
      unfold bind at 1 in H. unfold try_except at 1 in H.
      unfold bind at 1 in H. rewrite Hmv in H.
      unfold bind at 1 in H. unfold bind at 1 in H.
      unfold path_exists at 1 in H. rewrite Hex in H.
      rewrite Hback in H. simpl in H.
      injection H as _ <-. simpl. apply lookup_insert_eq.
    + destruct (move_to_trash_stuck root src s0 Hf Hmk) as [e He].
      rewrite He in H. by injection H as _ <-.
Qed.

(** X8: Renaming a prompt to its own name (the two names agree once the
    suffix is added). The call never succeeds and never touches the
    configuration; when no fault is raised the file is where it was
    afterwards. *)
Theorem rename_in_place root old new force d s r s' :
  let p := root // with_suffix old in
  with_suffix new = with_suffix old ->
  fs s !! p = Some (File d) ->
  FS.is_dir (fs s) (PathLib.parent p) = true ->
  FS.is_dir (fs s) (trash_path root (clock s) p) = false ->
  rename_prompt root old new force s = (r, s') ->
  (forall msg, r <> Val (true, msg)) /\
  same_config s s' /\
  (faults s = [] -> fs s' !! p = Some (File d)).
Proof.
  intros p. subst p. intros Hsd Hsrc Hpar Hdir H.
  assert (forall msg, r <> Val (true, msg)) as Hr.
  { intros msg ->.
    apply (rename_ok_files _ _ _ _ d d) in H as (_ & H1 & H2 & _);
      rewrite ?Hsd in *;
      [congruence | done | done | done |].
    intros E. symmetry in E. by apply trash_path_ne in E. }
  set (p := root // with_suffix old) in *.
  pose proof (rename_keeps _ _ _ _ _ _ _ H Hr) as Hsc.
  split; [done|]. split; [done|]. intros Hf.
  assert (FS.exists_ (fs s) p = true) as Hex
    by (unfold FS.exists_; by rewrite Hsrc).
  apply is_dir_true in Hpar.
  unfold rename_prompt in H. rewrite Hsd in H. fold p in H.
  unfold bind at 1 in H. unfold path_exists at 1 in H.
  rewrite Hex in H. simpl in H.
  unfold bind at 1 in H. unfold path_exists at 1 in H.
  rewrite Hex in H. simpl in H.
  unfold bind at 1 in H.
  destruct (confirm_cases force
              (p ++ " already exists. Overwrite? [y/N]: ") s)
    as [(_ & _ & Hc)|[(ans & rest & _ & _ & _ & Hc)|(s0 & Hconf & Hc)]];
    simpl in Hc; rewrite Hc in H; clear Hc.
  - by injection H as _ <-.
  - by injection H as _ <-.
  - simpl in H.
    apply confirmed_frame in Hconf as (Hfs0 & Hc0 & Hf0 & _).
    rewrite <- Hfs0 in Hsrc, Hpar, Hdir. rewrite <- Hc0 in Hdir.
    rewrite <- Hf0 in Hf. clear Hfs0 Hc0 Hf0 Hsc Hex.
    unfold bind at 1 in H.
    destruct (FS.mkdir_p (root // ".trash") (fs s0)) as [m1|] eqn:Hmk.
    + rewrite (move_to_trash_ok _ _ d m1) in H by done.
      pose proof Hmk as [_ Hadd]%mkdir_p_spec.
      set (tr := trash_path root (clock s0) p) in *.
      assert (tr <> p) as Hne by apply trash_path_ne.
      assert (PathLib.parent p <> p) as Hpp by congruence.
      assert (PathLib.parent p <> tr) as Hpt.
      { intros E. rewrite E in Hpar. unfold FS.is_dir in Hdir.
        by rewrite Hpar in Hdir. }
      destruct (self_overwrite_restores p tr d m1 s0 Hf Hne
                  (adds_dirs_keep _ _ _ _ _ Hadd Hpar) Hpp Hpt)
        as (e & Hmv & Hex & Hback).
      unfold bind at 1 in H. unfold try_except at 1 in H.
      unfold bind at 1 in H. rewrite Hmv in H.
      unfold bind at 1 in H. unfold bind at 1 in H.
      unfold path_exists at 1 in H. rewrite Hex in H.
      rewrite Hback in H. simpl in H.
      injection H as _ <-. simpl. apply lookup_insert_eq.
    + destruct (move_to_trash_stuck root p s0 Hf Hmk) as [e He].
      rewrite He in H. by injection H as _ <-.
Qed.

(** ** Undoing a removal, in any later state *)

(** Putting a trashed file back onto a path that is not a directory. *)
Lemma restore_over (m m2 m3 : gmap string node) trashed dest data :
  m !! trashed = Some (File data) -> FS.is_dir m dest = false ->
  FS.mkdir_p (PathLib.parent dest) m = Some m2 ->
  FS.move m2 trashed dest = inr m3 ->
  m3 = <[dest := File data]> (delete trashed m2) /\
  (forall k d, m2 !! k = Some (File d) <-> m !! k = Some (File d)).
Proof.
  intros Hfile Hnd Hmk Hmv.
  pose proof Hmk as [_ Hadd]%mkdir_p_spec.
  assert (FS.is_dir m2 dest = false) as Hnd2.
  { unfold FS.is_dir in *.
    destruct (m !! dest) as [[other|]|] eqn:E; [|done|].
    - by rewrite (adds_dirs_keep _ _ _ _ _ Hadd E).
    - destruct (decide (PathLib.parent dest = dest)) as [Hpp|Hpp].
      + rewrite Hpp in *. unfold FS.mkdir_p in *.
        by rewrite mkdir_go_stuck in *.
      + erewrite mkdir_parent_keeps_path by done. by rewrite E. }
  apply (move_file_inv _ _ _ data) in Hmv as [Hmv _];
    [|by eapply adds_dirs_keep|done].
  split; [done|]. intros k d. by eapply adds_dirs_file.
Qed.

(** X2: Undoing a removal, whatever happened since: when the record's
    trashed file is a regular file and the original path is not a directory,
    a successful undo leaves the trashed bytes at the original path -- a
    prompt created there in the meantime is replaced without a question --,
    takes them out of the trash and touches no other file. *)
Theorem undo_remove_replaces s (last : gmap string string) trashed dest data
    msg s' :
  cfg s !! "last_action" = Some (JObj last) ->
  last !! "action" = Some "remove" ->
  last !! "trashed" = Some trashed ->
  last !! "dest" = Some dest ->
  fs s !! trashed = Some (File data) ->
  FS.is_dir (fs s) dest = false ->
  perform_undo s = (Val (true, msg), s') ->
  msg = "restored " ++ PathLib.name dest /\
  fs s' !! dest = Some (File data) /\
  (trashed <> dest -> fs s' !! trashed = None) /\
  (forall k d, k <> dest -> k <> trashed ->
               fs s' !! k = Some (File d) <-> fs s !! k = Some (File d)) /\
  cfg s' !! "last_action" = None.
Proof.
  intros Hlast Hact Htr Hdest Hfile Hnd H.
  pose proof (undo_success_clears _ _ _ H) as [Hcfg _].
  rewrite (undo_remove_unfold _ _ _ _ Hlast Hact Htr Hdest) in H.
  exec.
  match goal with
  | Hc : clear_last_action _ = _ |- _ =>
      apply clear_last_action_inv in Hc as (_ & Hfs' & _)
  end.
  match goal with
  | Hmk : FS.mkdir_p _ _ = Some _, Hmv : FS.move _ _ _ = inr _ |- _ =>
      destruct (restore_over _ _ _ _ _ _ Hfile Hnd Hmk Hmv) as [Hm3 Hkeep]
  end.
  split; [done|]. rewrite Hfs', Hm3.
  split_and!.
  - apply lookup_insert_eq.
  - intros Hne. rewrite lookup_insert_ne by done. apply lookup_delete_eq.
  - intros k d Hk1 Hk2.
    rewrite lookup_insert_ne, lookup_delete_ne by done. apply Hkeep.
  - rewrite Hcfg. apply lookup_delete_eq.
Qed.

(** ** Renaming onto a free name *)

Lemma rename_plain_run root old new force d s :
  let p_old := root // with_suffix old in
  let p_new := root // with_suffix new in
  let c := <["last_action" :=
               JObj (<["new" := p_new]>
                       (<["old" := p_old]> {["action" := "rename"]}))]>
             (cfg s) in
  faults s = [] ->
  fs s !! p_old = Some (File d) ->
  fs s !! p_new = None ->
  FS.is_dir (fs s) (PathLib.parent p_new) = true ->
  rename_prompt root old new force s =
    (Val (true, "renamed " ++ with_suffix old ++ " -> " ++ with_suffix new),
     set_disk (Some c)
       (set_cfg c (set_fs (<[p_new := File d]> (delete p_old (fs s))) s))).
Proof.
  intros p_old p_new c Hf Hold Hnew Hpar.
  unfold rename_prompt. fold p_old p_new.
  unfold bind at 1. unfold path_exists at 1. unfold FS.exists_ at 1.
  rewrite Hold. simpl.
  unfold bind at 1. unfold path_exists at 1. unfold FS.exists_ at 1.
  rewrite Hnew. simpl.
  unfold bind at 1. unfold try_except at 1. unfold bind at 1.
  assert (FS.move (fs s) p_old p_new =
            inr (<[p_new := File d]> (delete p_old (fs s)))) as Hmv
    by (apply move_file_ok; [done|by apply is_dir_none|done]).
  rewrite (shutil_move_ok _ _ _ _ Hf Hmv).
  unfold bind at 1. unfold ret at 1. unfold bind at 1.
  unfold cfg_setitem at 1.
  unfold bind at 1. unfold get_cfg at 1. simpl.
  unfold bind at 1. rewrite save_config_ok by done.
  reflexivity.
Qed.

(** X4: Renaming onto a free name: no question is asked, nothing is trashed,
    the file alone moves, and the action is recorded without an
    [overwritten_trash] entry. *)
Theorem rename_free_target root old new force d s msg s' :
  let p_old := root // with_suffix old in
  let p_new := root // with_suffix new in
  fs s !! p_old = Some (File d) ->
  fs s !! p_new = None ->
  rename_prompt root old new force s = (Val (true, msg), s') ->
  msg = "renamed " ++ with_suffix old ++ " -> " ++ with_suffix new /\
  fs s' = <[p_new := File d]> (delete p_old (fs s)) /\
  stdin s' = stdin s /\
  cfg s' = <["last_action" :=
               JObj (<["new" := p_new]>
                       (<["old" := p_old]> {["action" := "rename"]}))]>
             (cfg s).
Proof.
  intros p_old p_new Hold Hnew H.
  unfold rename_prompt in H. fold p_old p_new in H. run.
  1,2: match goal with
       | Hex : FS.exists_ _ _ = true |- _ =>
           unfold FS.exists_ in Hex; rewrite Hnew in Hex; done
       end.
  repeat (inv_prim; simplify_eq; simpl in * ).
  match goal with
  | Hmv : FS.move _ _ _ = inr _ |- _ =>
      apply (move_file_inv _ _ _ d) in Hmv as [Hmv _];
        [|done|by apply is_dir_none]
  end.
  match goal with
  | Hc : same_config _ _ |- _ => destruct Hc as [Hc1 Hc2]
  end.
  split_and!; try congruence.
Qed.

(** X5: Renaming there and back. With no fault raised, renaming a prompt
    onto a free name and then back again succeeds both times and leaves the
    file system exactly as it was; no input is read. *)
Theorem rename_there_and_back root old new force d s :
  let p_old := root // with_suffix old in
  let p_new := root // with_suffix new in
  faults s = [] ->
  fs s !! p_old = Some (File d) ->
  fs s !! p_new = None ->
  FS.is_dir (fs s) (PathLib.parent p_old) = true ->
  FS.is_dir (fs s) (PathLib.parent p_new) = true ->
  exists s1 s2,
    rename_prompt root old new force s =
      (Val (true, "renamed " ++ with_suffix old ++ " -> " ++ with_suffix new),
       s1) /\
    rename_prompt root new old force s1 =
      (Val (true, "renamed " ++ with_suffix new ++ " -> " ++ with_suffix old),
       s2) /\
    fs s2 = fs s /\ stdin s2 = stdin s.
Proof.
  intros p_old p_new Hf Hold Hnew Hpo Hpn.
  assert (p_old <> p_new) as Hne by congruence.
  assert (PathLib.parent p_old <> p_old) as Hpp.
  { intros E. rewrite E in Hpo. by rewrite (is_dir_file _ _ d) in Hpo. }
  assert (PathLib.parent p_old <> p_new) as Hpq.
  { intros E. rewrite E in Hpo. by rewrite is_dir_none in Hpo. }
  eexists _, _. split; [by apply (rename_plain_run _ _ _ _ d)|].
  split.
  - apply (rename_plain_run _ _ _ _ d); simpl; fold p_old p_new.
    + done.
    + apply lookup_insert_eq.
    + rewrite lookup_insert_ne by done. apply lookup_delete_eq.
    + apply is_dir_true. apply is_dir_true in Hpo.
      rewrite lookup_insert_ne, lookup_delete_ne by done. done.
  - simpl. fold p_old p_new. split; [|done].
    apply map_eq. intros k.
    destruct (decide (k = p_old)) as [->|Hk1].
    + by rewrite lookup_insert_eq.
    + rewrite lookup_insert_ne by done.
      destruct (decide (k = p_new)) as [->|Hk2].
      * by rewrite lookup_delete_eq.
      * by rewrite lookup_delete_ne, lookup_insert_ne, lookup_delete_ne.
Qed.

(** ** Two files trashed under one name *)

(** X9: The trash name carries the time in whole seconds only. When the
    trash already holds a file under the name a removal is about to use (the
    same prompt name, trashed within the same second), the removal replaces
    it: the new bytes take the slot, and bytes that were nowhere else are
    gone. *)
Theorem trash_same_second root name yes d older s msg s' :
  let p := root // with_suffix name in
  let tr := trash_path root (clock s) p in
  fs s !! p = Some (File d) ->
  fs s !! tr = Some (File older) ->
  remove_prompt root name yes s = (Val (true, msg), s') ->
  fs s' !! tr = Some (File d) /\
  (older <> d ->
   (forall k, k <> tr -> fs s !! k <> Some (File older)) ->
   forall k, fs s' !! k <> Some (File older)).
Proof.
  intros p tr Hp Htr H.
  apply remove_ok_inv in H as (s0 & x & tr' & Hfs0 & Hc0 & _ & Hmt & Hfs1 & _).
  fold p in Hmt.
  apply (move_to_trash_file _ _ d) in Hmt
    as (-> & _ & _ & _ & _ & m1 & Hadd & _ & Hx);
    [|by rewrite Hfs0|rewrite Hfs0, Hc0; by apply (is_dir_file _ _ older)].
  rewrite Hc0, <- Hfs1 in Hx. rewrite Hfs0 in Hadd. fold tr in Hx.
  rewrite Hx. split; [apply lookup_insert_eq|].
  intros Hne Honly k Hk.
  destruct (decide (k = tr)) as [->|Hkt].
  - rewrite lookup_insert_eq in Hk. congruence.
  - rewrite lookup_insert_ne in Hk by done.
    destruct (decide (k = p)) as [->|Hkp].
    + by rewrite lookup_delete_eq in Hk.
    + rewrite lookup_delete_ne in Hk by done.
      apply (adds_dirs_file _ _ _ _ _ Hadd) in Hk. by apply (Honly k).
Qed.

(** ** Records [perform_undo] cannot read *)

(** X15: A [last_action] that is not a record the program wrote. An empty
    string or an empty object counts as no record. A non-empty string makes
    [last.get] raise; a [remove] record without its [trashed] or [dest]
    entry, and an [add] record without [dest], make [Path(None)] raise.
    These calls sit outside every [try], so the exception leaves
    [perform_undo]; nothing has been changed by then. *)
Theorem undo_unreadable_record s :
  (cfg s !! "last_action" = Some (JStr EmptyString) \/
   cfg s !! "last_action" = Some (JObj ∅) ->
   perform_undo s = (Val (false, "no action to undo"), s)) /\
  (forall t, t <> EmptyString ->
             cfg s !! "last_action" = Some (JStr t) ->
             perform_undo s = (Raise AttributeError, s)) /\
  (forall last : gmap string string,
      cfg s !! "last_action" = Some (JObj last) ->
      (last !! "action" = Some "remove" /\
       (last !! "trashed" = None \/ last !! "dest" = None)) \/
      (last !! "action" = Some "add" /\ last !! "dest" = None) ->
      perform_undo s = (Raise TypeError, s)).
Proof.
  split_and!.
  - intros [H|H]; unfold perform_undo, bind, get_cfg; by rewrite H.
  - intros t Ht H. unfold perform_undo, bind, get_cfg. rewrite H. simpl.
    by destruct t.
  - intros last H Hbad. unfold perform_undo. unfold bind at 1.
    unfold get_cfg at 1. rewrite H. simpl.
    assert (last <> ∅) as Hne.
    { intros ->. rewrite !lookup_empty in Hbad.
      by destruct Hbad as [[? _]|[? _]]. }
    rewrite (bool_decide_eq_false_2 _ Hne). simpl.
    destruct Hbad as [[Ha [Hb|Hb]]|[Ha Hb]]; rewrite Ha; simpl.
    + by rewrite Hb.
    + rewrite Hb. destruct (last !! "trashed"); done.
    + by rewrite Hb.
Qed.

(** ** Copying a prompt *)

Lemma copy2_inv m src dst m' :
  copy2 m src dst = inr m' ->
  let target := if FS.is_dir m dst then dst // PathLib.name src else dst in
  exists d, m !! src = Some (File d) /\ src <> target /\
            FS.is_dir m target = false /\
            FS.is_dir m (PathLib.parent target) = true /\
            m' = <[target := File d]> m.
Proof.
  intros H target. unfold copy2 in H. fold target in H.
  destruct (m !! src) as [[d|]|]; [|done..].
  destruct (String.eqb_spec src target); [done|].
  destruct (FS.is_dir m target) eqn:E1; [done|].
  destruct (FS.is_dir m (PathLib.parent target)) eqn:E2; [|done].
  injection H as <-. by exists d.
Qed.

Lemma shutil_copy2_inv a b s r s' :
  shutil_copy2 a b s = (r, s') ->
  clock s' = clock s /\ stdin s' = stdin s /\ cwd s' = cwd s /\
  same_config s s' /\
  ((exists e, r = Raise e /\ fs s' = fs s) \/
   (r = Val tt /\ copy2 (fs s) a b = inr (fs s'))).
Proof.
  unfold shutil_copy2, bind. destruct (take_fault s) as [rf sf] eqn:Hf.
  apply take_fault_inv in Hf as (f & -> & Hfs & Hc & Hi & Hw & Hcfg & Hd).
  destruct f.
  - intros [= <- <-]. repeat split; eauto.
  - destruct (copy2 (fs sf) a b) as [e|m] eqn:Hm; intros [= <- <-]; simpl.
    + repeat split; eauto.
    + repeat split; try done. right. rewrite <- Hfs. auto.
Qed.

(** X16: What [copy_prompt] leaves alone. It never raises. Whatever it
    returns, the prompt it read is as it was, as are the configuration and
    its [last_action] record (a copy is not something [undo] knows about),
    and no input is read; a call that does not report success changed no
    file at all. *)
Theorem copy_keeps root name out s r s' :
  copy_prompt root name out s = (r, s') ->
  (exists ok msg, r = Val (ok, msg)) /\
  fs s' !! (root // with_suffix name) = fs s !! (root // with_suffix name) /\
  same_config s s' /\ stdin s' = stdin s /\
  ((forall msg, r <> Val (true, msg)) -> fs s' = fs s).
Proof.
  intros H. unfold copy_prompt in H. run.
  all: try match goal with
       | Hc : shutil_copy2 _ _ _ = _ |- _ =>
           apply shutil_copy2_inv in Hc
             as (_ & ? & _ & ? & [(e & ? & ?)|[? Hcopy]]); simplify_eq
       end.
  - split_and!; eauto. done.
  - apply copy2_inv in Hcopy as (d & Hsrc & Hne & _ & _ & Hm).
    split_and!; eauto.
    + rewrite Hm. by rewrite lookup_insert_ne.
    + intros Hr. by destruct (Hr _ eq_refl).
  - split_and!; eauto. congruence.
Qed.

(** X17: A copy that succeeds, and that it does succeed. The bytes of the
    prompt are written to [out] -- to [out/<file name>] when [out] is a
    directory --, replacing a regular file there; nothing else changes, and
    [out] gets no suffix added. With no fault raised the copy succeeds
    whenever the prompt is a regular file, the target is another path that
    is not a directory, and the target's parent is a directory. *)
Theorem copy_writes_target root name out d s :
  let p := root // with_suffix name in
  let target := if FS.is_dir (fs s) out then out // PathLib.name p else out in
  fs s !! p = Some (File d) ->
  (forall msg s',
      copy_prompt root name out s = (Val (true, msg), s') ->
      msg = "copied " ++ with_suffix name ++ " -> " ++ out /\
      fs s' = <[target := File d]> (fs s) /\ target <> p) /\
  (faults s = [] -> target <> p -> FS.is_dir (fs s) target = false ->
   FS.is_dir (fs s) (PathLib.parent target) = true ->
   copy_prompt root name out s =
     (Val (true, "copied " ++ with_suffix name ++ " -> " ++ out),
      set_fs (<[target := File d]> (fs s)) s)).
Proof.
  intros p target Hp. split.
  - intros msg s' H. unfold copy_prompt in H. fold p in H. run.
    match goal with
    | Hc : shutil_copy2 _ _ _ = _ |- _ =>
        apply shutil_copy2_inv in Hc
          as (_ & _ & _ & _ & [(e & ? & ?)|[_ Hcopy]]); [done|];
        apply copy2_inv in Hcopy as (d' & Hsrc & Hne & _ & _ & Hm)
    end.
    fold target in Hne, Hm. split_and!; [done| |done]. congruence.
  - intros Hf Hne Hnd Hpar.
    unfold copy_prompt. fold p.
    unfold bind at 1. unfold path_exists at 1. unfold FS.exists_ at 1.
    rewrite Hp. simpl.
    unfold bind at 1. unfold try_except at 1. unfold bind at 1.
    unfold shutil_copy2 at 1. unfold bind at 1.
    rewrite take_fault_none by done.
    unfold copy2. fold target. rewrite Hp.
    destruct (String.eqb_spec p target); [congruence|].
    by rewrite Hnd, Hpar.
Qed.

(** ** The order [sorted] uses *)

Lemma ascii_compare_refl (a : ascii) : Ascii.compare a a = Eq.
Proof. unfold Ascii.compare. apply N.compare_refl. Qed.

Lemma ascii_compare_lt_trans (a b c : ascii) :
  Ascii.compare a b = Lt -> Ascii.compare b c = Lt -> Ascii.compare a c = Lt.
Proof.
  unfold Ascii.compare. rewrite !N.compare_lt_iff. lia.
Qed.

Lemma string_compare_refl (a : string) : String.compare a a = Eq.
Proof. induction a as [|c a IH]; simpl; [done|]. by rewrite ascii_compare_refl. Qed.

Lemma string_compare_lt_trans (a b c : string) :
  String.compare a b = Lt -> String.compare b c = Lt ->
  String.compare a c = Lt.
Proof.
  revert b c. induction a as [|x a IH]; intros [|y b] [|z c]; simpl; try done.
  destruct (Ascii.compare x y) eqn:Exy; [|
    |done].
  - apply Ascii.compare_eq_iff in Exy as ->.
    destruct (Ascii.compare y z) eqn:Eyz; [|done..]. apply IH.
  - destruct (Ascii.compare y z) eqn:Eyz; [| |done].
    + apply Ascii.compare_eq_iff in Eyz as <-. by rewrite Exy.
    + by rewrite (ascii_compare_lt_trans _ _ _ Exy Eyz).
Qed.

Lemma str_le_alt a b : str_le a b <-> a = b \/ String.compare a b = Lt.
Proof.
  unfold str_le, String.leb. split.
  - destruct (String.compare a b) eqn:E; [|by right|done].
    left. by apply String.compare_eq_iff.
  - intros [->| ->]; [|done]. by rewrite string_compare_refl.
Qed.

#[local] Instance str_le_trans : Transitive str_le.
Proof.
  intros a b c [->|H1]%str_le_alt [->|H2]%str_le_alt; apply str_le_alt; eauto.
  right. by eapply string_compare_lt_trans.
Qed.

#[local] Instance str_le_total : Total str_le.
Proof.
  intros a b. unfold str_le.
  destruct (String.leb_total a b) as [->| ->]; [by left|by right].
Qed.

#[local] Instance str_le_antisym : AntiSymm (=) str_le.
Proof.
  intros a b H1 H2. apply String.leb_antisym; by apply Is_true_true.
Qed.

Lemma sorted_spec (l : list string) :
  StronglySorted str_le (sorted l) /\ sorted l ≡ₚ l.
Proof.
  split.
  - apply (StronglySorted_merge_sort str_le).
  - apply (merge_sort_Permutation str_le).
Qed.

(** ** The listing *)

Lemma children_spec (m : gmap string node) root p :
  p ∈ children m root <->
  is_Some (m !! p) /\ p <> root /\ PathLib.parent p = root.
Proof.
  unfold children. rewrite list_elem_of_In, filter_In, <- list_elem_of_In.
  rewrite list_elem_of_fmap. split.
  - intros [([k v] & -> & Hk%elem_of_map_to_list) Hf]. simpl in *.
    apply andb_true_iff in Hf as [H1 H2].
    apply negb_true_iff, String.eqb_neq in H1. apply String.eqb_eq in H2.
    eauto.
  - intros ([v Hv] & Hne & Hpar). split.
    + exists (p, v). split; [done|]. by apply elem_of_map_to_list.
    + apply andb_true_iff. split.
      * by apply negb_true_iff, String.eqb_neq.
      * by apply String.eqb_eq.
Qed.

Lemma children_NoDup (m : gmap string node) root : NoDup (children m root).
Proof.
  unfold children. apply NoDup_ListNoDup, List.NoDup_filter, NoDup_ListNoDup.
  apply NoDup_fst_map_to_list.
Qed.

(** The comprehension's condition reads the file system and changes
    nothing. *)
Lemma filter_m_files (l : list string) s :
  filter_m (fun p => f <- path_is_file p ;;
                     ret (f && Str.endswith (PathLib.name p) SUFFIX)) l s =
    (Val (List.filter
            (fun p => match fs s !! p with Some (File _) => true | _ => false end
                      && Str.endswith (PathLib.name p) SUFFIX) l), s).
Proof.
  induction l as [|p l IH]; simpl; [done|].
  unfold bind at 1. unfold bind at 1. unfold path_is_file at 1.
  unfold ret at 1. unfold bind at 1. rewrite IH. unfold ret.
  by destruct (_ && _).
Qed.

Lemma Path_iterdir_inv root s r s' :
  Path_iterdir root s = (r, s') ->
  fs s' = fs s /\ clock s' = clock s /\ stdin s' = stdin s /\
  cwd s' = cwd s /\ same_config s s' /\
  ((exists e, r = Raise e) \/
   (r = Val (children (fs s) root) /\ FS.is_dir (fs s) root = true)).
Proof.
  unfold Path_iterdir, bind. destruct (take_fault s) as [rf sf] eqn:Hf.
  apply take_fault_inv in Hf as (f & -> & Hfs & Hc & Hi & Hw & Hcfg & Hd).
  destruct f.
  - intros [= <- <-]. repeat split; eauto.
  - rewrite Hfs. destruct (FS.is_dir (fs s) root) eqn:E; intros [= <- <-].
    + repeat split; eauto.
    + repeat split; eauto.
Qed.

(** The files the listing shows, before they are printed. *)
Lemma prompt_files_spec (m : gmap string node) root :
  let file_list :=
    sorted (List.filter
              (fun p => match m !! p with Some (File _) => true | _ => false end
                        && Str.endswith (PathLib.name p) SUFFIX)
              (children m root)) in
  StronglySorted str_le file_list /\ NoDup file_list /\
  forall p, p ∈ file_list <-> is_prompt m root p.
Proof.
  intros file_list.
  destruct (sorted_spec
              (List.filter
                 (fun p => match m !! p with Some (File _) => true | _ => false end
                           && Str.endswith (PathLib.name p) SUFFIX)
                 (children m root))) as [Hs Hp].
  fold file_list in Hs, Hp.
  split; [done|]. split.
  - rewrite Hp. apply NoDup_ListNoDup, List.NoDup_filter, NoDup_ListNoDup.
    apply children_NoDup.
  - intros p. rewrite Hp.
    rewrite list_elem_of_In, filter_In, <- list_elem_of_In, children_spec.
    unfold is_prompt. rewrite andb_true_iff. split.
    + intros ((_ & ? & ?) & Hf & ?).
      destruct (m !! p) as [[d|]|]; try done. eauto 6.
    + intros (? & ? & [d Hd] & ?). rewrite Hd. eauto 6.
Qed.

Lemma substring_app_l (a b : string) :
  substring 0 (String.length a) (a ++ b) = a.
Proof.
  induction a as [|c a IH]; simpl.
  - by destruct b.
  - change (String c a ++ b) with (String c (a ++ b)). simpl. by rewrite IH.
Qed.

Lemma drop_end_app (a suf : string) :
  Str.drop_end (String.length suf) (a ++ suf) = a.
Proof.
  unfold Str.drop_end. rewrite length_app.
  replace (String.length a + String.length suf - String.length suf)
    with (String.length a) by lia.
  apply substring_app_l.
Qed.

Lemma substring_split (x : string) (i : nat) :
  i <= String.length x ->
  x = substring 0 i x ++ substring i (String.length x - i) x.
Proof.
  revert i. induction x as [|c x IH]; intros [|i] Hi; simpl in *; try lia.
  - done.
  - change (EmptyString ++ String c (substring 0 (String.length x) x))
      with (String c (substring 0 (String.length x) x)).
    f_equal. clear. induction x as [|c x IH]; simpl; [done|]. by rewrite <- IH.
  - change (String c (substring 0 i x) ++
              substring i (String.length x - i) x)
      with (String c (substring 0 i x ++ substring i (String.length x - i) x)).
    f_equal. apply IH. lia.
Qed.

Lemma endswith_split (x suf : string) :
  Str.endswith x suf = true ->
  x = Str.drop_end (String.length suf) x ++ suf.
Proof.
  unfold Str.endswith, Str.drop_end.
  intros [Hl He]%andb_true_iff. apply Nat.leb_le in Hl.
  apply String.eqb_eq in He.
  rewrite (substring_split x (String.length x - String.length suf)) at 1
    by lia.
  f_equal.
  replace (String.length x - (String.length x - String.length suf))
    with (String.length suf) by lia.
  done.
Qed.

Lemma list_prompts_inv root show_files s lines s' :
  FS.is_dir (fs s) root = true ->
  list_prompts root show_files s = (Val lines, s') ->
  fs s' = fs s /\ same_config s s' /\ stdin s' = stdin s /\
  exists file_list,
    StronglySorted str_le file_list /\ NoDup file_list /\
    (forall p, p ∈ file_list <-> is_prompt (fs s) root p) /\
    lines =
      List.map
        (fun p =>
           let name :=
             Str.drop_end (String.length SUFFIX) (PathLib.name p) in
           if show_files
           then name ++ String (ascii_of_nat 9) (PathLib.name p)
           else name)
        file_list.
Proof.
  intros Hdir H.
  assert (FS.exists_ (fs s) root = true) as Hex.
  { apply is_dir_true in Hdir. unfold FS.exists_. by rewrite Hdir. }
  unfold list_prompts in H.
  unfold bind at 1 in H. unfold path_exists at 1 in H.
  rewrite Hex in H. simpl in H.
  apply bind_inv in H as [(entries & s1 & Hit & H)|(e & H & ?)]; [|done].
  apply Path_iterdir_inv in Hit
    as (Hfs & _ & Hin & _ & Hsc & [[e ?]|[[= ->] _]]); [done|].
  unfold bind at 1 in H. rewrite filter_m_files in H.
  rewrite Hfs in H.
  pose proof (prompt_files_spec (fs s) root) as Hspec. simpl in Hspec.
  destruct show_files; simpl in H; injection H as <- <-;
    (split; [done|]); (split; [done|]); (split; [done|]);
    eexists; (split; [apply Hspec|]); (split; [apply Hspec|]);
    (split; [apply Hspec|]); reflexivity.
Qed.

(** X18: What [list_prompts] prints for a root that is a directory: one line
    for each regular file directly in [root] whose name ends in the suffix,
    in the order of the paths (within one directory: of the file names, by
    code point), each file once; the line is the name without the suffix,
    followed by a tab and the file name when [show_files] is set. Nothing in
    the state changes. With no fault raised the listing is produced. *)
Theorem list_prompts_spec root show_files s :
  FS.is_dir (fs s) root = true ->
  (forall lines s',
      list_prompts root show_files s = (Val lines, s') ->
      fs s' = fs s /\ same_config s s' /\ stdin s' = stdin s /\
      exists file_list,
        StronglySorted str_le file_list /\ NoDup file_list /\
        (forall p, p ∈ file_list <-> is_prompt (fs s) root p) /\
        lines =
          List.map
            (fun p =>
               let name :=
                 Str.drop_end (String.length SUFFIX) (PathLib.name p) in
               if show_files
               then name ++ String (ascii_of_nat 9) (PathLib.name p)
               else name)
            file_list) /\
  (faults s = [] ->
   exists lines, list_prompts root show_files s = (Val lines, s)).
Proof.
  intros Hdir. split; [intros lines s'; by apply list_prompts_inv|].
  assert (FS.exists_ (fs s) root = true) as Hex.
  { apply is_dir_true in Hdir. unfold FS.exists_. by rewrite Hdir. }
  intros Hf. unfold list_prompts.
  unfold bind at 1. unfold path_exists at 1. rewrite Hex. simpl.
  unfold bind at 1. unfold Path_iterdir at 1. unfold bind at 1.
  rewrite take_fault_none by done. rewrite Hdir.
  unfold bind at 1. rewrite filter_m_files.
  destruct show_files; simpl; eauto.
Qed.

(** X19: The names a plain listing prints: [n] is printed exactly when
    [root] holds, directly in it, a regular file named [n] followed by the
    suffix. Files further down -- those in [root/.trash] among them -- are
    never listed. *)
Theorem listed_names root s lines s' n :
  FS.is_dir (fs s) root = true ->
  list_prompts root false s = (Val lines, s') ->
  n ∈ lines <->
  exists p d, PathLib.parent p = root /\ p <> root /\
              fs s !! p = Some (File d) /\ PathLib.name p = n ++ SUFFIX.
Proof.
  intros Hdir H.
  destruct (list_prompts_inv _ _ _ _ _ Hdir H)
    as (_ & _ & _ & fl & _ & _ & Hmem & ->).
  rewrite list_elem_of_In, in_map_iff. split.
  - intros (p & <- & Hp%list_elem_of_In%Hmem).
    destruct Hp as (? & ? & [d ?] & He). exists p, d.
    split_and!; try done. by apply endswith_split.
  - intros (p & d & ? & ? & ? & Hn). exists p. split.
    + rewrite Hn. apply drop_end_app.
    + apply list_elem_of_In, Hmem. unfold is_prompt. split_and!; eauto.
      rewrite Hn. apply endswith_app.
Qed.

(** X20: The listing's edge cases: a root that does not exist gives the one
    line "(no prompts directory)" and changes nothing; a root that is a
    regular file makes [iterdir] raise, and nothing catches it. *)
Theorem list_prompts_no_directory root show_files s :
  (FS.exists_ (fs s) root = false ->
   list_prompts root show_files s = (Val ["(no prompts directory)"], s)) /\
  (forall d r s',
      fs s !! root = Some (File d) ->
      list_prompts root show_files s = (r, s') ->
      (exists e, r = Raise e) /\ fs s' = fs s /\ same_config s s').
Proof.
  split.
  - intros Hex. unfold list_prompts, bind, path_exists. by rewrite Hex.
  - intros d r s' Hroot H. unfold list_prompts in H.
    unfold bind at 1 in H. unfold path_exists at 1 in H.
    unfold FS.exists_ at 1 in H. rewrite Hroot in H. simpl in H.
    apply bind_inv in H as [(entries & s1 & Hit & H)|(e & H & ->)].
    + apply Path_iterdir_inv in Hit
        as (_ & _ & _ & _ & _ & [[e ?]|[_ Hd]]); [done|].
      by rewrite (is_dir_file _ _ d) in Hd.
    + apply Path_iterdir_inv in H as (? & _ & _ & _ & ? & _). eauto.
Qed.

(** ** The listing after a change *)

Lemma StronglySorted_list_filter {A} (R : relation A) (f : A -> bool) l :
  StronglySorted R l -> StronglySorted R (List.filter f l).
Proof.
  induction 1 as [|x l Hl IH Hx]; simpl; [constructor|].
  destruct (f x); [|done]. constructor; [done|].
  rewrite Forall_forall in *. intros y [Hy _]%list_elem_of_In%filter_In.
  by apply Hx, list_elem_of_In.
Qed.

(** Two sorted lists without repetition that hold the same paths are the
    same list: the listing is determined by the set of prompts. *)
Lemma file_list_unique (l1 l2 : list string) :
  StronglySorted str_le l1 -> NoDup l1 ->
  StronglySorted str_le l2 -> NoDup l2 ->
  (forall p, p ∈ l1 <-> p ∈ l2) -> l1 = l2.
Proof.
  intros Hs1 Hn1 Hs2 Hn2 Hmem.
  apply (StronglySorted_unique str_le); [done..|].
  by apply NoDup_Permutation.
Qed.

Lemma trash_dir_ne_root (root : string) : root // ".trash" <> root.
Proof.
  rewrite join_relative by done.
  destruct (String.eqb_spec root ".") as [->|H1]; [done|].
  destruct (String.eqb_spec root EmptyString) as [->|H2]; [done|].
  destruct (String.eqb_spec root "/") as [->|H3]; [done|].
  simpl. intros E. apply (f_equal String.length) in E.
  rewrite !length_app in E. simpl in E. lia.
Qed.

(** The prompts of [root] after a successful removal. *)
Lemma remove_prompts_left root name yes d s msg s1 :
  let p := root // with_suffix name in
  fs s !! p = Some (File d) ->
  FS.is_dir (fs s) (trash_path root (clock s) p) = false ->
  remove_prompt root name yes s = (Val (true, msg), s1) ->
  (FS.is_dir (fs s) root = true -> FS.is_dir (fs s1) root = true) /\
  forall q, is_prompt (fs s1) root q <-> is_prompt (fs s) root q /\ q <> p.
Proof.
  intros p Hp Hdir H.
  apply remove_ok_inv in H as (s0 & x & tr' & Hfs0 & Hc0 & _ & Hmt & Hfs1 & _).
  fold p in Hmt.
  apply (move_to_trash_file _ _ d) in Hmt
    as (-> & _ & _ & _ & _ & m1 & Hadd & _ & Hx);
    [|by rewrite Hfs0|by rewrite Hfs0, Hc0].
  rewrite Hc0, <- Hfs1 in Hx. rewrite Hfs0 in Hadd.
  set (tr := trash_path root (clock s) p) in *.
  assert (forall q, PathLib.parent q = root -> q <> tr) as Hntr.
  { intros q Hq ->. unfold tr in Hq. rewrite trash_path_parent in Hq.
    by apply trash_dir_ne_root in Hq. }
  split.
  - intros Hroot. apply is_dir_true. apply is_dir_true in Hroot.
    rewrite Hx, lookup_insert_ne, lookup_delete_ne.
    + by eapply adds_dirs_keep.
    + congruence.
    + intros E. unfold FS.is_dir in Hdir. by rewrite E, Hroot in Hdir.
  - intros q. unfold is_prompt. rewrite Hx. split.
    + intros (Hq & Hne & [dq Hdq] & He).
      rewrite lookup_insert_ne in Hdq by (apply not_eq_sym; by apply Hntr).
      destruct (decide (q = p)) as [->|Hqp];
        [by rewrite lookup_delete_eq in Hdq|].
      rewrite lookup_delete_ne in Hdq by done.
      apply (adds_dirs_file _ _ _ _ _ Hadd) in Hdq. eauto 8.
    + intros [(Hq & Hne & [dq Hdq] & He) Hqp].
      split_and!; try done. exists dq.
      rewrite lookup_insert_ne by (apply not_eq_sym; by apply Hntr).
      rewrite lookup_delete_ne by done.
      by apply (adds_dirs_file _ _ _ _ _ Hadd).
Qed.

(** X21: Remove, then list. After a successful removal the listing is the
    earlier listing without the line of the removed file: every other prompt
    is still shown, in the same order, and what went to the trash is not. *)
Theorem remove_then_list root name yes d s msg s1 show lines0 s0 lines1 s2 :
  let p := root // with_suffix name in
  let line p :=
    let name := Str.drop_end (String.length SUFFIX) (PathLib.name p) in
    if show : bool then name ++ String (ascii_of_nat 9) (PathLib.name p)
    else name in
  fs s !! p = Some (File d) ->
  FS.is_dir (fs s) (trash_path root (clock s) p) = false ->
  FS.is_dir (fs s) root = true ->
  remove_prompt root name yes s = (Val (true, msg), s1) ->
  list_prompts root show s = (Val lines0, s0) ->
  list_prompts root show s1 = (Val lines1, s2) ->
  exists file_list,
    NoDup file_list /\
    lines0 = List.map line file_list /\
    lines1 = List.map line
               (List.filter (fun q => negb (String.eqb q p)) file_list).
Proof.
  intros p line Hp Hdir Hroot Hrm H0 H1.
  destruct (remove_prompts_left _ _ _ _ _ _ _ Hp Hdir Hrm) as [Hroot1 Hleft].
  fold p in Hleft.
  apply list_prompts_inv in H0
    as (_ & _ & _ & fl0 & Hs0 & Hn0 & Hm0 & ->); [|done].
  apply list_prompts_inv in H1
    as (_ & _ & _ & fl1 & Hs1 & Hn1 & Hm1 & ->); [|by apply Hroot1].
  exists fl0. split; [done|]. split; [done|].
  f_equal. apply file_list_unique; try done.
  - by apply StronglySorted_list_filter.
  - by apply NoDup_ListNoDup, List.NoDup_filter, NoDup_ListNoDup.
  - intros q. rewrite Hm1, Hleft, <- Hm0.
    rewrite (list_elem_of_In (List.filter _ _)), filter_In,
      <- list_elem_of_In.
    rewrite negb_true_iff, String.eqb_neq. done.
Qed.

Lemma join_parent_name (root b : string) :
  root <> EmptyString -> no_slash b = true -> b <> EmptyString ->
  PathLib.parent (root // b) = root /\ PathLib.name (root // b) = b.
Proof.
  intros Hr Hb Hne.
  rewrite join_relative by (try done; by apply is_absolute_no_slash).
  unfold PathLib.parent, PathLib.name.
  destruct (String.eqb_spec root ".") as [->|H1].
  { simpl. change (EmptyString ++ b) with b.
    apply rsplit_None in Hb. by rewrite Hb. }
  destruct (String.eqb_spec root EmptyString) as [->|H2]; [done|].
  destruct (String.eqb_spec root "/") as [->|H3].
  { simpl. change (EmptyString ++ b) with b. apply rsplit_None in Hb.
    by rewrite Hb. }
  simpl. rewrite app_assoc_s, rsplit_join by done. by destruct root.
Qed.

Lemma add_base_suffix src : Str.endswith (add_base src) SUFFIX = true.
Proof.
  unfold add_base. destruct (Str.endswith (PathLib.name src) SUFFIX) eqn:E.
  - done.
  - apply endswith_app.
Qed.

Lemma add_ok_msg root src force s msg s' :
  add_file root src force s = (Val (true, msg), s') ->
  msg = "added prompt " ++ add_base src ++ nl ++ "use /" ++
        Str.drop_end (String.length SUFFIX) (add_base src) ++ " to use it".
Proof.
  intros H. unfold add_file in H. rewrite add_base_suffix in H.
  run; done.
Qed.

(** X22: Add, then list. After a successful add of a regular file, the name
    the success message tells the user to use is one the listing shows. *)
Theorem add_then_listed root src force d s msg s1 lines s2 :
  let dest := root // add_base src in
  let name := Str.drop_end (String.length SUFFIX) (add_base src) in
  root <> EmptyString ->
  fs s !! src = Some (File d) ->
  FS.is_dir (fs s) dest = false ->
  FS.is_dir (fs s) (trash_path root (clock s) dest) = false ->
  add_file root src force s = (Val (true, msg), s1) ->
  FS.is_dir (fs s1) root = true ->
  list_prompts root false s1 = (Val lines, s2) ->
  msg = "added prompt " ++ add_base src ++ nl ++
        "use /" ++ name ++ " to use it" /\
  name ∈ lines.
Proof.
  intros dest name Hr Hsrc Hnd Hdir Hadd Hroot Hls.
  split; [by eapply add_ok_msg|].
  apply (add_ok_file _ _ _ d) in Hadd as [Hdest _]; [|done..].
  fold dest in Hdest.
  destruct (join_parent_name root (add_base src) Hr (add_base_no_slash src))
    as [Hpar Hname].
  { pose proof (add_base_length src). intros E. rewrite E in *.
    simpl in *. lia. }
  fold dest in Hpar, Hname.
  apply list_prompts_inv in Hls
    as (_ & _ & _ & fl & _ & _ & Hmem & ->); [|done].
  apply list_elem_of_In, in_map_iff. exists dest. split.
  - by rewrite Hname.
  - apply list_elem_of_In, Hmem. unfold is_prompt. split_and!; eauto.
    + intros E. rewrite E in Hdest. apply is_dir_true in Hroot. congruence.
    + rewrite Hname. apply add_base_suffix.
Qed.

(** ** The command line *)

Lemma load_config_inv s r s' :
  load_config s = (r, s') ->
  s' = s /\ r = Val (default ∅ (disk s)).
Proof. unfold load_config. destruct (disk s); by intros [= <- <-]. Qed.

Lemma get_root_inv c s r s' :
  get_root c s = (r, s') ->
  s' = s /\ (r = Raise TypeError \/ exists root, r = Val root /\ get_root c = ret root).
Proof.
  unfold get_root. destruct (c !! "root") as [[t|o]|].
  - destruct (Str.truthy t); intros [= <- <-]; eauto.
  - destruct (bool_decide (o = ∅)); intros [= <- <-]; eauto.
  - intros [= <- <-]; eauto.
Qed.

(** [get_root] looks at the ["root"] entry only. *)
Lemma get_root_ext (c c' : gmap string jv) :
  c' !! "root" = c !! "root" -> get_root c' = get_root c.
Proof. unfold get_root. by intros ->. Qed.

Lemma ensure_root_inv root s r s' :
  ensure_root root s = (r, s') ->
  clock s' = clock s /\ stdin s' = stdin s /\ cwd s' = cwd s /\
  same_config s s' /\
  ((exists e, r = Raise e /\ fs s' = fs s) \/
   (r = Val tt /\ FS.exists_ (fs s) root = true /\ s' = s) \/
   (r = Val tt /\ FS.exists_ (fs s) root = false /\
    FS.mkdir_p root (fs s) = Some (fs s'))).
Proof.
  unfold ensure_root, bind, path_exists.
  destruct (FS.exists_ (fs s) root) eqn:E; simpl.
  - intros [= <- <-]. split_and!; try done. right. by left.
  - intros H. apply path_mkdir_inv in H
      as (? & ? & ? & ? & [(e & -> & ?)|[-> ?]]); split_and!; eauto.
Qed.

Lemma ensure_root_there root s :
  FS.exists_ (fs s) root = true -> ensure_root root s = (Val tt, s).
Proof. intros H. unfold ensure_root, bind, path_exists. by rewrite H. Qed.

(** [main] up to the dispatch, for a command other than [setroot]. *)
Lemma main_unfold args c root s :
  load_config s = (Val c, s) -> get_root c = ret root ->
  (forall path, args <> CmdSetroot path) ->
  main args s =
    (ensure_root root ;;
     match args with
     | CmdAdd file force => r <- add_file root file force ;; report r
     | CmdRemove name yes => r <- remove_prompt root name yes ;; report r
     | CmdUndo => r <- perform_undo ;; report r
     | CmdCopy name out => r <- copy_prompt root name out ;; report r
     | CmdList show_files =>
         l <- list_prompts root show_files ;; ret (0%Z, Lines l)
     | CmdRename old new force =>
         r <- rename_prompt root old new force ;; report r
     | CmdSetroot _ | CmdNone => ret (2%Z, HelpText)
     end) (set_cfg c s).
Proof.
  intros Hl Hr Hargs. unfold main. unfold bind at 1. rewrite Hl.
  unfold bind at 1. unfold bind at 1. rewrite Hr. unfold ret at 1.
  destruct args; try done. by destruct (Hargs path).
Qed.


(** X24: A run without a command prints the help text and ends with status 2
    -- after it has made the prompts root if that was missing, with its
    parents. Without a configuration file the root is the built-in default. *)
Theorem main_without_command c root s :
  load_config s = (Val c, s) -> get_root c = ret root ->
  (disk s = None -> root = DEFAULT_ROOT) /\
  (forall r s',
      main CmdNone s = (r, s') ->
      (exists e, r = Raise e) \/
      (r = Val (2%Z, HelpText) /\ FS.exists_ (fs s') root = true)) /\
  (forall m,
      faults s = [] -> FS.exists_ (fs s) root = false ->
      FS.mkdir_p root (fs s) = Some m ->
      main CmdNone s = (Val (2%Z, HelpText), set_fs m (set_cfg c s))).
Proof.
  intros Hl Hr. split_and!.
  - intros Hd. unfold load_config in Hl. rewrite Hd in Hl.
    injection Hl as <-.
    assert (get_root ∅ s = ret root s) as E by (by rewrite Hr).
    by injection E as <-.
  - intros r s' H. rewrite (main_unfold _ c root) in H by done.
    apply bind_inv in H as [(u & s1 & He & H)|(e & He & ->)]; [|eauto].
    injection H as <- <-. right. split; [done|].
    apply ensure_root_inv in He
      as (_ & _ & _ & _ & [(e & ? & _)|[(_ & ? & ->)|(_ & _ & Hm)]]);
      try done.
    apply mkdir_p_spec in Hm as [Hm _]. unfold FS.exists_. by rewrite Hm.
  - intros m Hf Hex Hm. rewrite (main_unfold _ c root) by done.
    unfold bind, ensure_root, bind, path_exists. simpl. rewrite Hex. simpl.
    rewrite (path_mkdir_ok _ m) by done. done.
Qed.

(** ** Remove and undo as two runs of the program *)

Lemma take_fault_cons b l s :
  faults s = b :: l -> take_fault s = (Val b, set_faults l s).
Proof. unfold take_fault. by intros ->. Qed.

(** A confirmed removal of a regular file, step by step: the environment
    lets [mkdir] and the move through, and [saved] tells whether the
    configuration could be written. *)
Lemma remove_run root name d m1 (saved : bool) s :
  let p := root // with_suffix name in
  let tr := trash_path root (clock s) p in
  let c1 := <["last_action" :=
                JObj (<["trashed" := tr]>
                        (<["dest" := p]> {["action" := "remove"]}))]>
              (cfg s) in
  faults s = (if saved then [] else [false; false; true]) ->
  fs s !! p = Some (File d) ->
  FS.is_dir (fs s) tr = false ->
  FS.mkdir_p (root // ".trash") (fs s) = Some m1 ->
  remove_prompt root name true s =
    (Val (true, "removed " ++ with_suffix name ++ " (moved to trash)"),
     set_faults []
       (set_disk (if saved then Some c1 else disk s)
          (set_cfg c1 (set_fs (<[tr := File d]> (delete p m1)) s)))).
Proof.
  intros p tr c1 Hf Hp Hdir Hmk.
  pose proof Hmk as [Htd Hadd]%mkdir_p_spec.
  assert (FS.move m1 p tr = inr (<[tr := File d]> (delete p m1))) as Hmv.
  { apply move_file_ok.
    - by eapply adds_dirs_keep.
    - unfold FS.is_dir in *. rewrite (adds_dirs_long _ _ _ _ Hadd); [done|].
      pose proof (trash_path_length root (clock s) p) as Hl. fold tr in Hl.
      pose proof (trash_dir_length root). lia.
    - unfold tr. rewrite trash_path_parent. by apply is_dir_true. }
  unfold remove_prompt. fold p.
  unfold bind at 1. unfold path_exists at 1. unfold FS.exists_ at 1.
  rewrite Hp. simpl.
  unfold bind at 1. unfold ret at 1. simpl.
  unfold bind at 1.
  assert (move_to_trash root p s =
            (Val (tr, None),
             set_faults (if saved then [] else [true])
               (set_fs (<[tr := File d]> (delete p m1)) s)))
    as ->.
  { unfold move_to_trash, trash_dir_for, path_mkdir, shutil_move, time_time.
    unfold try_except, bind, ret, take_fault.
    subst tr. unfold trash_path in *.
    destruct saved; rewrite Hf; simpl; rewrite Hmk; simpl;
      rewrite ?Hf; simpl; rewrite Hmv; destruct s; simpl in *; by subst. }
  unfold bind at 1. unfold cfg_setitem at 1.
  unfold bind at 1. unfold get_cfg at 1. simpl.
  unfold bind at 1. unfold save_config, try_except, bind, take_fault. simpl.
  destruct saved; simpl; [|done]. destruct s; simpl in *. by subst.
Qed.

Lemma undo_remove_run s (last : gmap string string) trashed dest d :
  let c' := delete "last_action" (cfg s) in
  faults s = [] ->
  cfg s !! "last_action" = Some (JObj last) ->
  last !! "action" = Some "remove" ->
  last !! "trashed" = Some trashed ->
  last !! "dest" = Some dest ->
  fs s !! trashed = Some (File d) ->
  fs s !! dest = None ->
  FS.is_dir (fs s) (PathLib.parent dest) = true ->
  perform_undo s =
    (Val (true, "restored " ++ PathLib.name dest),
     set_disk (Some c')
       (set_cfg c' (set_fs (<[dest := File d]> (delete trashed (fs s))) s))).
Proof.
  intros c' Hf Hlast Ha Ht Hd Htr Hdest Hpar.
  rewrite (undo_remove_unfold _ _ _ _ Hlast Ha Ht Hd).
  assert (FS.move (fs s) trashed dest =
            inr (<[dest := File d]> (delete trashed (fs s)))) as Hmv
    by (apply move_file_ok; [done|by apply is_dir_none|done]).
  apply is_dir_true in Hpar.
  unfold bind at 1. unfold path_exists at 1.
  unfold FS.exists_ at 1. rewrite Htr. simpl.
  unfold bind at 1. unfold try_except at 1. unfold bind at 1.
  rewrite (path_mkdir_ok _ (fs s)) by auto using mkdir_p_existing.
  unfold bind at 1.
  rewrite (shutil_move_ok _ _ (<[dest := File d]> (delete trashed (fs s))))
    by done.
  unfold ret at 1. unfold bind at 1.
  unfold clear_last_action, cfg_pop, get_cfg. unfold bind at 1. simpl.
  unfold bind at 1. simpl. rewrite save_config_ok by done.
  reflexivity.
Qed.

Lemma set_cfg_same s : set_cfg (cfg s) s = s.
Proof. by destruct s. Qed.

(** X25: Remove in one run of the program, undo in the next. With no fault
    raised, [pmpts remove -y name] moves the prompt to the trash, writes the
    record to the configuration file and ends with status 0; a following
    [pmpts undo], which starts from the configuration file, puts the bytes
    back, clears the record and ends with status 0. *)
Theorem main_remove_then_undo name d c root s :
  let p := root // with_suffix name in
  let tr := trash_path root (clock s) p in
  load_config s = (Val c, s) -> get_root c = ret root ->
  faults s = [] ->
  FS.is_dir (fs s) root = true ->
  fs s !! p = Some (File d) ->
  FS.is_dir (fs s) (PathLib.parent p) = true ->
  FS.is_dir (fs s) tr = false ->
  is_Some (FS.mkdir_p (root // ".trash") (fs s)) ->
  exists s1 s2,
    main (CmdRemove name true) s =
      (Val (0%Z, Lines ["removed " ++ with_suffix name ++
                        " (moved to trash)"]), s1) /\
    fs s1 !! p = None /\ fs s1 !! tr = Some (File d) /\
    main CmdUndo s1 =
      (Val (0%Z, Lines ["restored " ++ PathLib.name p]), s2) /\
    fs s2 !! p = Some (File d) /\ fs s2 !! tr = None /\
    cfg s2 !! "last_action" = None /\ disk s2 = Some (cfg s2).
Proof.
  intros p tr Hl Hr Hf Hroot Hp Hpar Hdir [m1 Hmk].
  assert (FS.exists_ (fs s) root = true) as Hex.
  { apply is_dir_true in Hroot. unfold FS.exists_. by rewrite Hroot. }
  assert (tr <> p) as Hne by apply trash_path_ne.
  pose proof Hmk as [_ Hadd]%mkdir_p_spec.
  apply is_dir_true in Hroot, Hpar.
  assert (forall q, fs s !! q = Some Dir ->
                    (<[tr := File d]> (delete p m1) : gmap string node) !! q
                    = Some Dir) as Hkeep.
  { intros q Hq. rewrite lookup_insert_ne, lookup_delete_ne.
    - by eapply adds_dirs_keep.
    - congruence.
    - intros E. unfold FS.is_dir in Hdir. by rewrite E, Hq in Hdir. }
  destruct (remove_record_lookups tr p) as (Ha & Ht & Hd).
  set (c1 := <["last_action" :=
                 JObj (<["trashed" := tr]>
                         (<["dest" := p]> {["action" := "remove"]}))]> c).
  set (s1 := set_faults [] (set_disk (Some c1) (set_cfg c1
               (set_fs (<[tr := File d]> (delete p m1)) (set_cfg c s))))).
  set (c2 := delete "last_action" c1).
  exists s1,
    (set_disk (Some c2)
       (set_cfg c2 (set_fs (<[p := File d]> (delete tr (fs s1))) s1))).
  split.
  { rewrite (main_unfold _ c root) by done.
    unfold bind at 1. rewrite ensure_root_there by done.
    unfold bind at 1.
    rewrite (remove_run root name d m1 true) by done. reflexivity. }
  split; [simpl; rewrite lookup_insert_ne by done; apply lookup_delete_eq|].
  split; [apply lookup_insert_eq|].
  split.
  { rewrite (main_unfold _ c1 root); [|done| |done].
    - change (set_cfg c1 s1) with s1.
      unfold bind at 1. rewrite ensure_root_there;
        [|unfold FS.exists_; simpl; by rewrite (Hkeep root)].
      unfold bind at 1.
      assert (cfg s1 !! "last_action" =
                Some (JObj (<["trashed" := tr]>
                              (<["dest" := p]> {["action" := "remove"]}))))
        as H1 by apply lookup_insert_eq.
      assert (fs s1 !! tr = Some (File d)) as H2 by apply lookup_insert_eq.
      assert (fs s1 !! p = None) as H3
        by (simpl; rewrite lookup_insert_ne by done; apply lookup_delete_eq).
      assert (FS.is_dir (fs s1) (PathLib.parent p) = true) as H4
        by (apply is_dir_true; simpl; by apply Hkeep).
      rewrite (undo_remove_run s1 _ tr p d eq_refl H1 Ha Ht Hd H2 H3 H4).
      reflexivity.
    - rewrite <- Hr. apply get_root_ext. unfold c1.
      by rewrite lookup_insert_ne. }
  simpl.
  split; [apply lookup_insert_eq|].
  split; [rewrite lookup_insert_ne by done; apply lookup_delete_eq|].
  split; [apply lookup_delete_eq|done].
Qed.

(** X26: A record that was not written. When the configuration file cannot
    be written, [pmpts remove -y name] still moves the prompt to the trash,
    says so and ends with status 0; the record lives in that run's memory
    only. The next [pmpts undo] finds nothing to undo and ends with status
    1, with the prompt left in the trash. *)
Theorem main_unsaved_record name d c root s :
  let p := root // with_suffix name in
  let tr := trash_path root (clock s) p in
  load_config s = (Val c, s) -> get_root c = ret root ->
  c !! "last_action" = None ->
  faults s = [false; false; true] ->
  FS.is_dir (fs s) root = true ->
  fs s !! p = Some (File d) ->
  FS.is_dir (fs s) tr = false ->
  is_Some (FS.mkdir_p (root // ".trash") (fs s)) ->
  exists s1 s2,
    main (CmdRemove name true) s =
      (Val (0%Z, Lines ["removed " ++ with_suffix name ++
                        " (moved to trash)"]), s1) /\
    fs s1 !! p = None /\ fs s1 !! tr = Some (File d) /\
    disk s1 = disk s /\
    main CmdUndo s1 = (Val (1%Z, Lines ["no action to undo"]), s2) /\
    fs s2 = fs s1.
Proof.
  intros p tr Hl Hr Hnone Hf Hroot Hp Hdir [m1 Hmk].
  assert (FS.exists_ (fs s) root = true) as Hex.
  { apply is_dir_true in Hroot. unfold FS.exists_. by rewrite Hroot. }
  assert (tr <> p) as Hne by apply trash_path_ne.
  pose proof Hmk as [_ Hadd]%mkdir_p_spec.
  apply is_dir_true in Hroot.
  set (c1 := <["last_action" :=
                 JObj (<["trashed" := tr]>
                         (<["dest" := p]> {["action" := "remove"]}))]> c).
  set (s1 := set_faults [] (set_disk (disk s) (set_cfg c1
               (set_fs (<[tr := File d]> (delete p m1)) (set_cfg c s))))).
  exists s1, (set_cfg c s1).
  split.
  { rewrite (main_unfold _ c root) by done.
    unfold bind at 1. rewrite ensure_root_there by done.
    unfold bind at 1.
    rewrite (remove_run root name d m1 false) by done. reflexivity. }
  split; [simpl; rewrite lookup_insert_ne by done; apply lookup_delete_eq|].
  split; [apply lookup_insert_eq|]. split; [done|].
  assert (load_config s1 = (Val c, s1)) as Hl1.
  { unfold load_config in *. simpl. destruct (disk s); congruence. }
  split; [|done].
  rewrite (main_unfold _ c root) by done.
  unfold bind at 1. rewrite ensure_root_there.
  - unfold bind at 1. rewrite undo_empty by done. done.
  - unfold FS.exists_. simpl.
    rewrite lookup_insert_ne, lookup_delete_ne.
    + by rewrite (adds_dirs_keep _ _ _ _ _ Hadd Hroot).
    + congruence.
    + intros E. unfold FS.is_dir in Hdir. by rewrite E, Hroot in Hdir.
Qed.

Lemma copy_same_config root name out s r s' :
  copy_prompt root name out s = (r, s') -> same_config s s'.
Proof.
  intros H. unfold copy_prompt in H. run.
  all: try match goal with
       | Hc : shutil_copy2 _ _ _ = _ |- _ =>
           apply shutil_copy2_inv in Hc as (_ & _ & _ & ? & _)
       end; done.
Qed.

Lemma report_inv r s code out s' :
  report r s = (Val (code, out), s') ->
  s' = s /\ out = Lines [r.2] /\
  (r.1 = true /\ code = 0%Z \/ r.1 = false /\ code = 1%Z).
Proof.
  unfold report, ret. intros [= <- <- <-]. destruct r as [[] ?]; simpl; eauto.
Qed.

Ltac status_goal :=
  split; [split; intros ?; first [reflexivity | discriminate]|];
  split; [lia|];
  first [ by intros ? | intros _; split; [|by eexists] ].

(** X27: The exit status. [main] ends with 2 exactly when no command was
    given, and with 0 or 1 otherwise. Status 1 comes with one line of output
    and means that nothing was written to the configuration file. *)
Theorem main_exit_status args s code out s' :
  main args s = (Val (code, out), s') ->
  (code = 2%Z <-> args = CmdNone) /\
  (code = 0%Z \/ code = 1%Z \/ code = 2%Z) /\
  (code = 1%Z -> disk s' = disk s /\ exists msg, out = Lines [msg]).
Proof.
  intros H. unfold main in H.
  apply bind_inv in H as [(c & s1 & [-> [= ->]]%load_config_inv & H)
                          |(e & _ & ?)]; [|done].
  apply bind_inv in H as [(u & s1 & [= <- <-] & H)|(e & ? & ?)]; [|done].
  apply bind_inv in H as [(root & s1 & [-> _]%get_root_inv & H)|(e & _ & ?)];
    [|done].
  set (s0 := set_cfg (default ∅ (disk s)) s) in *.
  assert (disk s0 = disk s) as Hd0 by done.
  destruct args.
  - apply bind_inv in H as [(u & s1 & He & H)|(e & ? & ?)]; [|done].
    injection H as <- <- <-. status_goal.
  - unfold bind at 1 in H. unfold cfg_setitem at 1 in H.
    unfold bind at 1 in H. unfold get_cfg at 1 in H. simpl in H.
    apply bind_inv in H as [(u & s2 & Hs & H)|(e & Hs & ?)]; [|done].
    injection H as <- <- <-. status_goal.
  - apply bind_inv in H as [(u & s1 & He & H)|(e & ? & ?)]; [|done].
    apply ensure_root_inv in He as (_ & _ & _ & [_ Hd1] & _).
    apply bind_inv in H as [(r & s2 & Hop & H)|(e & ? & ?)]; [|done].
    apply report_inv in H as (-> & -> & [[Hok ->]|[Hok ->]]).
    + status_goal.
    + status_goal.
      destruct r as [ok msg]. simpl in Hok. subst ok.
      apply add_keeps in Hop as [_ ?]; [congruence|done].
  - apply bind_inv in H as [(u & s1 & He & H)|(e & ? & ?)]; [|done].
    apply ensure_root_inv in He as (_ & _ & _ & [_ Hd1] & _).
    apply bind_inv in H as [(r & s2 & Hop & H)|(e & ? & ?)]; [|done].
    apply report_inv in H as (-> & -> & [[Hok ->]|[Hok ->]]).
    + status_goal.
    + status_goal.
      destruct r as [ok msg]. simpl in Hok. subst ok.
      apply remove_keeps in Hop as [_ ?]; [congruence|done].
  - apply bind_inv in H as [(u & s1 & He & H)|(e & ? & ?)]; [|done].
    apply ensure_root_inv in He as (_ & _ & _ & [_ Hd1] & _).
    apply bind_inv in H as [(r & s2 & Hop & H)|(e & ? & ?)]; [|done].
    apply report_inv in H as (-> & -> & [[Hok ->]|[Hok ->]]).
    + status_goal.
    + status_goal.
      destruct r as [ok msg]. simpl in Hok. subst ok.
      apply undo_keeps in Hop as [_ ?]; [congruence|done].
  - apply bind_inv in H as [(u & s1 & He & H)|(e & ? & ?)]; [|done].
    apply ensure_root_inv in He as (_ & _ & _ & [_ Hd1] & _).
    apply bind_inv in H as [(r & s2 & Hop & H)|(e & ? & ?)]; [|done].
    apply report_inv in H as (-> & -> & [[Hok ->]|[Hok ->]]).
    + status_goal.
    + status_goal.
      apply copy_same_config in Hop as [_ ?]. congruence.
  - apply bind_inv in H as [(u & s1 & He & H)|(e & ? & ?)]; [|done].
    apply bind_inv in H as [(l & s2 & Hop & H)|(e & ? & ?)]; [|done].
    injection H as <- <- <-. status_goal.
  - apply bind_inv in H as [(u & s1 & He & H)|(e & ? & ?)]; [|done].
    apply ensure_root_inv in He as (_ & _ & _ & [_ Hd1] & _).
    apply bind_inv in H as [(r & s2 & Hop & H)|(e & ? & ?)]; [|done].
    apply report_inv in H as (-> & -> & [[Hok ->]|[Hok ->]]).
    + status_goal.
    + status_goal.
      destruct r as [ok msg]. simpl in Hok. subst ok.
      apply rename_keeps in Hop as [_ ?]; [congruence|done].
Qed.

(** ** The further theorems on the sample states *)

(** [add_then_undo]: adding [/home/x] to the empty root and undoing it. *)
Lemma add_then_undo_witness :
  exists s2,
    perform_undo (add_file "/r" "/home/x" false demo_free).2 =
      (Val (true, "moved x.prompt.md back to /home/x"), s2) /\
    fs s2 = fs demo_free.
Proof.
  destruct (add_then_undo "/r" "/home/x" false bytes_new demo_free
              ("added prompt x.prompt.md" ++ nl ++ "use /x to use it")
              (add_file "/r" "/home/x" false demo_free).2)
    as (_ & H & _);
    [vm_compute; reflexivity|vm_compute; reflexivity|vm_compute; reflexivity
    |discriminate|vm_compute; reflexivity|].
  destruct H as (s2 & H1 & H2 & _); [vm_compute; reflexivity|].
  exists s2. split; [exact H1|exact H2].
Defined.

(** [undo_remove_replaces]: the removed prompt was written anew before the
    undo. *)
Lemma undo_remove_replaces_witness :
  fs (perform_undo demo_recreated).2 !! "/r/x.prompt.md" =
    Some (File bytes_old).
Proof.
  destruct (undo_remove_replaces demo_recreated
              (<["trashed" := "/r/.trash/100_x.prompt.md"]>
                 (<["dest" := "/r/x.prompt.md"]> {["action" := "remove"]}))
              "/r/.trash/100_x.prompt.md" "/r/x.prompt.md" bytes_old
              "restored x.prompt.md" (perform_undo demo_recreated).2)
    as (_ & H & _); [vm_compute; reflexivity..|].
  exact H.
Defined.

(** [undo_add_overwritten] on [demo_added]. *)
Lemma undo_add_overwritten_witness :
  fs demo_undone !! "/r/x.prompt.md" = None /\
  fs demo_undone !! "/r/.trash/100_x.prompt.md.added" = Some (File bytes_old).
Proof.
  destruct (undo_add_overwritten demo_added
              (<["overwritten_trash" := "/r/.trash/100_x.prompt.md"]>
                 (<["dest" := "/r/x.prompt.md"]>
                    (<["src" := "/home/x"]> {["action" := "add"]})))
              "/r/x.prompt.md" "/r/.trash/100_x.prompt.md"
              bytes_new bytes_old
              "restored overwritten prompt and moved new added file to trash"
              demo_undone)
    as (H1 & H2 & _);
    [vm_compute; reflexivity|vm_compute; reflexivity|vm_compute; reflexivity
    |vm_compute; reflexivity|discriminate|discriminate
    |vm_compute; reflexivity|vm_compute; reflexivity|vm_compute; reflexivity
    |vm_compute; reflexivity|].
  split; [exact H1|exact H2].
Defined.

(** [rename_free_target]: renaming [x] to the free name [y]. *)
Lemma rename_free_target_witness :
  fs (rename_prompt "/r" "x" "y" false demo).2 =
    <["/r/y.prompt.md" := File bytes_old]> (delete "/r/x.prompt.md" (fs demo)).
Proof.
  destruct (rename_free_target "/r" "x" "y" false bytes_old demo
              "renamed x.prompt.md -> y.prompt.md"
              (rename_prompt "/r" "x" "y" false demo).2)
    as (_ & H & _); [vm_compute; reflexivity..|].
  exact H.
Defined.

(** [rename_there_and_back] on [demo]. *)
Lemma rename_there_and_back_witness :
  exists s1 s2,
    rename_prompt "/r" "x" "y" false demo =
      (Val (true, "renamed x.prompt.md -> y.prompt.md"), s1) /\
    rename_prompt "/r" "y" "x" false s1 =
      (Val (true, "renamed y.prompt.md -> x.prompt.md"), s2) /\
    fs s2 = fs demo.
Proof.
  destruct (rename_there_and_back "/r" "x" "y" false bytes_old demo)
    as (s1 & s2 & H1 & H2 & H3 & _); [vm_compute; reflexivity..|].
  exists s1, s2. split; [exact H1|]. split; [exact H2|exact H3].
Defined.

(** [rename_rollback]: the final move of a forced rename is refused. *)
Lemma rename_rollback_witness :
  exists s3,
    rename_prompt "/r" "y" "x" true (set_faults [false; false; true] demo2) =
      (Val (false, "Failed to rename: Permission denied: '/r/y.prompt.md'"),
       s3) /\
    cfg s3 = cfg demo2.
Proof.
  destruct (rename_rollback "/r" "y" "x" true bytes_old
              (set_faults [false; false; true] demo2)
              (set_faults [false; false; true] demo2)
              (move_to_trash "/r" "/r/x.prompt.md"
                 (set_faults [false; false; true] demo2)).2
              "/r/.trash/100_x.prompt.md"
              (OSError "Permission denied: '/r/y.prompt.md'")
              (shutil_move "/r/y.prompt.md" "/r/x.prompt.md"
                 (move_to_trash "/r" "/r/x.prompt.md"
                    (set_faults [false; false; true] demo2)).2).2)
    as (H1 & _ & H3 & _); [vm_compute; reflexivity..|].
  eexists. split; [exact H1|exact H3].
Defined.

(** [add_in_place]: adding the prompt [x.prompt.md] of the root itself. *)
Lemma add_in_place_witness :
  fs (add_file "/r" "/r/x.prompt.md" true demo).2 !! "/r/x.prompt.md" =
    Some (File bytes_old).
Proof.
  destruct (add_in_place "/r" "/r/x.prompt.md" true bytes_old demo
              (add_file "/r" "/r/x.prompt.md" true demo).1
              (add_file "/r" "/r/x.prompt.md" true demo).2)
    as (_ & _ & H); [vm_compute; reflexivity..|].
  apply H. vm_compute. reflexivity.
Defined.

(** [rename_in_place]: renaming [x] to [x.prompt.md]. *)
Lemma rename_in_place_witness :
  fs (rename_prompt "/r" "x" "x.prompt.md" true demo).2 !! "/r/x.prompt.md" =
    Some (File bytes_old).
Proof.
  destruct (rename_in_place "/r" "x" "x.prompt.md" true bytes_old demo
              (rename_prompt "/r" "x" "x.prompt.md" true demo).1
              (rename_prompt "/r" "x" "x.prompt.md" true demo).2)
    as (_ & _ & H); [vm_compute; reflexivity..|].
  apply H. vm_compute. reflexivity.
Defined.

(** [trash_same_second]: the prompt written anew is removed again. *)
Lemma trash_same_second_witness :
  fs (remove_prompt "/r" "x" true demo_recreated).2
    !! "/r/.trash/100_x.prompt.md" = Some (File bytes_new).
Proof.
  destruct (trash_same_second "/r" "x" true bytes_new bytes_old demo_recreated
              "removed x.prompt.md (moved to trash)"
              (remove_prompt "/r" "x" true demo_recreated).2)
    as (H & _); [vm_compute; reflexivity..|].
  exact H.
Defined.

(** [remove_failure_keeps_files]: a declined removal. *)
Lemma remove_failure_keeps_files_witness :
  fs (remove_prompt "/r" "x" false demo_no).2 !! "/r/x.prompt.md" =
    Some (File bytes_old).
Proof.
  apply (remove_failure_keeps_files "/r" "x" false demo_no
           (Val (false, "aborted"))).
  - vm_compute. reflexivity.
  - discriminate.
  - vm_compute. reflexivity.
Defined.

(** [blocked_trash_escapes]: [/r/.trash] is a regular file. *)
Lemma blocked_trash_escapes_witness :
  exists e,
    (remove_prompt "/r" "x" true
       (set_fs (<["/r/.trash" := File bytes_new]> (fs demo)) demo)).1 =
      Raise e.
Proof.
  destruct (proj1 blocked_trash_escapes "/r" "x" bytes_new
              (set_fs (<["/r/.trash" := File bytes_new]> (fs demo)) demo)
              (remove_prompt "/r" "x" true
                 (set_fs (<["/r/.trash" := File bytes_new]> (fs demo)) demo)).1
              (remove_prompt "/r" "x" true
                 (set_fs (<["/r/.trash" := File bytes_new]> (fs demo)) demo)).2)
    as (H & _); [vm_compute; reflexivity..|].
  exact H.
Defined.

(** [eof_escapes]: an overwriting add with nothing to read. *)
Lemma eof_escapes_witness :
  add_file "/r" "/home/x" false demo = (Raise EOFError, demo).
Proof.
  apply (proj1 eof_escapes "/r" "/home/x" demo); vm_compute; reflexivity.
Defined.

(** [not_found_unchanged]: removing a prompt that is not there. *)
Lemma not_found_unchanged_witness :
  remove_prompt "/r" "z" false demo =
    (Val (false, "Not found: z.prompt.md"), demo).
Proof.
  apply (proj1 (proj2 not_found_unchanged) "/r" "z" false demo).
  vm_compute. reflexivity.
Defined.

(** [declined_unchanged]: answering no to a removal. *)
Lemma declined_unchanged_witness :
  remove_prompt "/r" "x" false demo_no = (Val (false, "aborted"), demo).
Proof.
  apply (proj1 declined_unchanged "/r" "x" "n" [] demo_no);
    vm_compute; reflexivity.
Defined.

(** [undo_unreadable_record]: a string where the record should be. *)
Lemma undo_unreadable_record_witness :
  perform_undo (set_cfg {["last_action" := JStr "oops"]} demo) =
    (Raise AttributeError, set_cfg {["last_action" := JStr "oops"]} demo).
Proof.
  apply (proj1 (proj2 (undo_unreadable_record
                         (set_cfg {["last_action" := JStr "oops"]} demo)))
           "oops").
  - discriminate.
  - vm_compute. reflexivity.
Defined.

(** [copy_keeps]: copying [x] out of the root. *)
Lemma copy_keeps_witness :
  fs (copy_prompt "/r" "x" "/home/out.md" demo).2 !! "/r/x.prompt.md" =
    fs demo !! "/r/x.prompt.md" /\
  cfg (copy_prompt "/r" "x" "/home/out.md" demo).2 = cfg demo.
Proof.
  destruct (copy_keeps "/r" "x" "/home/out.md" demo
              (copy_prompt "/r" "x" "/home/out.md" demo).1
              (copy_prompt "/r" "x" "/home/out.md" demo).2)
    as (_ & H1 & [H2 _] & _); [vm_compute; reflexivity|].
  split; [exact H1|exact H2].
Defined.

(** [copy_writes_target]: the copy lands at [/home/out.md]. *)
Lemma copy_writes_target_witness :
  copy_prompt "/r" "x" "/home/out.md" demo =
    (Val (true, "copied x.prompt.md -> /home/out.md"),
     set_fs (<["/home/out.md" := File bytes_old]> (fs demo)) demo).
Proof.
  destruct (copy_writes_target "/r" "x" "/home/out.md" bytes_old demo)
    as (_ & H); [vm_compute; reflexivity|].
  apply H; [vm_compute; reflexivity|discriminate
           |vm_compute; reflexivity|vm_compute; reflexivity].
Defined.

(** [list_prompts_spec]: the listing of [demo2] is produced. *)
Lemma list_prompts_spec_witness :
  exists lines, list_prompts "/r" false demo2 = (Val lines, demo2).
Proof.
  destruct (list_prompts_spec "/r" false demo2) as (_ & H);
    [vm_compute; reflexivity|].
  apply H. vm_compute. reflexivity.
Defined.

(** [listed_names]: what being listed means for [x] in [demo2]. *)
Lemma listed_names_witness :
  "x" ∈ ["x"; "y"] <->
  exists p d, PathLib.parent p = "/r" /\ p <> "/r" /\
              fs demo2 !! p = Some (File d) /\
              PathLib.name p = "x" ++ SUFFIX.
Proof.
  apply (listed_names "/r" demo2 ["x"; "y"] demo2 "x");
    vm_compute; reflexivity.
Defined.

(** [list_prompts_no_directory]: listing a root that does not exist. *)
Lemma list_prompts_no_directory_witness :
  list_prompts "/q" false demo = (Val ["(no prompts directory)"], demo).
Proof.
  apply (proj1 (list_prompts_no_directory "/q" false demo)).
  vm_compute. reflexivity.
Defined.

(** [remove_then_list]: listing [demo2] before and after removing [x]. *)
Lemma remove_then_list_witness :
  exists file_list,
    NoDup file_list /\
    ["x"; "y"] =
      List.map (fun p => Str.drop_end (String.length SUFFIX) (PathLib.name p))
               file_list /\
    ["y"] =
      List.map (fun p => Str.drop_end (String.length SUFFIX) (PathLib.name p))
               (List.filter
                  (fun q => negb (String.eqb q ("/r" // with_suffix "x")))
                  file_list).
Proof.
  apply (remove_then_list "/r" "x" true bytes_old demo2
           "removed x.prompt.md (moved to trash)"
           (remove_prompt "/r" "x" true demo2).2 false
           ["x"; "y"] demo2 ["y"] (remove_prompt "/r" "x" true demo2).2);
    vm_compute; reflexivity.
Defined.

(** [add_then_listed]: after the forced add in [demo], [x] is listed. *)
Lemma add_then_listed_witness :
  "x" ∈ ["x"].
Proof.
  destruct (add_then_listed "/r" "/home/x" true bytes_new demo
              ("added prompt x.prompt.md" ++ nl ++ "use /x to use it")
              demo_added ["x"] demo_added)
    as (_ & H);
    [discriminate|vm_compute; reflexivity|vm_compute; reflexivity
    |vm_compute; reflexivity|vm_compute; reflexivity|vm_compute; reflexivity
    |vm_compute; reflexivity|].
  exact H.
Defined.


(** [main_without_command]: a first run without configuration. *)
Lemma main_without_command_witness :
  main CmdNone demo =
    (Val (2%Z, HelpText),
     set_fs (default ∅ (FS.mkdir_p DEFAULT_ROOT (fs demo))) (set_cfg ∅ demo)).
Proof.
  destruct (main_without_command ∅ DEFAULT_ROOT demo) as (_ & _ & H);
    [vm_compute; reflexivity|reflexivity|].
  apply H; vm_compute; reflexivity.
Defined.

(** [main_remove_then_undo] on [demo_cli]. *)
Lemma main_remove_then_undo_witness :
  exists s1 s2,
    main (CmdRemove "x" true) demo_cli =
      (Val (0%Z, Lines ["removed x.prompt.md (moved to trash)"]), s1) /\
    main CmdUndo s1 = (Val (0%Z, Lines ["restored x.prompt.md"]), s2) /\
    fs s2 !! "/r/x.prompt.md" = Some (File bytes_old).
Proof.
  destruct (main_remove_then_undo "x" bytes_old {["root" := JStr "/r"]} "/r"
              demo_cli)
    as (s1 & s2 & H1 & _ & _ & H2 & H3 & _);
    [vm_compute; reflexivity|reflexivity|vm_compute; reflexivity
    |vm_compute; reflexivity|vm_compute; reflexivity|vm_compute; reflexivity
    |vm_compute; reflexivity|vm_compute; by eexists|].
  exists s1, s2. split; [exact H1|]. split; [exact H2|exact H3].
Defined.

(** [main_unsaved_record] on [demo_cli_unsaved]. *)
Lemma main_unsaved_record_witness :
  exists s1 s2,
    main (CmdRemove "x" true) demo_cli_unsaved =
      (Val (0%Z, Lines ["removed x.prompt.md (moved to trash)"]), s1) /\
    main CmdUndo s1 = (Val (1%Z, Lines ["no action to undo"]), s2).
Proof.
  destruct (main_unsaved_record "x" bytes_old {["root" := JStr "/r"]} "/r"
              demo_cli_unsaved)
    as (s1 & s2 & H1 & _ & _ & _ & H2 & _);
    [vm_compute; reflexivity|reflexivity|vm_compute; reflexivity
    |vm_compute; reflexivity|vm_compute; reflexivity|vm_compute; reflexivity
    |vm_compute; reflexivity|vm_compute; by eexists|].
  exists s1, s2. split; [exact H1|exact H2].
Defined.

(** [main_exit_status]: an undo with nothing to undo ends with 1. *)
Lemma main_exit_status_witness :
  disk (main CmdUndo demo_cli).2 = disk demo_cli.
Proof.
  destruct (main_exit_status CmdUndo demo_cli 1%Z
              (Lines ["no action to undo"]) (main CmdUndo demo_cli).2)
    as (_ & _ & H); [vm_compute; reflexivity|].
  destruct H as [H _]; [reflexivity|]. exact H.
Defined.
